(** * job_tracking: the extraction pipeline of [job_tracker.py]

    A shallow embedding of [EnhancedJobTracker] (src/job_tracker.py) and the
    properties of its extraction pipeline: content acquisition, the LLM
    extraction client with its model fallback, the heuristic extractor, the
    orchestrator and the duplicate check; and, around the pipeline, the
    listing of the stored records, the details view and the 180-day rule of
    [JobManager] (src/job_manager.py), and the handlers of src/server.py
    that add or change a record.

    Modelling choices.
    - Text is Rocq's [string]: a sequence of 8-bit code points, read as
      Latin-1.  [str.lower], [str.strip] and the character classes of [re]
      are written out for that range.
    - Python values that travel through JSON ([json.loads], [jobs.json]) are
      the inductive [pyval] (a JSON number with a fraction is a rational); a
      [dict] is an association list in insertion order, kept free of
      duplicate keys by [dict_set].
    - Regular expressions are parsed from the pattern strings of the source
      by [re_compile] and run by a backtracking matcher with the priorities
      of [re] (leftmost start, ordered alternation, greedy or lazy repeats).
      Only the constructs that the patterns of the source use are accepted.
    - The tracker object, the file [jobs.json], standard output, the calls
      made to the inference service and the sleeps are one explicit state
      [tracker]; methods are functions in a state-and-exception monad, and a
      [try]/[except] of the source is [try_except].  The manager object has
      the same state, and a record changed in place is replaced in the list
      that the object holds.
    - The outside world (HTTP, the inference service, the file system, the
      PDF reader and its installation, [json.loads], the clock, [str] of a
      printed value) is a record [world] of functions.  [str.title] of a
      printed key and the number of days between a date and today are
      parameters of the sections that use them.
    - A handler of the server is a function of the JSON body of the
      request, or of the fields that it reads from it, and of the content
      of [jobs.json].
    - Not modelled: the interactive loops [run] and [update_job_status],
      [display_jobs_numbered] and [show_statistics] of the manager, the
      handlers [get_jobs], [get_stats] and [upload_file] of the server,
      and shortcut_listener.py. *)

From Stdlib Require Import String Ascii List ZArith Lia Bool Arith QArith DecimalString.
Import ListNotations.
Set Warnings "-register-all,-abstract-large-number".
Local Open Scope string_scope.
Local Open Scope nat_scope.

(* ===================================================================== *)
(** ** Python strings *)
(* ===================================================================== *)

Module PyStr.

Definition nl : ascii := ascii_of_nat 10.
Definition dquote : ascii := ascii_of_nat 34.
Definition NL : string := String nl "".
Definition DQ : string := String dquote "".

Definition in_range (lo hi : N) (c : ascii) : bool :=
  let n := N_of_ascii c in (lo <=? n)%N && (n <=? hi)%N.

(** [str.isspace] on one Latin-1 code point; also the class [\s] of [re]. *)
Definition isspace (c : ascii) : bool :=
  let n := N_of_ascii c in
  in_range 9 13 c || in_range 28 32 c || (n =? 133)%N || (n =? 160)%N.

(** The class [\d] of [re] on Latin-1. *)
Definition isdigit (c : ascii) : bool := in_range 48 57 c.

Definition is_upper (c : ascii) : bool :=
  in_range 65 90 c || (in_range 192 222 c && negb (N_of_ascii c =? 215)%N).

Definition is_lower_cased (c : ascii) : bool :=
  in_range 97 122 c || (in_range 224 254 c && negb (N_of_ascii c =? 247)%N).

Definition lower_char (c : ascii) : ascii :=
  if is_upper c then ascii_of_N (N_of_ascii c + 32) else c.

Definition upper_char (c : ascii) : ascii :=
  if is_lower_cased c then ascii_of_N (N_of_ascii c - 32) else c.

(** [s.lower()] *)
Fixpoint lower (s : string) : string :=
  match s with
  | EmptyString => EmptyString
  | String c s' => String (lower_char c) (lower s')
  end.

(** [len(s)] *)
Definition len (s : string) : nat := String.length s.

(** [s[:n]] for [n >= 0] *)
Fixpoint take (n : nat) (s : string) : string :=
  match n, s with
  | S n', String c s' => String c (take n' s')
  | _, _ => EmptyString
  end.

(** [s[n:]] for [n >= 0] *)
Fixpoint drop (n : nat) (s : string) : string :=
  match n, s with
  | S n', String _ s' => drop n' s'
  | _, _ => s
  end.

(** [s[a:b]] for [0 <= a], [0 <= b] *)
Definition slice (a b : nat) (s : string) : string := take (b - a) (drop a s).

Fixpoint lstrip (s : string) : string :=
  match s with
  | String c s' => if isspace c then lstrip s' else s
  | EmptyString => EmptyString
  end.

Fixpoint rstrip (s : string) : string :=
  match s with
  | EmptyString => EmptyString
  | String c s' =>
      match rstrip s' with
      | EmptyString => if isspace c then EmptyString else String c EmptyString
      | r => String c r
      end
  end.

(** [s.strip()] *)
Definition strip (s : string) : string := rstrip (lstrip s).

(** [s.find(c)] for a one-character needle: the first index, or -1. *)
Fixpoint find_from (c : ascii) (s : string) (i : Z) : Z :=
  match s with
  | EmptyString => (-1)%Z
  | String a s' => if Ascii.eqb a c then i else find_from c s' (i + 1)%Z
  end.
Definition find (c : ascii) (s : string) : Z := find_from c s 0%Z.

(** [s.rfind(c)] for a one-character needle: the last index, or -1. *)
Fixpoint rfind_from (c : ascii) (s : string) (i : Z) (last : Z) : Z :=
  match s with
  | EmptyString => last
  | String a s' => rfind_from c s' (i + 1)%Z (if Ascii.eqb a c then i else last)
  end.
Definition rfind (c : ascii) (s : string) : Z := rfind_from c s 0%Z (-1)%Z.

(** [s.startswith(p)] *)
Fixpoint startswith (p s : string) : bool :=
  match p, s with
  | EmptyString, _ => true
  | String a p', String b s' => Ascii.eqb a b && startswith p' s'
  | String _ _, EmptyString => false
  end.

(** [s.endswith(p)] *)
Definition endswith (p s : string) : bool :=
  (len p <=? len s) && String.eqb (drop (len s - len p) s) p.

(** [str(n)] for a natural number below 10, enough for the counters that
    the tracker prints. *)
Definition digit_str (n : nat) : string :=
  String (ascii_of_nat (48 + n)) EmptyString.

(** [str(n)] for a natural number: its decimal digits. *)
Definition str_of_nat (n : nat) : string := NilZero.string_of_uint (Nat.to_uint n).

(** [s * n] *)
Fixpoint times (s : string) (n : nat) : string :=
  match n with
  | 0 => EmptyString
  | S n' => s ++ times s n'
  end.

End PyStr.

(* ===================================================================== *)
(** ** The part of [re] that the tracker uses *)
(* ===================================================================== *)

Module Re.
Import PyStr.

Inductive citem : Type :=
| CChar (c : ascii)            (* a literal character *)
| CRange (lo hi : ascii)       (* lo-hi *)
| CSpace                       (* \s *)
| CDigit.                      (* \d *)

Inductive regex : Type :=
| Eps
| Chr (c : ascii)
| Cls (negated : bool) (items : list citem)
| Dot
| Bol                          (* ^ *)
| Seq (r1 r2 : regex)
| Alt (r1 r2 : regex)
| Group (r : regex)            (* ( ... ): group 1, the only capturing group
                                  of a pattern of the source *)
| Rep (greedy : bool) (r : regex) (lo : nat) (hi : option nat).

Record flags : Type := mkFlags
  { IGNORECASE : bool; MULTILINE : bool; DOTALL : bool }.

Definition no_flags : flags := mkFlags false false false.

(** *** Parsing a pattern *)

Fixpoint read_nat (s : string) (acc : nat) : nat * string :=
  match s with
  | String c s' =>
      if isdigit c then read_nat s' (10 * acc + (nat_of_ascii c - 48))
      else (acc, s)
  | EmptyString => (acc, s)
  end.

(** An escape: [\s], [\d] and [\n] are the only letter escapes that the
    patterns of the source use, any other letter or digit is refused; an
    escaped punctuation character stands for itself. *)
Definition escape_item (c : ascii) : option citem :=
  if Ascii.eqb c "s" then Some CSpace
  else if Ascii.eqb c "d" then Some CDigit
  else if Ascii.eqb c "n" then Some (CChar nl)
  else if in_range 48 57 c || in_range 65 90 c || in_range 97 122 c then None
  else Some (CChar c).

(** The items of a character class, up to the closing bracket. *)
Fixpoint p_items (s : string) : option (list citem * string) :=
  match s with
  | EmptyString => None
  | String "]" s' => Some ([], s')
  | String "\" (String e s') =>
      match escape_item e, p_items s' with
      | Some it, Some (l, rest) => Some (it :: l, rest)
      | _, _ => None
      end
  | String a (String "-" (String b s')) =>
      if Ascii.eqb b "]" then
        Some ([CChar a; CChar "-"], s')
      else if Ascii.eqb b "\" then None
      else
        match p_items s' with
        | Some (l, rest) => Some (CRange a b :: l, rest)
        | None => None
        end
  | String a s' =>
      match p_items s' with
      | Some (l, rest) => Some (CChar a :: l, rest)
      | None => None
      end
  end.

Definition p_class (s : string) : option (regex * string) :=
  match s with
  | String "^" s' =>
      match p_items s' with
      | Some (l, rest) => Some (Cls true l, rest)
      | None => None
      end
  | _ =>
      match p_items s with
      | Some (l, rest) => Some (Cls false l, rest)
      | None => None
      end
  end.

Definition p_lazy (s : string) : bool * string :=
  match s with
  | String "?" s' => (false, s')
  | _ => (true, s)
  end.

(** The quantifier that follows an atom, if any. *)
Definition p_quant (a : regex) (s : string) : option (regex * string) :=
  match s with
  | String "*" s' => let (g, r) := p_lazy s' in Some (Rep g a 0 None, r)
  | String "+" s' => let (g, r) := p_lazy s' in Some (Rep g a 1 None, r)
  | String "?" s' => let (g, r) := p_lazy s' in Some (Rep g a 0 (Some 1), r)
  | String "{" s' =>
      let (lo, s1) := read_nat s' 0 in
      match s1 with
      | String "}" s2 => let (g, r) := p_lazy s2 in Some (Rep g a lo (Some lo), r)
      | String "," s2 =>
          let (hi, s3) := read_nat s2 0 in
          match s3 with
          | String "}" s4 => let (g, r) := p_lazy s4 in Some (Rep g a lo (Some hi), r)
          | _ => None
          end
      | _ => None
      end
  | _ => Some (a, s)
  end.

Definition escape_atom (c : ascii) : option regex :=
  match escape_item c with
  | Some (CChar x) => Some (Chr x)
  | Some it => Some (Cls false [it])
  | None => None
  end.

Fixpoint p_alt (fuel : nat) (s : string) : option (regex * string) :=
  match fuel with
  | 0 => None
  | S f =>
      match p_seq f s with
      | Some (r1, String "|" s') =>
          match p_alt f s' with
          | Some (r2, rest) => Some (Alt r1 r2, rest)
          | None => None
          end
      | other => other
      end
  end
with p_seq (fuel : nat) (s : string) : option (regex * string) :=
  match fuel with
  | 0 => None
  | S f =>
      match s with
      | EmptyString => Some (Eps, s)
      | String "|" _ => Some (Eps, s)
      | String ")" _ => Some (Eps, s)
      | _ =>
          match p_atom f s with
          | Some (a, s1) =>
              match p_quant a s1 with
              | Some (q, s2) =>
                  match p_seq f s2 with
                  | Some (Eps, s3) => Some (q, s3)
                  | Some (r, s3) => Some (Seq q r, s3)
                  | None => None
                  end
              | None => None
              end
          | None => None
          end
      end
  end
with p_atom (fuel : nat) (s : string) : option (regex * string) :=
  match fuel with
  | 0 => None
  | S f =>
      match s with
      | String "(" (String "?" (String ":" s')) =>
          match p_alt f s' with
          | Some (r, String ")" rest) => Some (r, rest)
          | _ => None
          end
      | String "(" s' =>
          match p_alt f s' with
          | Some (r, String ")" rest) => Some (Group r, rest)
          | _ => None
          end
      | String "[" s' => p_class s'
      | String "\" (String e s') =>
          match escape_atom e with
          | Some a => Some (a, s')
          | None => None
          end
      | String "^" s' => Some (Bol, s')
      | String "." s' => Some (Dot, s')
      | String c s' =>
          (* a quantifier with nothing to repeat, or a construct that the
             source does not use *)
          if existsb (Ascii.eqb c) ["*"; "+"; "?"; "{"; "}"; "$"; "\"; ")"; "|"]%char
          then None
          else Some (Chr c, s')
      | EmptyString => None
      end
  end.

(** [re.compile(pattern)]; [None] is [re.error]. *)
Definition re_compile (pattern : string) : option regex :=
  match p_alt (2 * String.length pattern + 2) pattern with
  | Some (r, EmptyString) => Some r
  | _ => None
  end.

(** *** Matching *)

(** One character against one class item.  Under [IGNORECASE] the
    character is lowered and the item is read through [lower] as well, as
    the compiled character set of [re] is. *)
Definition item_match (ic : bool) (it : citem) (c : ascii) : bool :=
  match it with
  | CChar x =>
      if ic then Ascii.eqb (lower_char c) (lower_char x) else Ascii.eqb c x
  | CRange lo hi =>
      let inr (y : ascii) :=
        ((N_of_ascii lo <=? N_of_ascii y) && (N_of_ascii y <=? N_of_ascii hi))%N in
      if ic then inr (lower_char c) || inr (upper_char (lower_char c))
      else inr c
  | CSpace => isspace c
  | CDigit => isdigit c
  end.

Definition class_match (ic : bool) (negated : bool) (items : list citem)
           (c : ascii) : bool :=
  xorb negated (existsb (fun it => item_match ic it c) items).

(** The matcher's position in the subject: the character before it, the
    text after it and its length, its index, and the span of group 1 if
    it is set. *)
Record mstate : Type := mkM
  { m_prev : option ascii;
    m_rest : string;
    m_left : nat;
    m_pos : N;
    m_g1 : option (N * N) }.

Definition advance (st : mstate) (c : ascii) (rest : string) : mstate :=
  mkM (Some c) rest (Nat.pred (m_left st)) (N.succ (m_pos st)) (m_g1 st).

Definition set_g1 (st : mstate) (a b : N) : mstate :=
  mkM (m_prev st) (m_rest st) (m_left st) (m_pos st) (Some (a, b)).

(** Consume one character that satisfies [p]. *)
Definition one (p : ascii -> bool) (st : mstate)
           (k : mstate -> option mstate) : option mstate :=
  match m_rest st with
  | String c rest => if p c then k (advance st c rest) else None
  | EmptyString => None
  end.

Definition at_bol (fl : flags) (st : mstate) : bool :=
  (m_pos st =? 0)%N ||
  (MULTILINE fl &&
   match m_prev st with Some c => Ascii.eqb c nl | None => false end).

Definition below (n : nat) (hi : option nat) : bool :=
  match hi with Some h => n <? h | None => true end.

(** The repeat [m{lo,hi}] of a matcher [m], followed by [k]: when greedy
    it tries one more iteration before stopping, when lazy it stops before
    iterating.  [n] counts the iterations done.  An iteration that consumes
    nothing is not taken (what the patterns of the source repeat always
    consumes a character), so the length of the text that is left, plus
    one, is fuel enough. *)
Fixpoint rep_loop (m : mstate -> (mstate -> option mstate) -> option mstate)
         (greedy : bool) (lo : nat) (hi : option nat)
         (k : mstate -> option mstate)
         (fuel n : nat) (st0 : mstate) {struct fuel} : option mstate :=
  let stop := if lo <=? n then k st0 else None in
  match fuel with
  | 0 => stop
  | S fuel' =>
      let more :=
        if below n hi then
          m st0 (fun st' => if (m_pos st' =? m_pos st0)%N then None
                            else rep_loop m greedy lo hi k fuel' (S n) st')
        else None in
      if greedy then
        match more with Some res => Some res | None => stop end
      else
        match stop with Some res => Some res | None => more end
  end.

(** Backtracking matcher in continuation-passing style: [k] is the rest of
    the pattern. *)
Fixpoint rmatch (fl : flags) (r : regex) (st : mstate)
         (k : mstate -> option mstate) {struct r} : option mstate :=
  match r with
  | Eps => k st
  | Chr x =>
      one (fun c => if IGNORECASE fl
                    then Ascii.eqb (lower_char c) (lower_char x)
                    else Ascii.eqb c x) st k
  | Cls negated items => one (class_match (IGNORECASE fl) negated items) st k
  | Dot => one (fun c => DOTALL fl || negb (Ascii.eqb c nl)) st k
  | Bol => if at_bol fl st then k st else None
  | Seq r1 r2 => rmatch fl r1 st (fun st' => rmatch fl r2 st' k)
  | Alt r1 r2 =>
      match rmatch fl r1 st k with
      | Some res => Some res
      | None => rmatch fl r2 st k
      end
  | Group r1 =>
      rmatch fl r1 st (fun st' => k (set_g1 st' (m_pos st) (m_pos st')))
  | Rep greedy r1 lo hi =>
      rep_loop (rmatch fl r1) greedy lo hi k (S (m_left st)) 0 st
  end.

(** A match object: where the match starts and ends, and group 1. *)
Record match_obj : Type := mkMatch
  { mo_subject : string;
    mo_start : N;
    mo_end : N;
    mo_g1 : option (N * N) }.

(** The leftmost match: every start from [pos] on is tried in turn.
    [left] is the length of [s]. *)
Fixpoint search_from (fl : flags) (r : regex) (subject : string)
         (prev : option ascii) (s : string) (left : nat) (pos : N)
  : option match_obj :=
  match rmatch fl r (mkM prev s left pos None) (fun st => Some st) with
  | Some st' => Some (mkMatch subject pos (m_pos st') (m_g1 st'))
  | None =>
      match s with
      | EmptyString => None
      | String c s' => search_from fl r subject (Some c) s' (Nat.pred left) (N.succ pos)
      end
  end.

(** [re.search(pattern, s, flags)] on a compiled pattern. *)
Definition search (fl : flags) (r : regex) (s : string) : option match_obj :=
  search_from fl r s None s (String.length s) 0.

(** [match.group()] *)
Definition group0 (m : match_obj) : string :=
  slice (N.to_nat (mo_start m)) (N.to_nat (mo_end m)) (mo_subject m).

(** [match.group(1)]; [None] when the group took no part in the match. *)
Definition group1 (m : match_obj) : option string :=
  match mo_g1 m with
  | Some (a, b) => Some (slice (N.to_nat a) (N.to_nat b) (mo_subject m))
  | None => None
  end.

(** [re.sub(pattern, repl, s)] for a replacement without references:
    every leftmost non-overlapping match is replaced.  [skip] counts the
    characters of the current match that are still to be dropped. *)
Fixpoint sub_from (fl : flags) (r : regex) (repl : string)
         (prev : option ascii) (s : string) (left : nat) (pos : N) (skip : nat)
  : string :=
  match skip with
  | S skip' =>
      match s with
      | String c s' =>
          sub_from fl r repl (Some c) s' (Nat.pred left) (N.succ pos) skip'
      | EmptyString => EmptyString
      end
  | 0 =>
      match rmatch fl r (mkM prev s left pos None) (fun st => Some st) with
      | Some st' =>
          match N.to_nat (m_pos st' - pos), s with
          | S n, String c s' =>
              repl ++ sub_from fl r repl (Some c) s' (Nat.pred left) (N.succ pos) n
          | 0, String c s' =>
              repl ++ String c (sub_from fl r repl (Some c) s' (Nat.pred left)
                                         (N.succ pos) 0)
          | _, EmptyString => repl
          end
      | None =>
          match s with
          | String c s' =>
              String c (sub_from fl r repl (Some c) s' (Nat.pred left) (N.succ pos) 0)
          | EmptyString => EmptyString
          end
      end
  end.

Definition sub (fl : flags) (r : regex) (repl : string) (s : string) : string :=
  sub_from fl r repl None s (String.length s) 0 0.

End Re.

(* ===================================================================== *)
(** ** Python values, exceptions and the world around the tracker *)
(* ===================================================================== *)

Module Py.
Import PyStr.

(** What [json.loads] can return and [json.dump] can write. *)
Inductive pyval : Type :=
| PyNone
| PyBool (b : bool)
| PyInt (z : Z)
| PyFloat (q : Q)
| PyStr (s : string)
| PyList (l : list pyval)
| PyDict (d : list (string * pyval)).

Definition dict : Type := list (string * pyval).

(** [bool(v)] *)
Definition truthy (v : pyval) : bool :=
  match v with
  | PyNone => false
  | PyBool b => b
  | PyInt z => negb (Z.eqb z 0)
  | PyFloat q => negb (Qeq_bool q 0)
  | PyStr s => negb (String.eqb s "")
  | PyList l => match l with [] => false | _ => true end
  | PyDict d => match d with [] => false | _ => true end
  end.

(** [d.get(key)] as an option: [None] when the key is absent. *)
Fixpoint dict_lookup (key : string) (d : dict) : option pyval :=
  match d with
  | [] => None
  | (k, v) :: d' => if String.eqb k key then Some v else dict_lookup key d'
  end.

(** [d[key] = v]: overwrite in place, or insert at the end. *)
Fixpoint dict_set (key : string) (v : pyval) (d : dict) : dict :=
  match d with
  | [] => [(key, v)]
  | (k, v0) :: d' =>
      if String.eqb k key then (k, v) :: d' else (k, v0) :: dict_set key v d'
  end.

(** [d.update(e)] *)
Definition dict_update (d e : dict) : dict :=
  fold_left (fun acc kv => dict_set (fst kv) (snd kv) acc) e d.

Inductive exn_class : Type :=
| ConnectionError | Timeout | JSONDecodeError | AttributeError
| TypeError | KeyError | ReError | OtherException.

Record exn : Type := mkExn { exn_cls : exn_class; exn_msg : string }.

Inductive result (A : Type) : Type :=
| Val (a : A)
| Exn (e : exn).
Arguments Val {A} a.
Arguments Exn {A} e.

Definition rbind {A B} (r : result A) (f : A -> result B) : result B :=
  match r with Val a => f a | Exn e => Exn e end.

(** A [requests.Response]: the status, the body as text, and what
    [.json()] gives (it raises on a body that is not JSON). *)
Record response : Type := mkResponse
  { status_code : Z;
    text : string;
    json : result pyval }.

(** Everything outside the process.  [requests_post n model prompt] is the
    answer of the inference service to the [n]-th call made to it
    (counting from 0); the other fields of the request body are constants
    of the source.  [strftime_now] is
    [datetime.now().strftime('%m/%d/%Y')]; [py_str v] is [str(v)], used
    when a value is printed.  [pdf_pages path] is what opening the file
    and reading the text of its pages with PyPDF2 gives;
    [pypdf2_installed] tells whether [import PyPDF2] succeeds, and
    [pip_install] is the outcome of installing the package and importing
    it then. *)
Record world : Type := mkWorld
  { requests_get : string -> result response;
    requests_post : nat -> string -> string -> result response;
    json_loads : string -> result pyval;
    os_path_exists : string -> bool;
    pdf_pages : string -> result (list string);
    read_text_file : string -> result string;
    strftime_now : string;
    py_str : pyval -> string;
    pypdf2_installed : bool;
    pip_install : result unit }.

Inductive event : Type :=
| Print (msg : string)
| HttpGet (url : string)
| HttpPost (model prompt : string)
| Sleep (seconds : nat).

(** The tracker object and what it has done so far.  [jobs_file] is the
    content of [jobs.json] ([None]: no such file yet). *)
Record tracker : Type := mkTracker
  { jobs : list pyval;
    jobs_file : option (list pyval);
    events : list event }.

(** *** State and exceptions *)

Definition M (A : Type) : Type := tracker -> result A * tracker.

Definition ret {A} (a : A) : M A := fun st => (Val a, st).

Definition bind {A B} (m : M A) (f : A -> M B) : M B :=
  fun st =>
    match m st with
    | (Val a, st') => f a st'
    | (Exn e, st') => (Exn e, st')
    end.

Definition raise {A} (e : exn) : M A := fun st => (Exn e, st).

(** [try: m except Exception as e: h e] *)
Definition try_except {A} (m : M A) (h : exn -> M A) : M A :=
  fun st =>
    match m st with
    | (Val a, st') => (Val a, st')
    | (Exn e, st') => h e st'
    end.

Definition lift {A} (r : result A) : M A := fun st => (r, st).

Definition emit (e : event) : M unit :=
  fun st => (Val tt, mkTracker (jobs st) (jobs_file st) (events st ++ [e])).

Definition print (msg : string) : M unit := emit (Print msg).

Definition posts (evs : list event) : list string :=
  flat_map (fun e => match e with HttpPost m _ => [m] | _ => [] end) evs.

Definition prints (evs : list event) : list string :=
  flat_map (fun e => match e with Print m => [m] | _ => [] end) evs.

End Py.

Declare Scope py_scope.
Delimit Scope py_scope with py.
Notation "x <- m ;; k" := (Py.bind m (fun x => k))
  (at level 61, m at next level, right associativity) : py_scope.
Notation "m ;;; k" := (Py.bind m (fun _ => k))
  (at level 61, right associativity) : py_scope.

(* ===================================================================== *)
(** ** [class EnhancedJobTracker] *)
(* ===================================================================== *)

Module Tracker.
Import PyStr Py.
Local Open Scope py_scope.

(** [re.search(pattern, s, flags)]: compiles, then searches. *)
Definition re_search (pattern s : string) (fl : Re.flags)
  : result (option Re.match_obj) :=
  match Re.re_compile pattern with
  | Some r => Val (Re.search fl r s)
  | None => Exn (mkExn ReError pattern)
  end.

(** [re.sub(pattern, repl, s, flags=flags)] *)
Definition re_sub (pattern repl s : string) (fl : Re.flags) : result string :=
  match Re.re_compile pattern with
  | Some r => Val (Re.sub fl r repl s)
  | None => Exn (mkExn ReError pattern)
  end.

Definition I_ : Re.flags := Re.mkFlags true false false.   (* re.IGNORECASE *)
Definition IM : Re.flags := Re.mkFlags true true false.    (* re.IGNORECASE | re.MULTILINE *)
Definition SI : Re.flags := Re.mkFlags true false true.    (* re.DOTALL | re.IGNORECASE *)

(** [v.get(key, default)]: an [AttributeError] unless [v] is a dict. *)
Definition py_get (v : pyval) (key : string) (default : pyval) : result pyval :=
  match v with
  | PyDict d =>
      Val (match dict_lookup key d with Some x => x | None => default end)
  | _ => Exn (mkExn AttributeError "object has no attribute 'get'")
  end.

(** [v[key]] on a dict *)
Definition py_item (v : pyval) (key : string) : result pyval :=
  match v with
  | PyDict d =>
      match dict_lookup key d with
      | Some x => Val x
      | None => Exn (mkExn KeyError key)
      end
  | _ => Exn (mkExn TypeError "object is not subscriptable")
  end.

(** [v.lower()]: only a [str] has the method. *)
Definition py_lower (v : pyval) : result string :=
  match v with
  | PyStr s => Val (lower s)
  | _ => Exn (mkExn AttributeError "object has no attribute 'lower'")
  end.

(** [v.strip()] *)
Definition py_strip (v : pyval) : result string :=
  match v with
  | PyStr s => Val (strip s)
  | _ => Exn (mkExn AttributeError "object has no attribute 'strip'")
  end.

(** [v[:n]]: strings and lists can be sliced. *)
Definition py_slice_to (n : nat) (v : pyval) : result pyval :=
  match v with
  | PyStr s => Val (PyStr (take n s))
  | PyList l => Val (PyList (firstn n l))
  | _ => Exn (mkExn TypeError "object is not subscriptable")
  end.

(** [len(v)], where it is defined. *)
Definition py_len (v : pyval) : option nat :=
  match v with
  | PyStr s => Some (len s)
  | PyList l => Some (List.length l)
  | PyDict d => Some (List.length d)
  | _ => None
  end.

Section WithWorld.

Variable W : world.

(** *** The store *)

(** [load_jobs]: the content of [jobs.json], or the empty list. *)
Definition load_jobs (file : option (list pyval)) : list pyval :=
  match file with
  | Some l => l
  | None => []
  end.

(** [__init__] *)
Definition init (file : option (list pyval)) : tracker :=
  mkTracker (load_jobs file) file [].

(** [save_jobs]: writes [self.jobs] to [jobs.json]. *)
Definition save_jobs : M unit :=
  fun st => (Val tt, mkTracker (jobs st) (Some (jobs st)) (events st)).

Definition append_job (job_info : pyval) : M unit :=
  fun st => (Val tt, mkTracker (jobs st ++ [job_info]) (jobs_file st) (events st)).

Definition get_jobs : M (list pyval) := fun st => (Val (jobs st), st).

(** *** Content acquisition *)

(** The text of the pages, each followed by a newline, stripped. *)
Definition pdf_text (pages : list string) : string :=
  strip (fold_left (fun acc page => acc ++ page ++ NL) pages "").

(** [extract_from_pdf].  With PyPDF2 installed, the text of the pages, or
    [None], after a message, when the reader raises.  When the import
    fails, the [except ImportError] clause installs the package and reads
    the file again; its own [except] clause covers the installation, the
    second import and the reading. *)
Definition extract_from_pdf (pdf_path : string) : M (option string) :=
  if pypdf2_installed W then
    match pdf_pages W pdf_path with
    | Val pages => ret (Some (pdf_text pages))
    | Exn e =>
        print ("Error reading PDF: " ++ exn_msg e) ;;;
        ret None
    end
  else
    print "PyPDF2 not installed. Installing..." ;;;
    match rbind (pip_install W) (fun _ => pdf_pages W pdf_path) with
    | Val pages => ret (Some (pdf_text pages))
    | Exn e =>
        print ("Failed to install PyPDF2: " ++ exn_msg e) ;;;
        ret None
    end.

(** [extract_from_url] *)
Definition extract_from_url (url : string) : M (option string) :=
  try_except
    (emit (HttpGet url) ;;;
     response <- lift (requests_get W url) ;;
     let html_content := text response in
     html_content <- lift (re_sub "<script[^>]*>.*?</script>" "" html_content SI) ;;
     html_content <- lift (re_sub "<style[^>]*>.*?</style>" "" html_content SI) ;;
     text_content <- lift (re_sub "<[^>]+>" " " html_content Re.no_flags) ;;
     text_content <- lift (re_sub "\s+" " " text_content Re.no_flags) ;;
     ret (Some (strip text_content)))
    (fun e =>
       print ("Error extracting from URL: " ++ exn_msg e) ;;;
       ret None).

(** *** The heuristic extractor *)

(** The loop shared by the title, company and location fields: the first
    pattern that matches and whose stripped group 1 is longer than [lo]
    and shorter than [hi] wins. *)
Fixpoint first_group (fl : Re.flags) (lo hi : nat) (patterns : list string)
         (content : string) : result (option string) :=
  match patterns with
  | [] => Val None
  | pattern :: rest =>
      rbind (re_search pattern content fl) (fun m =>
      match m with
      | Some mo =>
          match Re.group1 mo with
          | Some g =>
              let potential := strip g in
              if (lo <? len potential) && (len potential <? hi)
              then Val (Some potential)
              else first_group fl lo hi rest content
          | None => Exn (mkExn AttributeError "'NoneType' object has no attribute 'strip'")
          end
      | None => first_group fl lo hi rest content
      end)
  end.

(** The salary loop: the whole match of the first pattern that matches. *)
Fixpoint first_match (fl : Re.flags) (patterns : list string)
         (content : string) : result (option string) :=
  match patterns with
  | [] => Val None
  | pattern :: rest =>
      rbind (re_search pattern content fl) (fun m =>
      match m with
      | Some mo => Val (Some (Re.group0 mo))
      | None => first_match fl rest content
      end)
  end.

Definition title_patterns : list string :=
  [ "(?:job\s+title|position|role)[\s:]+([^\n]{10,100})";
    "(?:^|\n)([A-Z][^.\n]{10,80}(?:engineer|developer|manager|analyst|specialist|coordinator))";
    "(?:^|\n)([A-Z][^.\n]{10,80}(?:intern|associate|director|lead))" ].

Definition company_patterns : list string :=
  [ "(?:company|employer|organization)[\s:]+([^\n]{2,50})";
    "(?:at|@)\s+([A-Z][a-zA-Z\s&.,]{2,40})";
    "([A-Z][a-zA-Z\s&.,]{2,40})(?:\s+is\s+(?:hiring|looking|seeking))" ].

Definition salary_patterns : list string :=
  [ "\$[\d,]+(?:\s*-\s*\$[\d,]+)?(?:\s*(?:per|/)\s*(?:year|hour|yr|hr|annum))?";
    "[\d,]+k?(?:\s*-\s*[\d,]+k?)?\s*(?:per\s+year|annually|/year)" ].

Definition location_patterns : list string :=
  [ "(?:location|based in|located in)[\s:]+([^\n]{5,50})";
    "([A-Z][a-z]+,\s*[A-Z]{2}(?:\s+\d{5})?)";
    "([A-Z][a-z]+,\s*[A-Z][a-z]+)" ].

Definition job_type_pattern : string :=
  "(full[_\s-]?time|part[_\s-]?time|contract|temporary|intern)".

Definition set_opt (key : string) (v : option string) (d : dict) : dict :=
  match v with
  | Some s => dict_set key (PyStr s) d
  | None => d
  end.

Definition make_draft (title company description : pyval) (other_info : dict)
  : pyval :=
  PyDict [ ("title", title); ("company", company);
           ("description", description); ("other_info", PyDict other_info) ].

(** The body of the [try] block of [fallback_extraction]. *)
Definition fallback_body (content : string) : result pyval :=
  rbind (first_group IM 5 200 title_patterns content) (fun t =>
  let title := match t with Some s => s | None => "Unknown Title" end in
  rbind (first_group I_ 1 100 company_patterns content) (fun c =>
  let company := match c with Some s => s | None => "Unknown Company" end in
  let description :=
    if 500 <? len content then take 500 content ++ "..." else content in
  let description :=
    if String.eqb (strip description) "" then "No description found"
    else description in
  rbind (first_match I_ salary_patterns content) (fun salary =>
  let other_info := set_opt "salary" salary [] in
  rbind (first_group I_ 2 100 location_patterns content) (fun location =>
  let other_info := set_opt "location" location other_info in
  rbind (re_search job_type_pattern content I_) (fun m =>
  rbind (match m with
         | Some mo =>
             match Re.group1 mo with
             | Some g => Val (dict_set "job_type" (PyStr g) other_info)
             | None => Val (dict_set "job_type" PyNone other_info)
             end
         | None => Val other_info
         end) (fun other_info =>
  Val (make_draft (PyStr title) (PyStr company) (PyStr description)
                  other_info))))))).

(** [fallback_extraction]; [source] is not used by the source either. *)
Definition fallback_extraction (content source : string) : M pyval :=
  match fallback_body content with
  | Val draft => ret draft
  | Exn e =>
      print ("Fallback extraction error: " ++ exn_msg e) ;;;
      ret (make_draft (PyStr "Unknown Title") (PyStr "Unknown Company")
                      (PyStr "No description found") [])
  end.

(** *** The LLM extraction client *)

Definition optional_fields : list string :=
  ["location"; "salary"; "requirements"; "job_type"].

(** The loop over [optional_fields] of [parse_ollama_response]. *)
Fixpoint copy_optional (fields : list string) (job_data : pyval)
         (other_info : dict) : result dict :=
  match fields with
  | [] => Val other_info
  | field :: rest =>
      rbind (py_get job_data field PyNone) (fun v =>
      if truthy v then
        rbind (py_item job_data field) (fun x =>
        copy_optional rest job_data (dict_set field x other_info))
      else copy_optional rest job_data other_info)
  end.

(** "Format the data" in [parse_ollama_response]. *)
Definition format_data (job_data : pyval) : result pyval :=
  rbind (py_get job_data "title" (PyStr "Unknown Title")) (fun title =>
  rbind (py_get job_data "company" (PyStr "Unknown Company")) (fun company =>
  rbind (py_get job_data "description" (PyStr "No description found")) (fun d =>
  rbind (py_slice_to 500 d) (fun description =>
  rbind (copy_optional optional_fields job_data []) (fun other_info =>
  Val (make_draft title company description other_info)))))).

(** The body of the [try] block of [parse_ollama_response]: the text
    between the first opening and the last closing brace is parsed and
    formatted; without such a span the block falls through. *)
Definition parse_body (response_text : string) : result (option pyval) :=
  let json_start := find "{" response_text in
  let json_end := (rfind "}" response_text + 1)%Z in
  if (0 <=? json_start)%Z && (json_start <? json_end)%Z then
    let json_str :=
      slice (Z.to_nat json_start) (Z.to_nat json_end) response_text in
    rbind (json_loads W json_str) (fun job_data =>
    rbind (format_data job_data) (fun formatted_data =>
    Val (Some formatted_data)))
  else Val None.

(** [parse_ollama_response]: both [except] clauses print and fall through
    to [return None]. *)
Definition parse_ollama_response (response_text : string) : M (option pyval) :=
  match parse_body response_text with
  | Val r => ret r
  | Exn e =>
      match exn_cls e with
      | JSONDecodeError => print ("JSON parse error: " ++ exn_msg e)
      | _ => print ("Response parse error: " ++ exn_msg e)
      end ;;;
      ret None
  end.

Definition models : list string :=
  ["phi3:mini"; "llama3.2"; "llama3.1"; "llama3"; "llama2"].

Definition max_retries : nat := 2.

Definition make_prompt (content : string) : string :=
  "Extract job information from this content. Return ONLY a valid JSON object:" ++ NL ++
  "{" ++ NL ++
  "  " ++ DQ ++ "title" ++ DQ ++ ": " ++ DQ ++ "job title here" ++ DQ ++ "," ++ NL ++
  "  " ++ DQ ++ "company" ++ DQ ++ ": " ++ DQ ++ "company name here" ++ DQ ++ ", " ++ NL ++
  "  " ++ DQ ++ "description" ++ DQ ++ ": " ++ DQ ++ "brief description (max 400 chars)" ++ DQ ++ "," ++ NL ++
  "  " ++ DQ ++ "location" ++ DQ ++ ": " ++ DQ ++ "location if found" ++ DQ ++ "," ++ NL ++
  "  " ++ DQ ++ "salary" ++ DQ ++ ": " ++ DQ ++ "salary if found" ++ DQ ++ "," ++ NL ++
  "  " ++ DQ ++ "requirements" ++ DQ ++ ": " ++ DQ ++ "key requirements if found" ++ DQ ++ "," ++ NL ++
  "  " ++ DQ ++ "job_type" ++ DQ ++ ": " ++ DQ ++ "full-time/part-time/contract if found" ++ DQ ++ NL ++
  "}" ++ NL ++ NL ++
  "Content:" ++ NL ++
  take 4000 content.

(** [requests.post(...)] to the inference service: the call is recorded,
    and answered by the world according to its rank among the calls. *)
Definition post_generate (model prompt : string) : M response :=
  fun st =>
    let n := List.length (posts (events st)) in
    (requests_post W n model prompt,
     mkTracker (jobs st) (jobs_file st) (events st ++ [HttpPost model prompt])).

(** The [try] block for one model: [Some job_data] is the [return] of the
    source, [None] falls through to the next model. *)
Definition try_model (model prompt : string) : M (option pyval) :=
  print ("Trying model: " ++ model) ;;;
  ollama_response <- post_generate model prompt ;;
  if (status_code ollama_response =? 200)%Z then
    result <- lift (json ollama_response) ;;
    r <- lift (py_get result "response" (PyStr "")) ;;
    response_text <- lift (py_strip r) ;;
    job_data <- parse_ollama_response response_text ;;
    match job_data with
    | Some d =>
        if truthy d then
          print ("Successfully extracted with " ++ model) ;;;
          ret (Some d)
        else ret None
    | None => ret None
    end
  else ret None.

(** The three [except] clauses of the model loop; each one continues. *)
Definition model_failed (model : string) (e : exn) : M (option pyval) :=
  match exn_cls e with
  | ConnectionError => print ("Connection error with model " ++ model)
  | Timeout => print ("Timeout with model " ++ model)
  | _ => print ("Error with model " ++ model ++ ": " ++ exn_msg e)
  end ;;;
  ret None.

(** [for model in models: ...] *)
Fixpoint model_loop (models : list string) (prompt : string) : M (option pyval) :=
  match models with
  | [] => ret None
  | model :: rest =>
      r <- try_except (try_model model prompt) (model_failed model) ;;
      match r with
      | Some d => ret (Some d)
      | None => model_loop rest prompt
      end
  end.

(** One iteration of [for attempt in range(max_retries)]. *)
Definition attempt_body (attempt : nat) (content : string) : M (option pyval) :=
  try_except
    (print ("Attempting Ollama extraction (attempt " ++ digit_str (attempt + 1)
            ++ "/" ++ digit_str max_retries ++ ")...") ;;;
     let prompt := make_prompt content in
     r <- model_loop models prompt ;;
     match r with
     | Some d => ret (Some d)
     | None =>
         (if attempt <? max_retries - 1 then
            print "Waiting 5 seconds before retry..." ;;;
            emit (Sleep 5)
          else ret tt) ;;;
         ret None
     end)
    (fun e =>
       print ("Ollama attempt " ++ digit_str (attempt + 1) ++ " failed: "
              ++ exn_msg e) ;;;
       (if attempt <? max_retries - 1 then emit (Sleep 3) else ret tt) ;;;
       ret None).

Fixpoint attempt_loop (attempts : list nat) (content : string) : M (option pyval) :=
  match attempts with
  | [] => ret None
  | attempt :: rest =>
      r <- attempt_body attempt content ;;
      match r with
      | Some d => ret (Some d)
      | None => attempt_loop rest content
      end
  end.

(** [try_ollama_extraction] *)
Definition try_ollama_extraction (content : string) : M (option pyval) :=
  attempt_loop (seq 0 max_retries) content.

(** *** The orchestrator *)

(** [extract_with_ollama] *)
Definition extract_with_ollama (content source_type source : string) : M pyval :=
  ollama_result <- try_ollama_extraction content ;;
  match ollama_result with
  | Some d =>
      if truthy d then ret d
      else print "Ollama failed, using fallback extraction..." ;;;
           fallback_extraction content source
  | None =>
      print "Ollama failed, using fallback extraction..." ;;;
      fallback_extraction content source
  end.

Definition provenance (source_type source : string) : dict :=
  [ ("source", PyStr source);
    ("source_type", PyStr source_type);
    ("date_added", PyStr (strftime_now W));
    ("status", PyStr "Applied");
    ("last_update", PyStr (strftime_now W)) ].

(** [job_info.update({...})] *)
Definition py_update (v : pyval) (e : dict) : result pyval :=
  match v with
  | PyDict d => Val (PyDict (dict_update d e))
  | _ => Exn (mkExn AttributeError "object has no attribute 'update'")
  end.

(** [extract_job_info_from_content] *)
Definition extract_job_info_from_content (content source_type source : string)
  : M (option pyval) :=
  try_except
    (let content := if 8000 <? len content then take 8000 content else content in
     job_info <- extract_with_ollama content source_type source ;;
     if truthy job_info then
       job_info <- lift (py_update job_info (provenance source_type source)) ;;
       ret (Some job_info)
     else ret None)
    (fun e =>
       print ("Error extracting job info: " ++ exn_msg e) ;;;
       ret None).

(** *** Duplicate detection and insertion *)

(** The condition of the duplicate test, with the short circuit of [and]. *)
Definition same_key (existing_job job_info : pyval) : result bool :=
  rbind (py_get existing_job "title" (PyStr "")) (fun t1 =>
  rbind (py_lower t1) (fun t1 =>
  rbind (py_get job_info "title" (PyStr "")) (fun t2 =>
  rbind (py_lower t2) (fun t2 =>
  if String.eqb t1 t2 then
    rbind (py_get existing_job "company" (PyStr "")) (fun c1 =>
    rbind (py_lower c1) (fun c1 =>
    rbind (py_get job_info "company" (PyStr "")) (fun c2 =>
    rbind (py_lower c2) (fun c2 =>
    Val (String.eqb c1 c2)))))
  else Val false)))).

(** [for existing_job in self.jobs]: [true] when a duplicate is found. *)
Fixpoint find_duplicate (existing : list pyval) (job_info : pyval) : result bool :=
  match existing with
  | [] => Val false
  | existing_job :: rest =>
      rbind (same_key existing_job job_info) (fun dup =>
      if dup then Val true else find_duplicate rest job_info)
  end.

(** [save_job_info]; the argument is [None] or a value. *)
Definition save_job_info (job_info : option pyval) : M bool :=
  match job_info with
  | Some ji =>
      if truthy ji then
        existing <- get_jobs ;;
        dup <- lift (find_duplicate existing ji) ;;
        if (dup : bool) then
          print "Similar job already exists!" ;;;
          ret false
        else
          append_job ji ;;;
          save_jobs ;;;
          title <- lift (py_item ji "title") ;;
          company <- lift (py_item ji "company") ;;
          print ("Added job: " ++ py_str W title ++ " at " ++ py_str W company) ;;;
          ret true
      else
        print "Failed to extract job information" ;;;
        ret false
  | None =>
      print "Failed to extract job information" ;;;
      ret false
  end.

(** *** Entry points *)

(** [add_job_from_url] *)
Definition add_job_from_url (url : string) : M bool :=
  print "Processing URL..." ;;;
  content <- extract_from_url url ;;
  match content with
  | Some c =>
      if negb (String.eqb c "") then
        job_info <- extract_job_info_from_content c "url" url ;;
        save_job_info job_info
      else ret false
  | None => ret false
  end.

(** [add_job_from_pdf] *)
Definition add_job_from_pdf (pdf_path : string) : M bool :=
  print "Processing PDF..." ;;;
  content <- extract_from_pdf pdf_path ;;
  match content with
  | Some c =>
      if negb (String.eqb c "") then
        job_info <- extract_job_info_from_content c "pdf" pdf_path ;;
        save_job_info job_info
      else ret false
  | None => ret false
  end.

(** [add_job_from_text_file] *)
Definition add_job_from_text_file (text_path : string) : M bool :=
  print "Processing text file..." ;;;
  try_except
    (content <- lift (read_text_file W text_path) ;;
     job_info <- extract_job_info_from_content content "text_file" text_path ;;
     save_job_info job_info)
    (fun e =>
       print ("Error reading text file: " ++ exn_msg e) ;;;
       ret false).

(** [add_job_from_text] *)
Definition add_job_from_text (text_content : string) : M bool :=
  print "Processing text content..." ;;;
  if len text_content <? 50 then
    print "Text content too short. Please provide more details." ;;;
    ret false
  else
    job_info <- extract_job_info_from_content text_content "text" "Direct Input" ;;
    save_job_info job_info.

(** [add_job_from_input] *)
Definition add_job_from_input (user_input : string) : M bool :=
  let user_input := strip user_input in
  if startswith "http" user_input then
    add_job_from_url user_input
  else if endswith ".pdf" user_input && os_path_exists W user_input then
    add_job_from_pdf user_input
  else if endswith ".txt" user_input && os_path_exists W user_input then
    add_job_from_text_file user_input
  else
    add_job_from_text user_input.

End WithWorld.

(** *** Display *)

Section Display.

Variable W : world.

(** [key.title()] of a key that is printed. *)
Variable str_title : string -> string.

(** [v.items()]: only a dict has the method. *)
Definition py_items (v : pyval) : result dict :=
  match v with
  | PyDict d => Val d
  | _ => Exn (mkExn AttributeError "object has no attribute 'items'")
  end.

(** [for key, value in ....items(): print(f"{indent}{key.title()}: {value}")] *)
Fixpoint print_items (indent : string) (items : dict) : M unit :=
  match items with
  | [] => ret tt
  | (key, value) :: rest =>
      print (indent ++ str_title key ++ ": " ++ py_str W value) ;;;
      print_items indent rest
  end.

(** The body of the loop of [display_jobs] for the [i]-th job. *)
Definition display_job (i : nat) (job : pyval) : M unit :=
  title <- lift (py_item job "title") ;;
  print (NL ++ str_of_nat i ++ ". " ++ py_str W title) ;;;
  company <- lift (py_item job "company") ;;
  print ("   Company: " ++ py_str W company) ;;;
  date_added <- lift (py_item job "date_added") ;;
  print ("   Date Added: " ++ py_str W date_added) ;;;
  status <- lift (py_item job "status") ;;
  print ("   Status: " ++ py_str W status) ;;;
  source_type <- lift (py_get job "source_type" (PyStr "url")) ;;
  source <- lift (py_get job "source" (PyStr "N/A")) ;;
  print ("   Source: " ++ py_str W source_type ++ " - " ++ py_str W source) ;;;
  other_info <- lift (py_get job "other_info" PyNone) ;;
  (if truthy other_info then
     other_info <- lift (py_item job "other_info") ;;
     items <- lift (py_items other_info) ;;
     print_items "   " items
   else ret tt) ;;;
  description <- lift (py_item job "description") ;;
  description <- lift (py_slice_to 100 description) ;;
  print ("   Description: " ++ py_str W description ++ "...") ;;;
  print (times "-" 80).

(** [for i, job in enumerate(self.jobs, i): ...] *)
Fixpoint display_loop (i : nat) (jobs : list pyval) : M unit :=
  match jobs with
  | [] => ret tt
  | job :: rest => display_job i job ;;; display_loop (S i) rest
  end.

(** [display_jobs] *)
Definition display_jobs : M unit :=
  jobs <- get_jobs ;;
  match jobs with
  | [] => print "No jobs saved yet."
  | _ =>
      print (NL ++ times "=" 80) ;;;
      print "SAVED JOBS" ;;;
      print (times "=" 80) ;;;
      display_loop 1 jobs
  end.

End Display.

End Tracker.

(* ===================================================================== *)
(** ** [class JobManager] (job_manager.py) *)
(* ===================================================================== *)

Module Manager.
Import PyStr Py Tracker.
Local Open Scope py_scope.

(** *** Records changed in place *)

(** [v[key] = x]: only a dict takes an item under a string key. *)
Definition py_setitem (v : pyval) (key : string) (x : pyval) : result pyval :=
  match v with
  | PyDict d => Val (PyDict (dict_set key x d))
  | _ => Exn (mkExn TypeError "object does not support item assignment")
  end.

(** The list with its [i]-th element replaced. *)
Fixpoint replace_nth (i : nat) (x : pyval) (l : list pyval) : list pyval :=
  match l, i with
  | [], _ => []
  | _ :: rest, 0 => x :: rest
  | y :: rest, S i' => y :: replace_nth i' x rest
  end.

(** [self.jobs[i]] for an index that is not negative. *)
Definition get_job (i : nat) : M pyval :=
  fun st =>
    match nth_error (jobs st) i with
    | Some job => (Val job, st)
    | None => (Exn (mkExn OtherException "list index out of range"), st)
    end.

(** [self.jobs[i][key] = x]: the record is changed in place, in the list
    that the manager holds. *)
Definition assign (i : nat) (key : string) (x : pyval) : M unit :=
  job <- get_job i ;;
  job <- lift (py_setitem job key x) ;;
  fun st => (Val tt, mkTracker (replace_nth i job (jobs st)) (jobs_file st) (events st)).

(** *** The details view *)

Section WithWorld.

Variable W : world.
Variable str_title : string -> string.

(** [for x in v]: the elements of a list, the characters of a string, the
    keys of a dict. *)
Definition py_iter (v : pyval) : result (list pyval) :=
  match v with
  | PyList l => Val l
  | PyStr s => Val (map (fun c => PyStr (String c "")) (list_ascii_of_string s))
  | PyDict d => Val (map (fun kv => PyStr (fst kv)) d)
  | _ => Exn (mkExn TypeError "object is not iterable")
  end.

(** [for note in job['notes']: print(f"  {note['date']}: {note['note']}")] *)
Fixpoint print_notes (notes : list pyval) : M unit :=
  match notes with
  | [] => ret tt
  | note :: rest =>
      date <- lift (py_item note "date") ;;
      text <- lift (py_item note "note") ;;
      print ("  " ++ py_str W date ++ ": " ++ py_str W text) ;;;
      print_notes rest
  end.

(** [show_job_details]; the index is the number that the user typed. *)
Definition show_job_details (job_index : Z) : M unit :=
  jobs <- get_jobs ;;
  if ((job_index <? 1) || (Z.of_nat (List.length jobs) <? job_index))%Z then
    print "Invalid job number"
  else
    job <- lift (match nth_error jobs (Z.to_nat (job_index - 1)) with
                 | Some j => Val j
                 | None => Exn (mkExn OtherException "list index out of range")
                 end) ;;
    print (NL ++ times "=" 80) ;;;
    print "JOB DETAILS" ;;;
    print (times "=" 80) ;;;
    title <- lift (py_item job "title") ;;
    print ("Title: " ++ py_str W title) ;;;
    company <- lift (py_item job "company") ;;
    print ("Company: " ++ py_str W company) ;;;
    status <- lift (py_item job "status") ;;
    print ("Status: " ++ py_str W status) ;;;
    date_added <- lift (py_item job "date_added") ;;
    print ("Date Added: " ++ py_str W date_added) ;;;
    last_update <- lift (py_item job "last_update") ;;
    print ("Last Update: " ++ py_str W last_update) ;;;
    other_info <- lift (py_get job "other_info" PyNone) ;;
    (if truthy other_info then
       print (NL ++ "Additional Info:") ;;;
       other_info <- lift (py_item job "other_info") ;;
       items <- lift (py_items other_info) ;;
       print_items W str_title "  " items
     else ret tt) ;;;
    description <- lift (py_item job "description") ;;
    print (NL ++ "Description:" ++ NL ++ py_str W description) ;;;
    notes <- lift (py_get job "notes" PyNone) ;;
    (if truthy notes then
       print (NL ++ "Notes:") ;;;
       notes <- lift (py_item job "notes") ;;
       notes <- lift (py_iter notes) ;;
       print_notes notes
     else ret tt) ;;;
    url <- lift (py_item job "url") ;;
    print (NL ++ "URL: " ++ py_str W url) ;;;
    print (times "=" 80).

End WithWorld.

(** *** The 180-day rule *)

Section Ghosted.

Variable W : world.

(** [(today - datetime.strptime(s, '%m/%d/%Y')).days]; [None] when
    [strptime] raises. *)
Variable days_since : string -> option Z.

(** [datetime.strptime(v, '%m/%d/%Y')] and the difference to today. *)
Definition days_since_update (v : pyval) : result Z :=
  match v with
  | PyStr s =>
      match days_since s with
      | Some days => Val days
      | None => Exn (mkExn OtherException "time data does not match format")
      end
  | _ => Exn (mkExn TypeError "strptime() argument 1 must be str")
  end.

(** [status not in ['Ghosted', 'Rejected', 'Hired']] *)
Definition is_open (status : pyval) : bool :=
  match status with
  | PyStr s =>
      negb (String.eqb s "Ghosted" || String.eqb s "Rejected" || String.eqb s "Hired")
  | _ => true
  end.

(** The [try] block of the loop of [check_ghosted_jobs] for the record at
    index [i]; the result tells whether the record was marked. *)
Definition ghost_body (i : nat) : M bool :=
  job <- get_job i ;;
  last_update <- lift (py_item job "last_update") ;;
  days <- lift (days_since_update last_update) ;;
  if (180 <=? days)%Z then
    status <- lift (py_item job "status") ;;
    if is_open status then
      assign i "status" (PyStr "Ghosted") ;;;
      assign i "last_update" (PyStr (strftime_now W)) ;;;
      ret true
    else ret false
  else ret false.

(** [for job in self.jobs: try: ... except: continue], from index [i] on,
    for [n] records; the result is [updated_count]. *)
Fixpoint ghost_loop (n i updated_count : nat) : M nat :=
  match n with
  | 0 => ret updated_count
  | S n' =>
      marked <- try_except (ghost_body i) (fun _ => ret false) ;;
      ghost_loop n' (S i) (if marked then S updated_count else updated_count)
  end.

(** [check_ghosted_jobs] *)
Definition check_ghosted_jobs : M unit :=
  jobs <- get_jobs ;;
  updated_count <- ghost_loop (List.length jobs) 0 0 ;;
  if 0 <? updated_count then
    save_jobs ;;;
    print ("Marked " ++ str_of_nat updated_count ++ " jobs as ghosted")
  else print "No jobs to mark as ghosted".

End Ghosted.

End Manager.

(* ===================================================================== *)
(** ** The handlers of server.py *)
(* ===================================================================== *)

Module Server.
Import PyStr Py Tracker Manager.
Local Open Scope py_scope.

Section WithWorld.

Variable W : world.

(** [{'success': False, 'error': error}] *)
Definition failure (error : string) : pyval :=
  PyDict [("success", PyBool false); ("error", PyStr error)].

(** [{'success': True, 'job': job}] *)
Definition success_with (job : pyval) : pyval :=
  PyDict [("success", PyBool true); ("job", job)].

(** [tracker.jobs[-1]] *)
Definition last_job : M pyval :=
  fun st =>
    match rev (jobs st) with
    | job :: _ => (Val job, st)
    | [] => (Exn (mkExn OtherException "list index out of range"), st)
    end.

(** [jsonify({'success': True, 'job': tracker.jobs[-1]}) if success else
    jsonify({'success': False, 'error': error})]: the object that is
    serialised. *)
Definition respond (success : bool) (error : string) : M pyval :=
  if success then
    job <- last_job ;;
    ret (success_with job)
  else ret (failure error).

(** [process_text].  [text] is the field "text" of the JSON body when it is
    a string, [None] when it is absent or [null]; [file] is the content of
    [jobs.json] when the request arrives.  The state returned is that of the
    tracker which the handler opens on the file (an unused one when the
    handler returns before it opens it). *)
Definition process_text (text : option string) (file : option (list pyval))
  : result pyval * tracker :=
  match text with
  | Some t =>
      if String.eqb t "" then (Val (failure "Text is required"), init file)
      else
        (success <- add_job_from_text W t ;;
         respond success "Failed to process text") (init file)
  | None => (Val (failure "Text is required"), init file)
  end.

(** [process_url], with [url] as [text] above. *)
Definition process_url (url : option string) (file : option (list pyval))
  : result pyval * tracker :=
  match url with
  | Some u =>
      if String.eqb u "" then (Val (failure "URL is required"), init file)
      else
        (success <- add_job_from_url W u ;;
         respond success "Failed to process URL") (init file)
  | None => (Val (failure "URL is required"), init file)
  end.

(** *** The handlers that change a record *)

(** [v is not None] *)
Definition is_not_none (v : pyval) : bool :=
  match v with
  | PyNone => false
  | _ => true
  end.

(** [jsonify(...), 400] *)
Definition invalid_request : pyval * Z := (failure "Invalid request", 400%Z).

(** A JSON value that is an [int] for Python: an integer, or a boolean,
    which is 0 or 1. *)
Definition as_int (v : pyval) : option Z :=
  match v with
  | PyInt i => Some i
  | PyBool b => Some (Z.b2z b)
  | _ => None
  end.

(** [type(v).__name__] *)
Definition type_name (v : pyval) : string :=
  match v with
  | PyNone => "NoneType"
  | PyBool _ => "bool"
  | PyInt _ => "int"
  | PyFloat _ => "float"
  | PyStr _ => "str"
  | PyList _ => "list"
  | PyDict _ => "dict"
  end.

(** [0 <= job_id < n]: numbers are compared by value; a string, a list or
    an object cannot be compared with an integer. *)
Definition in_bounds (job_id : pyval) (n : nat) : result bool :=
  match job_id with
  | PyInt _ | PyBool _ =>
      match as_int job_id with
      | Some i => Val ((0 <=? i)%Z && (i <? Z.of_nat n)%Z)
      | None => Val false
      end
  | PyFloat q =>
      Val (Qle_bool 0 q && negb (Qle_bool (inject_Z (Z.of_nat n)) q))
  | _ => Exn (mkExn TypeError
                  ("'<=' not supported between instances of 'int' and '"
                     ++ type_name job_id ++ "'"))
  end.

(** [l[job_id]] on a list of [n] elements: the position that the index
    names; an index that is not an [int] is refused. *)
Definition list_index (job_id : pyval) (n : nat) : result nat :=
  match as_int job_id with
  | Some i =>
      if ((0 <=? i)%Z && (i <? Z.of_nat n)%Z) then Val (Z.to_nat i)
      else if ((i <? 0)%Z && (- Z.of_nat n <=? i)%Z) then Val (Z.to_nat (Z.of_nat n + i))
      else Exn (mkExn OtherException "list index out of range")
  | None => Exn (mkExn TypeError
                     ("list indices must be integers or slices, not "
                        ++ type_name job_id))
  end.

(** [manager.jobs[job_id][key] = x] *)
Definition assign_by (job_id : pyval) (key : string) (x : pyval) : M unit :=
  jobs <- get_jobs ;;
  i <- lift (list_index job_id (List.length jobs)) ;;
  assign i key x.

(** [update_status].  [data] is the JSON body of the request, any JSON
    value, and [file] the content of [jobs.json] when the request arrives.
    The fields "job_id" and "status" are read with [data.get], so that an
    absent field is [None]; the test then compares the job id as it is,
    and the two assignments index the list with it.  (The values [NaN]
    and [Infinity], which the parser also reads and which are not values of
    [pyval], fail the comparison like a number out of range.)  The result
    is the object that is serialised and the status of the answer; the
    state is that of the manager which the handler opens on the file. *)
Definition update_status (data : pyval) (file : option (list pyval))
  : result (pyval * Z) * tracker :=
  (job_id <- lift (py_get data "job_id" PyNone) ;;
   new_status <- lift (py_get data "status" PyNone) ;;
   jobs <- get_jobs ;;
   valid <- (if is_not_none job_id && is_not_none new_status
             then lift (in_bounds job_id (List.length jobs))
             else ret false) ;;
   if (valid : bool) then
     assign_by job_id "status" new_status ;;;
     assign_by job_id "last_update" (PyStr (strftime_now W)) ;;;
     save_jobs ;;;
     ret (PyDict [("success", PyBool true)], 200%Z)
   else ret invalid_request) (init file).

Inductive http_method : Type := GET | POST.

(** [data.get(key, default)]: the method is looked up before the default
    is evaluated. *)
Definition py_get_or (data : pyval) (key : string) (default : result pyval)
  : result pyval :=
  match data with
  | PyDict d =>
      rbind default (fun x =>
      Val (match dict_lookup key d with Some v => v | None => x end))
  | _ => Exn (mkExn AttributeError "object has no attribute 'get'")
  end.

(** [p in s] for two strings *)
Fixpoint is_infix (p s : string) : bool :=
  startswith p s ||
  match s with
  | String _ s' => is_infix p s'
  | EmptyString => false
  end.

(** [key in v] *)
Definition py_contains (key : string) (v : pyval) : result bool :=
  match v with
  | PyDict d => Val (match dict_lookup key d with Some _ => true | None => false end)
  | PyList l =>
      Val (existsb (fun x => match x with
                             | PyStr s => String.eqb s key
                             | _ => false
                             end) l)
  | PyStr s => Val (is_infix key s)
  | _ => Exn (mkExn TypeError "argument is not iterable")
  end.

(** [job.get('other_info', {}).get(key)] *)
Definition other_info_get (job : pyval) (key : string) : result pyval :=
  rbind (py_get job "other_info" (PyDict [])) (fun other_info =>
  py_get other_info key PyNone).

(** [job['other_info'][key] = x] *)
Definition assign_other_info (i : nat) (key : string) (x : pyval) : M unit :=
  job <- get_job i ;;
  other_info <- lift (py_item job "other_info") ;;
  other_info <- lift (py_setitem other_info key x) ;;
  assign i "other_info" other_info.

(** [jsonify(...), 404] *)
Definition job_not_found : pyval * Z := (failure "Job not found", 404%Z).

(** [handle_job_edit].  [job_id] is the number in the path, [data] the JSON
    body of a POST request, [file] the content of [jobs.json] when the
    request arrives. *)
Definition handle_job_edit (job_id : nat) (method : http_method) (data : pyval)
           (file : option (list pyval)) : result (pyval * Z) * tracker :=
  (jobs <- get_jobs ;;
   if negb (job_id <? List.length jobs) then ret job_not_found
   else
     match method with
     | POST =>
         job <- get_job job_id ;;
         title <- lift (py_get_or data "title" (py_item job "title")) ;;
         assign job_id "title" title ;;;
         job <- get_job job_id ;;
         company <- lift (py_get_or data "company" (py_item job "company")) ;;
         assign job_id "company" company ;;;
         job <- get_job job_id ;;
         description <- lift (py_get_or data "description"
                                        (py_item job "description")) ;;
         assign job_id "description" description ;;;
         job <- get_job job_id ;;
         present <- lift (py_contains "other_info" job) ;;
         (if negb present then assign job_id "other_info" (PyDict [])
          else ret tt) ;;;
         job <- get_job job_id ;;
         location <- lift (py_get_or data "location"
                                     (other_info_get job "location")) ;;
         assign_other_info job_id "location" location ;;;
         job <- get_job job_id ;;
         salary <- lift (py_get_or data "salary" (other_info_get job "salary")) ;;
         assign_other_info job_id "salary" salary ;;;
         job <- get_job job_id ;;
         url <- lift (py_get_or data "url" (py_get job "url" PyNone)) ;;
         assign job_id "url" url ;;;
         assign job_id "last_update" (PyStr (strftime_now W)) ;;;
         save_jobs ;;;
         job <- get_job job_id ;;
         ret (success_with job, 200%Z)
     | GET =>
         job <- get_job job_id ;;
         ret (job, 200%Z)
     end) (init file).

End WithWorld.

End Server.

(* ===================================================================== *)
(** ** Vocabulary of the properties *)
(* ===================================================================== *)

Module Props.
Import PyStr Py Tracker.

(** *** The store *)

(** The duplicate identity key of a record: lower-cased title and company
    (an absent field counts as the empty string, as in [save_job_info]);
    undefined when one of them is not a string. *)
Definition job_key (j : pyval) : option (string * string) :=
  match py_get j "title" (PyStr ""), py_get j "company" (PyStr "") with
  | Val (PyStr t), Val (PyStr c) => Some (lower t, lower c)
  | _, _ => None
  end.

(** A draft whose title and company are present and are strings. *)
Definition has_title_company (j : pyval) : Prop :=
  exists t c, py_item j "title" = Val (PyStr t) /\
              py_item j "company" = Val (PyStr c).

(** The record has the field [key]. *)
Definition has_item (record : pyval) (key : string) : Prop :=
  exists v, py_item record key = Val v.

(** How many stored records carry the key [k]. *)
Definition count_key (k : string * string) (l : list pyval) : nat :=
  List.length
    (filter (fun j => match job_key j with
                      | Some (t, c) => String.eqb t (fst k) && String.eqb c (snd k)
                      | None => false
                      end) l).

(** The frame of a submission that starts in [st]: when it is accepted,
    exactly one record is appended behind the stored ones and the new
    sequence is written to the file; otherwise the stored sequence and the
    file are as before. *)
Definition frame (st : tracker) (out : result bool * tracker) : Prop :=
  match out with
  | (Val true, st') =>
      exists record, jobs st' = (jobs st ++ [record])%list /\
                     jobs_file st' = Some (jobs st')
  | (_, st') => jobs st' = jobs st /\ jobs_file st' = jobs_file st
  end.

(** *** The event log *)

(** [st'] is [st] with the same store and [evs] logged after its events. *)
Definition logs (st st' : tracker) (evs : list event) : Prop :=
  st' = mkTracker (jobs st) (jobs_file st) (events st ++ evs).

(** The state after one more event. *)
Definition after (st : tracker) (e : event) : tracker :=
  mkTracker (jobs st) (jobs_file st) (events st ++ [e]).

(** The message of the minimum-content check of [add_job_from_text]. *)
Definition too_short : string :=
  "Text content too short. Please provide more details.".

(** A run that never prints the message of the minimum-content check,
    whatever state it starts from. *)
Definition never_too_short {A : Type} (m : M A) : Prop :=
  forall st, exists evs,
    events (snd (m st)) = (events st ++ evs)%list /\ ~ In (Print too_short) evs.

(** The [except] clause of [add_job_from_text_file]. *)
Definition text_file_error (e : exn) : M bool :=
  Py.bind (print ("Error reading text file: " ++ exn_msg e)) (fun _ => ret false).

(** *** The inference service *)

(** The value that one call to the inference service contributes: the
    formatted draft when the [n]-th call, made with [model], answers with
    status 200 and a text that [parse_ollama_response] accepts; [None] for
    every kind of failure. *)
Definition yields (W : world) (n : nat) (model prompt : string) : option pyval :=
  match requests_post W n model prompt with
  | Val resp =>
      if (status_code resp =? 200)%Z then
        match rbind (json resp) (fun result =>
              rbind (py_get result "response" (PyStr "")) (fun r =>
              rbind (py_strip r) (fun response_text =>
              parse_body W response_text))) with
        | Val (Some d) => if truthy d then Some d else None
        | _ => None
        end
      else None
  | Exn _ => None
  end.

(** The reference reading of the model loop: walk the list of models, the
    [n]-th call of the service first; stop at the first call that yields
    a draft.  Returns the draft, if any, and the models that were called. *)
Fixpoint first_success (W : world) (n : nat) (ms : list string)
         (prompt : string) : option pyval * list string :=
  match ms with
  | [] => (None, [])
  | m :: rest =>
      match yields W n m prompt with
      | Some d => (Some d, [m])
      | None =>
          let (r, tried) := first_success W (S n) rest prompt in
          (r, m :: tried)
      end
  end.

(** The calls that [try_ollama_extraction] can make, in order: the model
    list once per attempt. *)
Definition schedule : list string := models ++ models.

(** The inference service is unreachable: every call raises, or comes
    back with a status other than 200. *)
Definition unreachable (W : world) : Prop :=
  forall n model prompt,
    match requests_post W n model prompt with
    | Val resp => status_code resp <> 200%Z
    | Exn _ => True
    end.

(** *** Drafts *)

(** The description of a draft is a string or a list of length at most
    [bound]. *)
Definition description_bounded (bound : nat) (draft : pyval) : Prop :=
  exists d n, py_item draft "description" = Val d /\
              py_len d = Some n /\ n <= bound.

(** The description of a draft is a slice [[:500]]: a string of at most
    500 characters, or a list of at most 500 elements. *)
Definition description_sliced (draft : pyval) : Prop :=
  (exists s, py_item draft "description" = Val (PyStr s) /\ len s <= 500) \/
  (exists l, py_item draft "description" = Val (PyList l) /\ List.length l <= 500).

(** The description of the heuristic path: the input, cut after 500
    characters and followed by an ellipsis when it is longer; the fixed
    sentinel when that is blank. *)
Definition heuristic_description (content : string) : string :=
  let description :=
    if 500 <? len content then take 500 content ++ "..." else content in
  if String.eqb (strip description) "" then "No description found"
  else description.

(** [content[:8000]] when the content is longer than that. *)
Definition truncate (content : string) : string :=
  if 8000 <? len content then take 8000 content else content.

(** *** Patterns *)

(** A pattern all of whose matches set group 1: the group is not under an
    optional part, and is on every branch of an alternation. *)
Fixpoint sets_g1 (r : Re.regex) : bool :=
  match r with
  | Re.Group _ => true
  | Re.Seq r1 r2 => sets_g1 r1 || sets_g1 r2
  | Re.Alt r1 r2 => sets_g1 r1 && sets_g1 r2
  | _ => false
  end.

Definition compiles (pattern : string) : bool :=
  match Re.re_compile pattern with Some _ => true | None => false end.

Definition compiles_with_group (pattern : string) : bool :=
  match Re.re_compile pattern with Some r => sets_g1 r | None => false end.

(** *** Inputs of the examples *)

Fixpoint replicate (n : nat) (c : ascii) : string :=
  match n with
  | 0 => EmptyString
  | S n' => String c (replicate n' c)
  end.

(** Example 1 of the specification. *)
Definition example1 : string :=
  "Job Title: Backend Engineer" ++ NL ++
  "Company: Acme Corp" ++ NL ++
  "We are looking for a backend engineer to join our team in Austin, TX. Salary: $120,000 - $150,000 per year. Full-time position.".

(** Example 3: a posting of the same job with its title in lower case. *)
Definition example3 : string :=
  "Job Title: backend engineer" ++ NL ++
  "Company: Acme Corp" ++ NL ++
  "Remote position, flexible hours, small team.".

(** Example 2: a literal submission of 30 characters. *)
Definition thirty : string := "Backend Engineer at Acme Corp.".

(** A text file of more than 8000 characters whose last line, beyond the
    8000th character, names the job type. *)
Definition long_posting : string :=
  "Company: Acme Corp" ++ NL ++ replicate 8000 "-" ++ NL ++ "Contract position".

(** Two drafts whose titles differ only in case, and an unrelated record. *)
Definition backend_draft (title : string) : pyval :=
  make_draft (PyStr title) (PyStr "Acme Corp")
             (PyStr "We are looking for a backend engineer.") [].

Definition other_record : pyval :=
  make_draft (PyStr "Data Analyst") (PyStr "Initech") (PyStr "Reports.") [].

Definition job_url : string := "https://example.com/jobs/42".

Definition json_pair (key value : string) : string :=
  DQ ++ key ++ DQ ++ ": " ++ DQ ++ value ++ DQ.

(** A model answer whose title is the empty string. *)
Definition empty_title_json : string :=
  "{" ++ json_pair "title" "" ++ ", " ++ json_pair "company" "Acme Corp" ++ "}".

Definition empty_title_data : pyval :=
  PyDict [("title", PyStr ""); ("company", PyStr "Acme Corp")].

(** A model answer whose title is [null]. *)
Definition null_title_json : string :=
  "{" ++ DQ ++ "title" ++ DQ ++ ": null, " ++ json_pair "company" "Acme Corp" ++ "}".

Definition null_title_data : pyval :=
  PyDict [("title", PyNone); ("company", PyStr "Acme Corp")].

(** A model answer with surrounding prose. *)
Definition acme_json : string :=
  "{" ++ json_pair "title" "Backend Engineer" ++ ", "
      ++ json_pair "company" "Acme Corp" ++ "}".

Definition acme_data : pyval :=
  PyDict [("title", PyStr "Backend Engineer"); ("company", PyStr "Acme Corp")].

Definition acme_answer : string := "Sure! " ++ acme_json ++ " Hope this helps.".

(** An error page, and a page whose text has 30 characters. *)
Definition not_found_page : string :=
  "<html><head><title>404</title><style>h1 {color: red}</style></head>" ++
  "<body><h1>404 Not Found</h1><p>The page you requested does not exist.</p></body></html>".

Definition short_job_page : string :=
  "<html><body><p>Backend Engineer at Acme Corp.</p></body></html>".

(** *** Worlds of the examples *)

Definition refused {A} : result A := Exn (mkExn ConnectionError "Connection refused").

Definition not_json {A} : result A := Exn (mkExn JSONDecodeError "Expecting value").

Definition show (v : pyval) : string :=
  match v with PyStr s => s | _ => "?" end.

(** [json.loads] on the few texts of the examples. *)
Definition loads_table (table : list (string * pyval)) (s : string) : result pyval :=
  match dict_lookup s table with
  | Some v => Val v
  | None => not_json
  end.

Definition table : list (string * pyval) :=
  [ (empty_title_json, empty_title_data); (null_title_json, null_title_data);
    (acme_json, acme_data) ].

(** The answer of the inference service with [response_text] as its
    [response] field. *)
Definition answer (status : Z) (response_text : string) : result response :=
  Val (mkResponse status response_text
                  (Val (PyDict [("response", PyStr response_text)]))).

(** A world with the given web and inference service, no files, and the
    date 11/04/2026. *)
Definition world_of (get : string -> result response)
           (post : nat -> string -> string -> result response) : world :=
  mkWorld get post (loads_table table)
          (fun _ => false) (fun _ => refused) (fun _ => refused)
          "11/04/2026" show true (Val tt).

(** Nothing answers. *)
Definition offline : world := world_of (fun _ => refused) (fun _ _ _ => refused).

(** A model answer whose description is a list, and a world whose
    [json.loads] reads it. *)
Definition list_description_json : string :=
  "{" ++ DQ ++ "description" ++ DQ ++ ": [" ++ DQ ++ replicate 1000 "-" ++ DQ ++ "]}".

Definition list_description_data : pyval :=
  PyDict [("description", PyList [PyStr (replicate 1000 "-")])].

Definition list_answer_world : world :=
  mkWorld (fun _ => refused) (fun _ _ _ => refused)
          (loads_table [(list_description_json, list_description_data)])
          (fun _ => false) (fun _ => refused) (fun _ => refused)
          "11/04/2026" show true (Val tt).

(** A model answer whose description is [null], and a service that gives
    it to the first call and a usable answer to the others. *)
Definition null_description_json : string :=
  "{" ++ json_pair "title" "Backend Engineer" ++ ", "
      ++ DQ ++ "description" ++ DQ ++ ": null}".

Definition null_description_data : pyval :=
  PyDict [("title", PyStr "Backend Engineer"); ("description", PyNone)].

Definition null_description_world : world :=
  mkWorld (fun _ => refused)
          (fun n _ _ =>
             match n with
             | 0 => answer 200 null_description_json
             | _ => answer 200 acme_json
             end)
          (loads_table [ (null_description_json, null_description_data);
                         (acme_json, acme_data) ])
          (fun _ => false) (fun _ => refused) (fun _ => refused)
          "11/04/2026" show true (Val tt).

(** A stored record whose title is [null]. *)
Definition null_title_record : pyval :=
  make_draft PyNone (PyStr "Acme Corp") (PyStr "No description found") [].

(** The service answers every call with an empty title. *)
Definition empty_title_world : world :=
  world_of (fun _ => refused) (fun _ _ _ => answer 200 empty_title_json).

(** The service answers every call with a [null] title. *)
Definition null_title_world : world :=
  world_of (fun _ => refused) (fun _ _ _ => answer 200 null_title_json).

(** The first call is refused, the second comes back with status 500 and
    the third one answers. *)
Definition flaky : world :=
  world_of (fun _ => refused)
           (fun n _ _ =>
              match n with
              | 0 => refused
              | 1 => answer 500 "Internal Server Error"
              | _ => answer 200 acme_answer
              end).

(** A server that answers a job URL with status 404 and an error page;
    the inference service is down. *)
Definition not_found : world :=
  world_of (fun _ => Val (mkResponse 404 not_found_page not_json))
           (fun _ _ _ => refused).

(** A page that is markup only; the inference service answers. *)
Definition markup_only_page : string :=
  "<html><head><style>p {margin: 0}</style></head><body><p></p></body></html>".

Definition markup_only : world :=
  world_of (fun _ => Val (mkResponse 200 markup_only_page not_json))
           (fun _ _ _ => answer 200 acme_json).

(** A job page whose text has 30 characters; the inference service is down. *)
Definition short_page : world :=
  world_of (fun _ => Val (mkResponse 200 short_job_page not_json))
           (fun _ _ _ => refused).

(** *** Vocabulary of the further properties *)

(** An optional field of [other_info]: one entry, or none. *)
Definition field (key : string) (v : option string) : dict :=
  match v with
  | Some s => [(key, PyStr s)]
  | None => []
  end.

(** The seconds slept, in order. *)
Definition sleeps (evs : list event) : list nat :=
  flat_map (fun e => match e with Sleep n => [n] | _ => [] end) evs.

(** The prompts sent to the inference service, in order. *)
Definition prompts (evs : list event) : list string :=
  flat_map (fun e => match e with HttpPost _ p => [p] | _ => [] end) evs.


(** The character occurs in the string. *)
Fixpoint has_char (c : ascii) (s : string) : bool :=
  match s with
  | EmptyString => false
  | String a s' => Ascii.eqb a c || has_char c s'
  end.

(** Only whitespace. *)
Fixpoint all_space (s : string) : bool :=
  match s with
  | EmptyString => true
  | String c s' => isspace c && all_space s'
  end.

(** Every run of whitespace replaced by one space; [in_run] tells that the
    run has begun. *)
Fixpoint collapse (in_run : bool) (s : string) : string :=
  match s with
  | EmptyString => EmptyString
  | String c s' =>
      if isspace c then
        if in_run then collapse true s' else String " " (collapse true s')
      else String c (collapse false s')
  end.

(** From here on the only whitespace is the space character, no space
    follows a space ([after_space] tells that one precedes), and the text
    does not end with one. *)
Fixpoint spaced (after_space : bool) (s : string) : bool :=
  match s with
  | EmptyString => negb after_space
  | String c s' =>
      if isspace c then Ascii.eqb c " " && negb after_space && spaced true s'
      else spaced false s'
  end.

(** Words separated by single spaces: empty, or without whitespace other
    than single spaces between two other characters. *)
Definition single_spaced (s : string) : bool :=
  match s with
  | EmptyString => true
  | _ => spaced true s
  end.

(** A pattern that begins with the literal character [c]. *)
Fixpoint begins_with (c : ascii) (r : Re.regex) : bool :=
  match r with
  | Re.Chr x => Ascii.eqb x c
  | Re.Seq r1 _ => begins_with c r1
  | _ => false
  end.

(** The value of a key, or a default. *)
Definition or_default (d : dict) (key : string) (default : pyval) : pyval :=
  match dict_lookup key d with
  | Some v => v
  | None => default
  end.

(** A value that Python does not compare with an integer: a string, a list
    or an object. *)
Definition unordered (v : pyval) : Prop :=
  match v with
  | PyStr _ | PyList _ | PyDict _ => True
  | _ => False
  end.

(** The field of a JSON object, [null] when it is absent. *)
Definition field_of (d : dict) (key : string) : pyval := or_default d key PyNone.

(** The entry of [other_info] for one optional field of the model's object:
    copied when the field is there and its value is truthy. *)
Definition copied (d : dict) (key : string) : dict :=
  match dict_lookup key d with
  | Some v => if truthy v then [(key, v)] else []
  | None => []
  end.

(** A stored record with a key. *)
Definition well_keyed (j : pyval) : Prop := exists k, job_key j = Some k.

(** Some record of the list has the key [k]. *)
Definition key_in (k : string * string) (l : list pyval) : bool :=
  existsb (fun j => match job_key j with
                    | Some (t, c) => String.eqb t (fst k) && String.eqb c (snd k)
                    | None => false
                    end) l.

(** A value that can be sliced: a string or a list. *)
Definition sliceable (v : pyval) : Prop :=
  match v with
  | PyStr _ | PyList _ => True
  | _ => False
  end.

(** The record that the orchestrator builds: the draft, then the
    provenance. *)
Definition record_of (W : world) (title company description : pyval)
           (other_info : dict) (source_type source : string) : pyval :=
  PyDict ([ ("title", title); ("company", company);
            ("description", description); ("other_info", PyDict other_info) ]
          ++ provenance W source_type source).

(** A record made by the pipeline. *)
Definition made_by_pipeline (W : world) (record : pyval) : Prop :=
  exists title company description other_info source_type source,
    record = record_of W title company description other_info source_type source /\
    sliceable description /\
    In source_type ["url"; "pdf"; "text_file"; "text"].

(** A record with the nine fields that the pipeline writes, in its order,
    whatever the values of the provenance. *)
Definition record_with (title company description : pyval) (other_info : dict)
           (source source_type date_added status last_update : pyval) : pyval :=
  PyDict [ ("title", title); ("company", company);
           ("description", description); ("other_info", PyDict other_info);
           ("source", source); ("source_type", source_type);
           ("date_added", date_added); ("status", status);
           ("last_update", last_update) ].

(** A record as the pipeline stores it, on whatever day it did, and
    whatever has become of its status and of its dates since. *)
Definition pipeline_shaped (record : pyval) : Prop :=
  exists title company description other_info
         source source_type date_added status last_update,
    record = record_with title company description other_info
                         source source_type date_added status last_update /\
    sliceable description.

(** The world of the day after: nothing answers. *)
Definition the_next_day : world :=
  mkWorld (fun _ => refused) (fun _ _ _ => refused) (loads_table table)
          (fun _ => false) (fun _ => refused) (fun _ => refused)
          "11/05/2026" show true (Val tt).

(** A record stored on an earlier day, whose status has changed since. *)
Definition older_record : pyval :=
  record_with (PyStr "Data Analyst") (PyStr "Initech")
              (PyStr "Reports and dashboards.") [("location", PyStr "Austin, TX")]
              (PyStr "https://example.com/jobs/7") (PyStr "url")
              (PyStr "01/15/2026") (PyStr "Interviewed") (PyStr "03/02/2026").

(** A run whose new events all satisfy [P], whatever state it starts from. *)
Definition emits {A : Type} (P : event -> Prop) (m : M A) : Prop :=
  forall st, exists evs,
    events (snd (m st)) = (events st ++ evs)%list /\ Forall P evs.

(** What the model loop may do: print, and call the service with the
    prompt [prompt]; it never sleeps and never fetches. *)
Definition call_with (prompt : string) (e : event) : Prop :=
  match e with
  | Print _ => True
  | HttpPost _ p => p = prompt
  | _ => False
  end.

(** No two stored records carry the same key. *)
Definition unique_keys (l : list pyval) : Prop :=
  forall k, count_key k l <= 1.

(** The outcome of a submission that starts in [st], with the record that
    it stored: a record made by the pipeline that the duplicate test let
    through; otherwise the store and the file are as before. *)
Definition pipeline_frame (W : world) (st : tracker) (out : result bool * tracker)
  : Prop :=
  match out with
  | (Val true, st') =>
      exists record, made_by_pipeline W record /\
                     find_duplicate (jobs st) record = Val false /\
                     jobs st' = (jobs st ++ [record])%list /\
                     jobs_file st' = Some (jobs st')
  | (_, st') => jobs st' = jobs st /\ jobs_file st' = jobs_file st
  end.

(** What a handler of the server that adds a job returns for a field that
    is there, and what it leaves in the file [jobs.json], whose content was
    [file] when the request arrived: a success with the record that was
    appended and written, or the error [failed] or an exception with the
    file as it was. *)
Definition handled (W : world) (file : option (list pyval)) (failed : string)
           (out : result pyval * tracker) : Prop :=
  match out with
  | (Val response, st') =>
      (exists record,
          response = Server.success_with record /\
          made_by_pipeline W record /\
          find_duplicate (load_jobs file) record = Val false /\
          jobs_file st' = Some (load_jobs file ++ [record])%list) \/
      (response = Server.failure failed /\ jobs_file st' = file)
  | (Exn _, st') => jobs_file st' = file
  end.

(** A PDF without a text layer: two pages, both blank. *)
Definition scanned : world :=
  mkWorld (fun _ => refused) (fun _ _ _ => refused) (loads_table table)
          (fun _ => true) (fun _ => Val ["  "; ""]) (fun _ => refused)
          "11/04/2026" show true (Val tt).

(** The same document where PyPDF2 is missing and its installation
    succeeds, and where the installation fails. *)
Definition scanned_after_install : world :=
  mkWorld (fun _ => refused) (fun _ _ _ => refused) (loads_table table)
          (fun _ => true) (fun _ => Val ["  "; ""]) (fun _ => refused)
          "11/04/2026" show false (Val tt).

Definition no_pip : world :=
  mkWorld (fun _ => refused) (fun _ _ _ => refused) (loads_table table)
          (fun _ => true) (fun _ => Val ["  "; ""]) (fun _ => refused)
          "11/04/2026" show false
          (Exn (mkExn OtherException "returned non-zero exit status 1")).

(** What reading the PDF comes to: the pages that the reader gives, at
    once when PyPDF2 is installed, after its installation otherwise. *)
Definition pdf_read (W : world) (pdf_path : string) : result (list string) :=
  if pypdf2_installed W then pdf_pages W pdf_path
  else rbind (pip_install W) (fun _ => pdf_pages W pdf_path).

(** No text is obtained from the PDF: the reading failed, or every page is
    blank. *)
Definition textless (W : world) (pdf_path : string) : Prop :=
  match pdf_read W pdf_path with
  | Val pages => forallb all_space pages = true
  | Exn _ => True
  end.

(** The lines that [add_job_from_pdf] prints for such a PDF. *)
Definition textless_report (W : world) (pdf_path : string) : list string :=
  ["Processing PDF..."]
  ++ (if pypdf2_installed W then [] else ["PyPDF2 not installed. Installing..."])
  ++ match pdf_read W pdf_path with
     | Val _ => []
     | Exn e =>
         [(if pypdf2_installed W then "Error reading PDF: "
           else "Failed to install PyPDF2: ") ++ exn_msg e]
     end.

(** The length of the whitespace at the head of a text. *)
Fixpoint blanks (s : string) : nat :=
  match s with
  | String c s' => if isspace c then S (blanks s') else 0
  | EmptyString => 0
  end.

(** As [spaced], without the condition on the end of the text. *)
Fixpoint spaced_inside (after_space : bool) (s : string) : bool :=
  match s with
  | EmptyString => true
  | String c s' =>
      if isspace c then Ascii.eqb c " " && negb after_space && spaced_inside true s'
      else spaced_inside false s'
  end.

(** A page of plain text, and a page of whitespace; the inference service
    is down. *)
Definition plain_text : string :=
  "  Backend   Engineer" ++ NL ++ "at Acme Corp. ".

Definition plain_page : world :=
  world_of (fun _ => Val (mkResponse 200 plain_text not_json))
           (fun _ _ _ => refused).

Definition blank_page : world :=
  world_of (fun _ => Val (mkResponse 200 ("  " ++ NL ++ " ") not_json))
           (fun _ _ _ => refused).

(** The message of [save_job_info] for a missing record. *)
Definition extraction_failed : string := "Failed to extract job information".

(** Any event but the printing of [msg]. *)
Definition other_than (msg : string) (e : event) : Prop := e <> Print msg.

(** The record is due for the mark: its last update parses and lies 180
    days or more back, and its status is not a final one. *)
Definition due (days_since : string -> option Z) (job : pyval) : bool :=
  match py_item job "last_update" with
  | Val (PyStr s) =>
      match days_since s with
      | Some days =>
          (180 <=? days)%Z &&
          match py_item job "status" with
          | Val status => Manager.is_open status
          | Exn _ => false
          end
      | None => false
      end
  | _ => false
  end.

(** The record with the status "Ghosted" and today as its last update. *)
Definition mark (W : world) (job : pyval) : pyval :=
  match job with
  | PyDict d =>
      PyDict (dict_set "last_update" (PyStr (strftime_now W))
                       (dict_set "status" (PyStr "Ghosted") d))
  | _ => job
  end.

(** What [check_ghosted_jobs] makes of a record. *)
Definition ghosted (W : world) (days_since : string -> option Z) (job : pyval)
  : pyval :=
  if due days_since job then mark W job else job.


(** A record that the details view can show: it has the seven fields that
    the view reads, its [other_info] is an object, and it has no notes. *)
Definition showable (job : pyval) : Prop :=
  Forall (has_item job)
         ["title"; "company"; "status"; "date_added"; "last_update";
          "description"; "url"] /\
  (exists other_info, py_get job "other_info" PyNone = Val (PyDict other_info)) /\
  py_get job "notes" PyNone = Val PyNone.

(** A record as the pipeline stores it, and a request that gives it a
    URL. *)
Definition stored_example : pyval :=
  record_of offline (PyStr "Backend Engineer") (PyStr "Acme Corp")
            (PyStr "We are looking for a backend engineer.") []
            "text" "Direct Input".

Definition url_request : dict := [("url", PyStr job_url)].

(** Any event but a request for a page. *)
Definition no_fetch (e : event) : Prop :=
  match e with
  | HttpGet _ => False
  | _ => True
  end.

End Props.

(* ===================================================================== *)
(** ** Properties *)
(* ===================================================================== *)

Import PyStr Py Tracker Props.
Local Open Scope py_scope.

Arguments re_search : simpl never.
Arguments re_sub : simpl never.
Arguments fallback_body : simpl never.
Arguments make_prompt : simpl never.
Arguments String.append : simpl nomatch.

(** *** The matcher on the patterns of the source *)

Example title_of_example1 :
  first_group IM 5 200 title_patterns example1 = Val (Some "Backend Engineer").
Proof. vm_compute. reflexivity. Qed.

Example company_of_example1 :
  first_group I_ 1 100 company_patterns example1 = Val (Some "Acme Corp").
Proof. vm_compute. reflexivity. Qed.

Example salary_of_example1 :
  first_match I_ salary_patterns example1
  = Val (Some "$120,000 - $150,000 per year").
Proof. vm_compute. reflexivity. Qed.

Example location_of_example1 :
  first_group I_ 2 100 location_patterns example1 = Val (Some "Austin, TX").
Proof. vm_compute. reflexivity. Qed.

Example title_by_role_noun :
  first_group IM 5 200 title_patterns
              ("Acme Corp is hiring" ++ NL ++ "Senior Data Analyst wanted.")
  = Val (Some "Senior Data Analyst").
Proof. vm_compute. reflexivity. Qed.

Example company_is_hiring :
  first_group I_ 1 100 company_patterns "Globex Corporation is hiring again"
  = Val (Some "Globex Corporation").
Proof. vm_compute. reflexivity. Qed.

Example lazy_script_block :
  re_sub "<script[^>]*>.*?</script>" ""
         ("<p>a</p><SCRIPT x>foo" ++ NL ++ "bar</script>b<script></script>c") SI
  = Val "<p>a</p>bc".
Proof. vm_compute. reflexivity. Qed.

Example unsupported_pattern : Re.re_compile "\w+$" = None.
Proof. reflexivity. Qed.

(** *** Strings *)

Lemma len_take_le (n : nat) (s : string) : len (take n s) <= n.
Proof.
  revert s; induction n as [|n IH]; intros [|c s]; simpl; try lia.
  specialize (IH s). unfold len in *. lia.
Qed.

Lemma len_app (s t : string) : len (s ++ t) = len s + len t.
Proof. induction s as [|c s IH]; simpl; [reflexivity|]. unfold len in *. lia. Qed.

Lemma rstrip_cons_nonspace (c : ascii) (s : string) :
  isspace c = false -> rstrip (String c s) = String c (rstrip s).
Proof. intros H. simpl. rewrite H. destruct (rstrip s); reflexivity. Qed.

Lemma lstrip_cons_nonspace (c : ascii) (s : string) :
  isspace c = false -> lstrip (String c s) = String c s.
Proof. intros H. simpl. rewrite H. reflexivity. Qed.

Lemma startswith_app (p s : string) :
  startswith p s = true -> exists rest, s = p ++ rest.
Proof.
  revert s; induction p as [|a p IH]; intros s H.
  - exists s; reflexivity.
  - destruct s as [|b s]; cbn [startswith] in H; [discriminate|].
    apply andb_prop in H. destruct H as [Hab H].
    apply Ascii.eqb_eq in Hab. subst b.
    destruct (IH s H) as [rest ->]. exists rest; reflexivity.
Qed.

(** Stripping keeps a leading [http]. *)
Lemma startswith_http_strip (s : string) :
  startswith "http" s = true -> startswith "http" (strip s) = true.
Proof.
  intros H. destruct (startswith_app _ _ H) as [rest ->].
  unfold strip. cbn [String.append].
  rewrite lstrip_cons_nonspace by reflexivity.
  rewrite !rstrip_cons_nonspace by reflexivity. reflexivity.
Qed.

(** *** The event log *)

Lemma posts_app (l1 l2 : list event) : posts (l1 ++ l2) = (posts l1 ++ posts l2)%list.
Proof. unfold posts. apply flat_map_app. Qed.

Lemma posts_cons_print (msg : string) (l : list event) :
  posts (Print msg :: l) = posts l.
Proof. reflexivity. Qed.

Lemma logs_refl (st : tracker) : logs st st [].
Proof. unfold logs. rewrite app_nil_r. destruct st; reflexivity. Qed.

Lemma logs_trans (st1 st2 st3 : tracker) (e1 e2 : list event) :
  logs st1 st2 e1 -> logs st2 st3 e2 -> logs st1 st3 (e1 ++ e2).
Proof. unfold logs. intros -> ->. simpl. rewrite app_assoc. reflexivity. Qed.

Lemma logs_emit (st : tracker) (e : event) :
  logs st (mkTracker (jobs st) (jobs_file st) (events st ++ [e])) [e].
Proof. reflexivity. Qed.

Lemma logs_jobs (st st' : tracker) (evs : list event) :
  logs st st' evs -> jobs st' = jobs st /\ jobs_file st' = jobs_file st.
Proof. intros ->. split; reflexivity. Qed.

Lemma logs_posts (st st' : tracker) (evs : list event) :
  logs st st' evs -> posts (events st') = (posts (events st) ++ posts evs)%list.
Proof. intros ->. simpl. apply posts_app. Qed.

Create HintDb logs.
#[local] Hint Resolve logs_refl logs_emit : logs.

(** Unfolds the monad. *)
Ltac run :=
  unfold bind, ret, print, emit, lift, raise, try_except,
         save_jobs, append_job, get_jobs in *;
  cbn [fst snd jobs jobs_file events] in *.

(** *** Insertion: [save_job_info] *)

(** What [save_job_info] does to the store.  An accepted record is appended
    at the end and the new sequence is persisted; a rejected one (duplicate,
    or nothing extracted) leaves the store and the file as they were.  When
    the duplicate scan raises, nothing was appended either; the only other
    exception comes from the final message, after the append, for a record
    whose title or company cannot be read. *)
Lemma save_job_info_cases (W : world) (job_info : option pyval) (st : tracker) :
  match save_job_info W job_info st with
  | (Val true, st') =>
      exists j, job_info = Some j /\
                jobs st' = (jobs st ++ [j])%list /\
                jobs_file st' = Some (jobs st')
  | (Val false, st') =>
      jobs st' = jobs st /\ jobs_file st' = jobs_file st
  | (Exn e, st') =>
      (jobs st' = jobs st /\ jobs_file st' = jobs_file st) \/
      (exists j, job_info = Some j /\
                 (py_item j "title" = Exn e \/ py_item j "company" = Exn e) /\
                 jobs st' = (jobs st ++ [j])%list /\
                 jobs_file st' = Some (jobs st'))
  end.
Proof.
  unfold save_job_info.
  destruct job_info as [j|]; [destruct (truthy j)|]; run; auto.
  destruct (find_duplicate (jobs st) j) as [[|]|e]; run; auto.
  destruct (py_item j "title") as [t|e] eqn:Ht; run.
  - destruct (py_item j "company") as [c|e] eqn:Hc; run.
    + exists j; auto.
    + right. exists j; auto.
  - right. exists j; auto.
Qed.

(** *** Duplicate detection *)

Lemma job_key_inv (j : pyval) (k : string * string) :
  job_key j = Some k ->
  exists t c, py_get j "title" (PyStr "") = Val (PyStr t) /\
              py_get j "company" (PyStr "") = Val (PyStr c) /\
              k = (lower t, lower c).
Proof.
  unfold job_key. intros H.
  destruct (py_get j "title" (PyStr "")) as [[]|]; try discriminate.
  destruct (py_get j "company" (PyStr "")) as [[]|]; try discriminate.
  inversion H. eauto.
Qed.

(** On records with a key, the test of the scan compares the keys. *)
Lemma same_key_keys (e j : pyval) (ke kj : string * string) :
  job_key e = Some ke -> job_key j = Some kj ->
  same_key e j =
    Val (String.eqb (fst ke) (fst kj) && String.eqb (snd ke) (snd kj)).
Proof.
  intros He Hj.
  destruct (job_key_inv _ _ He) as (t1 & c1 & Ht1 & Hc1 & ->).
  destruct (job_key_inv _ _ Hj) as (t2 & c2 & Ht2 & Hc2 & ->).
  unfold same_key. rewrite Ht1, Ht2, Hc1, Hc2. cbn.
  destruct (String.eqb (lower t1) (lower t2)); reflexivity.
Qed.

Lemma key_eqb_refl (k : string * string) :
  String.eqb (fst k) (fst k) && String.eqb (snd k) (snd k) = true.
Proof. rewrite !String.eqb_refl. reflexivity. Qed.

Lemma key_eqb_neq (k k' : string * string) :
  k' <> k ->
  String.eqb (fst k') (fst k) && String.eqb (snd k') (snd k) = false.
Proof.
  intros Hne. destruct k as [a b], k' as [a' b']; simpl.
  destruct (String.eqb_spec a' a); [|reflexivity].
  destruct (String.eqb_spec b' b); [|reflexivity].
  subst; contradiction.
Qed.

(** The scan finds nothing in a store whose keys all differ from the key
    of the submission, and finds the record with the same key behind it. *)
Lemma find_duplicate_scan (existing tail : list pyval) (j : pyval)
      (k : string * string) :
  job_key j = Some k ->
  Forall (fun e => exists k', job_key e = Some k' /\ k' <> k) existing ->
  find_duplicate (existing ++ tail) j = find_duplicate tail j.
Proof.
  intros Hj Hall. induction Hall as [|e l (k' & He & Hne) _ IH]; [reflexivity|].
  cbn [app find_duplicate]. rewrite (same_key_keys _ _ _ _ He Hj).
  cbn [rbind]. rewrite (key_eqb_neq _ _ Hne). exact IH.
Qed.

Lemma count_key_none (l : list pyval) (k : string * string) :
  Forall (fun e => exists k', job_key e = Some k' /\ k' <> k) l ->
  count_key k l = 0.
Proof.
  unfold count_key. induction 1 as [|e l (k' & He & Hne) _ IH]; [reflexivity|].
  cbn [filter]. rewrite He. destruct k' as [t c].
  change (String.eqb t (fst k) && String.eqb c (snd k))
    with (String.eqb (fst (t, c)) (fst k) && String.eqb (snd (t, c)) (snd k)).
  rewrite (key_eqb_neq _ _ Hne). exact IH.
Qed.

Lemma count_key_app (l1 l2 : list pyval) (k : string * string) :
  count_key k (l1 ++ l2) = count_key k l1 + count_key k l2.
Proof. unfold count_key. rewrite filter_app, length_app. reflexivity. Qed.

Lemma has_title_company_truthy (j : pyval) : has_title_company j -> truthy j = true.
Proof.
  intros (t & c & Ht & _). destruct j; try discriminate.
  destruct d; [discriminate | reflexivity].
Qed.

(** The duplicate test where every stored record has a title and a company
    that are strings.  Two drafts with the same key, submitted one after
    the other to such a store that holds no record with that key: the
    first is appended and persisted, the second is rejected as a duplicate
    ("Similar job already exists!") and leaves the store and the file
    untouched, so the store ends with exactly one record of that key. *)
Theorem duplicate_submission_rejected (W : world) (st : tracker)
        (j1 j2 : pyval) (k : string * string) :
  has_title_company j1 -> has_title_company j2 ->
  job_key j1 = Some k -> job_key j2 = Some k ->
  Forall (fun e => exists k', job_key e = Some k' /\ k' <> k) (jobs st) ->
  exists st1 st2,
    save_job_info W (Some j1) st = (Val true, st1) /\
    jobs st1 = (jobs st ++ [j1])%list /\
    jobs_file st1 = Some (jobs st1) /\
    save_job_info W (Some j2) st1 = (Val false, st2) /\
    logs st1 st2 [Print "Similar job already exists!"] /\
    jobs st2 = jobs st1 /\
    jobs_file st2 = jobs_file st1 /\
    count_key k (jobs st2) = 1.
Proof.
  intros Hf1 Hf2 Hk1 Hk2 Hall.
  assert (Hnone : find_duplicate (jobs st) j1 = Val false).
  { rewrite <- (app_nil_r (jobs st)).
    rewrite (find_duplicate_scan _ [] _ _ Hk1 Hall). reflexivity. }
  assert (Hdup : find_duplicate (jobs st ++ [j1]) j2 = Val true).
  { rewrite (find_duplicate_scan _ [j1] _ _ Hk2 Hall).
    cbn [find_duplicate]. rewrite (same_key_keys _ _ _ _ Hk1 Hk2).
    cbn [rbind]. rewrite key_eqb_refl. reflexivity. }
  pose proof (has_title_company_truthy _ Hf1) as Ht1.
  pose proof (has_title_company_truthy _ Hf2) as Ht2.
  destruct Hf1 as (t1 & c1 & Hti1 & Hco1).
  eexists. eexists.
  split.
  { unfold save_job_info. rewrite Ht1. run. rewrite Hnone. run.
    rewrite Hti1, Hco1. reflexivity. }
  cbn [jobs jobs_file events].
  split; [reflexivity|]. split; [reflexivity|].
  split.
  { unfold save_job_info. rewrite Ht2. run. rewrite Hdup. reflexivity. }
  split; [reflexivity|].
  cbn [jobs jobs_file]. split; [reflexivity|]. split; [reflexivity|].
  rewrite count_key_app, (count_key_none _ _ Hall).
  unfold count_key. cbn [filter]. rewrite Hk1. destruct k as [t c].
  cbn [fst snd]. rewrite !String.eqb_refl. reflexivity.
Qed.

Lemma duplicate_submission_rejected_witness :
  exists st1 st2,
    save_job_info offline (Some (backend_draft "Backend Engineer"))
                  (init (Some [other_record])) = (Val true, st1) /\
    jobs st1 = [other_record; backend_draft "Backend Engineer"] /\
    jobs_file st1 = Some (jobs st1) /\
    save_job_info offline (Some (backend_draft "backend engineer")) st1
      = (Val false, st2) /\
    logs st1 st2 [Print "Similar job already exists!"] /\
    jobs st2 = jobs st1 /\
    jobs_file st2 = jobs_file st1 /\
    count_key ("backend engineer", "acme corp") (jobs st2) = 1.
Proof.
  apply (duplicate_submission_rejected offline (init (Some [other_record]))
           (backend_draft "Backend Engineer") (backend_draft "backend engineer")
           ("backend engineer", "acme corp")).
  - do 2 eexists; split; reflexivity.
  - do 2 eexists; split; reflexivity.
  - reflexivity.
  - reflexivity.
  - repeat constructor. eexists; split; [reflexivity | discriminate].
Defined.

(** C2, where the code fails it.  The scan reads the title of every
    stored record with [.get('title', '').lower()]: the default covers a
    record without a title, not one whose title is [null] (or any value
    that is not a string).  A draft submitted to a store that holds such a
    record, before any record of the draft's own key, is neither stored nor
    rejected as a duplicate: the scan raises, and the store and the file
    stay as they were.  So two submissions of the same draft both raise. *)
Theorem duplicate_scan_raises_on_unreadable_title (W : world) (st : tracker)
        (j unreadable title : pyval) (k : string * string)
        (before behind : list pyval) (e : exn) :
  truthy j = true ->
  job_key j = Some k ->
  jobs st = (before ++ unreadable :: behind)%list ->
  Forall (fun r => exists k', job_key r = Some k' /\ k' <> k) before ->
  py_get unreadable "title" (PyStr "") = Val title ->
  py_lower title = Exn e ->
  save_job_info W (Some j) st = (Exn e, st) /\
  save_job_info W (Some j) (snd (save_job_info W (Some j) st)) = (Exn e, st).
Proof.
  intros Ht Hk Hjobs Hbefore Hget Hlower.
  assert (H : save_job_info W (Some j) st = (Exn e, st)).
  { unfold save_job_info. rewrite Ht. run. rewrite Hjobs.
    rewrite (find_duplicate_scan _ _ _ _ Hk Hbefore).
    cbn [find_duplicate]. unfold same_key. rewrite Hget. cbn [rbind].
    rewrite Hlower. reflexivity. }
  rewrite H. split; [reflexivity | exact H].
Qed.

Lemma duplicate_scan_raises_on_unreadable_title_witness :
  save_job_info offline (Some (backend_draft "Backend Engineer"))
                (init (Some [null_title_record]))
  = (Exn (mkExn AttributeError "object has no attribute 'lower'"),
     init (Some [null_title_record])) /\
  save_job_info offline (Some (backend_draft "Backend Engineer"))
                (snd (save_job_info offline (Some (backend_draft "Backend Engineer"))
                                    (init (Some [null_title_record]))))
  = (Exn (mkExn AttributeError "object has no attribute 'lower'"),
     init (Some [null_title_record])).
Proof.
  apply (duplicate_scan_raises_on_unreadable_title
           offline (init (Some [null_title_record]))
           (backend_draft "Backend Engineer") null_title_record PyNone
           ("backend engineer", "acme corp") [] []).
  - reflexivity.
  - reflexivity.
  - reflexivity.
  - constructor.
  - reflexivity.
  - reflexivity.
Defined.

(** *** Literal text that is too short *)

(** C7.  A literal text of fewer than 50 characters is turned down with the
    message "Text content too short. Please provide more details." and the
    value [False]: no exception, no call to the inference service, no
    record appended, nothing written. *)
Theorem short_text_rejected (W : world) (text_content : string) (st : tracker) :
  len text_content < 50 ->
  exists st',
    add_job_from_text W text_content st = (Val false, st') /\
    logs st st' [Print "Processing text content...";
                 Print "Text content too short. Please provide more details."] /\
    jobs st' = jobs st /\
    jobs_file st' = jobs_file st /\
    posts (events st') = posts (events st).
Proof.
  intros Hlen. unfold add_job_from_text.
  apply Nat.ltb_lt in Hlen. rewrite Hlen. run.
  eexists. split; [reflexivity|].
  split.
  - unfold logs. cbn [jobs jobs_file events]. rewrite <- app_assoc. reflexivity.
  - cbn [jobs jobs_file events]. repeat split.
    rewrite !posts_app. cbn. rewrite !app_nil_r. reflexivity.
Qed.

Lemma short_text_rejected_witness :
  len thirty = 30 /\
  exists st',
    add_job_from_text offline thirty (init None) = (Val false, st') /\
    logs (init None) st'
         [Print "Processing text content...";
          Print "Text content too short. Please provide more details."] /\
    jobs st' = [] /\
    jobs_file st' = None /\
    posts (events st') = [].
Proof.
  split; [reflexivity|].
  apply (short_text_rejected offline thirty (init None)).
  vm_compute. lia.
Defined.

(** *** The LLM extraction client *)

Ltac solve_logs :=
  unfold logs; cbn [jobs jobs_file events];
  rewrite <- ?app_assoc; cbn [app]; reflexivity.

(** Closes a goal [exists st' evs, run = (v, st') /\ logs st st' evs /\ posts evs = l]
    once the run has been computed. *)
Ltac logged :=
  do 2 eexists; (split; [reflexivity|]); split; [solve_logs | reflexivity].

Section Client.

Variable W : world.

Lemma posts_print (evs : list event) (msg : string) :
  posts (evs ++ [Print msg]) = posts evs.
Proof. rewrite posts_app. cbn. apply app_nil_r. Qed.

(** One pass through the [try] block of the model loop, with its
    [except] clauses: never raises, calls the service once, and returns
    what that call yields. *)
Lemma try_model_spec (model prompt : string) (st : tracker) :
  exists st' evs,
    try_except (try_model W model prompt) (model_failed model) st
      = (Val (yields W (List.length (posts (events st))) model prompt), st') /\
    logs st st' evs /\ posts evs = [model].
Proof.
  unfold try_model, model_failed, post_generate, yields, parse_ollama_response.
  run. rewrite posts_print.
  destruct (requests_post W _ model prompt) as [resp|e];
    [|destruct (exn_cls e); run; logged].
  destruct (status_code resp =? 200)%Z; [|logged].
  destruct (json resp) as [result|e]; cbn [rbind];
    [|destruct (exn_cls e); run; logged].
  destruct (py_get result "response" (PyStr "")) as [r|e]; cbn [rbind];
    [|destruct (exn_cls e); run; logged].
  destruct (py_strip r) as [response_text|e]; cbn [rbind];
    [|destruct (exn_cls e); run; logged].
  destruct (parse_body W response_text) as [[d|]|e].
  - destruct (truthy d); run; logged.
  - logged.
  - destruct (exn_cls e); run; logged.
Qed.

(** The model loop is the reference scan. *)
Lemma model_loop_spec (ms : list string) (prompt : string) (st : tracker) :
  exists st' evs,
    model_loop W ms prompt st
      = (Val (fst (first_success W (List.length (posts (events st))) ms prompt)), st') /\
    logs st st' evs /\
    posts evs = snd (first_success W (List.length (posts (events st))) ms prompt).
Proof.
  revert st. induction ms as [|m rest IH]; intros st.
  - exists st, []. repeat split; auto with logs.
  - cbn [model_loop first_success]. unfold bind at 1.
    destruct (try_model_spec m prompt st) as (st1 & e1 & Hrun & Hlog & Hposts).
    rewrite Hrun.
    destruct (yields W (List.length (posts (events st))) m prompt) as [d|].
    + exists st1, e1. repeat split; auto.
    + destruct (IH st1) as (st2 & e2 & Hrun2 & Hlog2 & Hposts2).
      assert (Hn : List.length (posts (events st1))
                   = S (List.length (posts (events st)))).
      { rewrite (logs_posts _ _ _ Hlog), Hposts, length_app. cbn. lia. }
      rewrite Hn in Hrun2, Hposts2.
      destruct (first_success W (S (List.length (posts (events st)))) rest prompt)
        as [r tried].
      exists st2, (e1 ++ e2)%list. cbn [fst snd] in *.
      repeat split; [exact Hrun2 | eapply logs_trans; eauto |].
      rewrite posts_app, Hposts, Hposts2. reflexivity.
Qed.

Lemma first_success_app (n : nat) (l1 l2 : list string) (prompt : string) :
  first_success W n (l1 ++ l2) prompt =
    match first_success W n l1 prompt with
    | (Some d, tried) => (Some d, tried)
    | (None, tried) =>
        let (r, tried2) := first_success W (n + List.length l1) l2 prompt in
        (r, (tried ++ tried2)%list)
    end.
Proof.
  revert n; induction l1 as [|m l1 IH]; intros n; cbn [app first_success List.length].
  - rewrite Nat.add_0_r. destruct (first_success W n l2 prompt); reflexivity.
  - destruct (yields W n m prompt); [reflexivity|].
    rewrite IH. replace (n + S (List.length l1)) with (S n + List.length l1) by lia.
    destruct (first_success W (S n) l1 prompt) as [[d|] tried]; [reflexivity|].
    destruct (first_success W (S n + List.length l1) l2 prompt); reflexivity.
Qed.

(** A scan that finds nothing has called every model of the list. *)
Lemma first_success_none (n : nat) (ms : list string) (prompt : string) :
  fst (first_success W n ms prompt) = None ->
  snd (first_success W n ms prompt) = ms.
Proof.
  revert n; induction ms as [|m ms IH]; intros n; cbn [first_success]; [reflexivity|].
  destruct (yields W n m prompt); [discriminate|].
  specialize (IH (S n)). destruct (first_success W (S n) ms prompt) as [r tried].
  cbn [fst snd] in *. intros Hr. rewrite (IH Hr). reflexivity.
Qed.

(** If the first [K] calls of the scan yield nothing and the next one
    yields [d], the scan returns [d] after exactly [K + 1] calls. *)
Lemma first_success_at (n K : nat) (ms : list string) (prompt : string)
      (d : pyval) :
  K < List.length ms ->
  (forall i, i < K -> yields W (n + i) (nth i ms "") prompt = None) ->
  yields W (n + K) (nth K ms "") prompt = Some d ->
  first_success W n ms prompt = (Some d, firstn (K + 1) ms).
Proof.
  revert n K; induction ms as [|m ms IH]; intros n K HK Hfail Hok;
    cbn [List.length] in HK; [lia|].
  cbn [first_success]. destruct K as [|K].
  - cbn [nth] in Hok. rewrite Nat.add_0_r in Hok. rewrite Hok. reflexivity.
  - pose proof (Hfail 0 ltac:(lia)) as H0. cbn [nth] in H0.
    rewrite Nat.add_0_r in H0. rewrite H0.
    rewrite (IH (S n) K).
    + reflexivity.
    + lia.
    + intros i Hi. specialize (Hfail (S i) ltac:(lia)). cbn [nth] in Hfail.
      replace (S n + i) with (n + S i) by lia. exact Hfail.
    + cbn [nth] in Hok. replace (S n + K) with (n + S K) by lia. exact Hok.
Qed.

(** If no call of the scan yields anything, every model is called. *)
Lemma first_success_all_fail (n : nat) (ms : list string) (prompt : string) :
  (forall i, i < List.length ms -> yields W (n + i) (nth i ms "") prompt = None) ->
  first_success W n ms prompt = (None, ms).
Proof.
  revert n; induction ms as [|m ms IH]; intros n Hfail; [reflexivity|].
  cbn [first_success].
  pose proof (Hfail 0 ltac:(cbn; lia)) as H0. cbn [nth] in H0.
  rewrite Nat.add_0_r in H0. rewrite H0.
  rewrite (IH (S n)); [reflexivity|].
  intros i Hi. specialize (Hfail (S i) ltac:(cbn; lia)). cbn [nth] in Hfail.
  replace (S n + i) with (n + S i) by lia. exact Hfail.
Qed.

(** One attempt: the model loop over [models], between its messages. *)
Lemma attempt_body_spec (attempt : nat) (content : string) (st : tracker) :
  exists st' evs,
    attempt_body W attempt content st
      = (Val (fst (first_success W (List.length (posts (events st))) models
                                 (make_prompt content))), st') /\
    logs st st' evs /\
    posts evs = snd (first_success W (List.length (posts (events st))) models
                                   (make_prompt content)).
Proof.
  unfold attempt_body. run.
  match goal with
  | |- context [model_loop W models _ ?s] =>
      destruct (model_loop_spec models (make_prompt content) s)
        as (st1 & e1 & Hrun & Hlog & Hposts)
  end.
  cbn [events] in Hrun, Hposts. rewrite posts_print in Hrun, Hposts.
  rewrite Hrun, <- Hposts. unfold logs in Hlog. subst st1.
  destruct (fst (first_success W (List.length (posts (events st))) models
                               (make_prompt content))) as [d|].
  - do 2 eexists. split; [reflexivity|]. split; [solve_logs|].
    apply posts_cons_print.
  - destruct (attempt <? max_retries - 1); run;
      (do 2 eexists; split; [reflexivity|]; split; [solve_logs|]).
    + rewrite posts_cons_print, posts_app. apply app_nil_r.
    + apply posts_cons_print.
Qed.

(** [try_ollama_extraction] never raises; it is the reference scan of the
    schedule: the model list, once per attempt. *)
Lemma try_ollama_extraction_spec (content : string) (st : tracker) :
  exists st' evs,
    try_ollama_extraction W content st
      = (Val (fst (first_success W (List.length (posts (events st))) schedule
                                 (make_prompt content))), st') /\
    logs st st' evs /\
    posts evs = snd (first_success W (List.length (posts (events st))) schedule
                                   (make_prompt content)).
Proof.
  unfold try_ollama_extraction, schedule. cbn [max_retries seq attempt_loop].
  rewrite first_success_app.
  unfold bind at 1.
  destruct (attempt_body_spec 0 content st) as (st1 & e1 & Hrun1 & Hlog1 & Hposts1).
  rewrite Hrun1.
  pose proof (first_success_none (List.length (posts (events st))) models
                                 (make_prompt content)) as Hall.
  destruct (first_success W (List.length (posts (events st))) models
                          (make_prompt content)) as [[d|] tried1];
    cbn [fst snd] in *.
  - exists st1, e1. auto.
  - specialize (Hall eq_refl). rewrite Hall in Hposts1 |- *. clear Hall.
    unfold bind at 1.
    destruct (attempt_body_spec 1 content st1) as (st2 & e2 & Hrun2 & Hlog2 & Hposts2).
    rewrite Hrun2.
    assert (Hn : List.length (posts (events st1))
                 = List.length (posts (events st)) + List.length models).
    { rewrite (logs_posts _ _ _ Hlog1), Hposts1, length_app. reflexivity. }
    rewrite Hn in Hposts2 |- *.
    destruct (first_success W (List.length (posts (events st)) + List.length models)
                            models (make_prompt content)) as [[d|] tried2];
      cbn [fst snd] in *;
      exists st2, (e1 ++ e2)%list;
      (split; [reflexivity|]); (split; [eapply logs_trans; eauto|]);
      rewrite posts_app, Hposts1, Hposts2; reflexivity.
Qed.

End Client.

(** The models called by the reference scan are a prefix of its list. *)
Lemma first_success_prefix (W : world) (ms : list string) (prompt : string) :
  forall n,
    snd (first_success W n ms prompt)
    = firstn (List.length (snd (first_success W n ms prompt))) ms.
Proof.
  induction ms as [|m ms IH]; intros n; cbn [first_success]; [reflexivity|].
  destruct (yields W n m prompt); [reflexivity|].
  specialize (IH (S n)). destruct (first_success W (S n) ms prompt) as [r tried].
  cbn [snd List.length firstn] in *. f_equal. exact IH.
Qed.

(** C8, as the code has it.  [try_ollama_extraction] never raises, and the
    calls it makes to the service are a prefix of the fixed schedule: the
    model list in priority order, once for each of the two attempts.  A
    call yields when the status is 200 and [parse_ollama_response] accepts
    the answer: a JSON object is found, parsed, and formatted into a draft.
    If the first [K] calls do not yield and the next one yields a draft
    [d], then exactly [K + 1] calls are made, to the first [K + 1] models
    of the schedule in that order, and [d] is returned at once: no later
    model and no later attempt is tried.  If none of the ten calls yields,
    all ten are made and the client gives up with [None]. *)
Theorem model_fallback_order (W : world) (content : string) (st : tracker) :
  exists r st' evs,
    try_ollama_extraction W content st = (Val r, st') /\
    logs st st' evs /\
    posts evs = firstn (List.length (posts evs)) schedule /\
    (forall K d,
        K < List.length schedule ->
        (forall i, i < K ->
           yields W (List.length (posts (events st)) + i) (nth i schedule "")
                  (make_prompt content) = None) ->
        yields W (List.length (posts (events st)) + K) (nth K schedule "")
               (make_prompt content) = Some d ->
        r = Some d /\ posts evs = firstn (K + 1) schedule /\
        List.length (posts evs) = K + 1) /\
    ((forall i, i < List.length schedule ->
        yields W (List.length (posts (events st)) + i) (nth i schedule "")
               (make_prompt content) = None) ->
     r = None /\ posts evs = schedule).
Proof.
  destruct (try_ollama_extraction_spec W content st) as (st' & evs & Hrun & Hlog & Hposts).
  do 3 eexists. split; [exact Hrun|]. split; [exact Hlog|].
  split; [|split].
  - rewrite Hposts. apply first_success_prefix.
  - intros K d HK Hfail Hok.
    rewrite Hposts, (first_success_at W _ K schedule _ d HK Hfail Hok).
    cbn [fst snd]. repeat split. rewrite length_firstn. lia.
  - intros Hfail. rewrite Hposts, (first_success_all_fail W _ schedule _ Hfail).
    split; reflexivity.
Qed.

Lemma model_fallback_order_witness :
  exists r st' evs,
    try_ollama_extraction flaky example1 (init None) = (Val r, st') /\
    logs (init None) st' evs /\
    r = Some (make_draft (PyStr "Backend Engineer") (PyStr "Acme Corp")
                         (PyStr "No description found") []) /\
    posts evs = ["phi3:mini"; "llama3.2"; "llama3.1"] /\
    List.length (posts evs) = 3.
Proof.
  destruct (model_fallback_order flaky example1 (init None))
    as (r & st' & evs & Hrun & Hlog & _ & HK & _).
  exists r, st', evs. split; [exact Hrun|]. split; [exact Hlog|].
  apply (HK 2).
  - vm_compute. lia.
  - intros i Hi. destruct i as [|[|i]]; [reflexivity | reflexivity | lia].
  - reflexivity.
Defined.

(** C8 as stated fails: an answer whose JSON object parses does not end the
    loop when it cannot be formatted.  Here the first model answers with an
    object whose description is [null]: [json.loads] succeeds, the slice
    [[:500]] of the description raises, the parser reports "Response parse
    error" and returns [None], and the second model is called. *)
Lemma parseable_answer_not_accepted :
  exists st',
    json_loads null_description_world null_description_json
      = Val null_description_data /\
    try_ollama_extraction null_description_world example1 (init None)
      = (Val (Some (make_draft (PyStr "Backend Engineer") (PyStr "Acme Corp")
                               (PyStr "No description found") [])), st') /\
    posts (events st') = ["phi3:mini"; "llama3.2"] /\
    In (Print "Response parse error: object is not subscriptable") (events st').
Proof.
  eexists. split; [vm_compute; reflexivity|].
  split; [vm_compute; reflexivity|].
  split; [reflexivity|].
  cbn. tauto.
Qed.

Lemma unreachable_yields (W : world) (n : nat) (model prompt : string) :
  unreachable W -> yields W n model prompt = None.
Proof.
  intros H. specialize (H n model prompt). unfold yields.
  destruct (requests_post W n model prompt) as [resp|e]; [|reflexivity].
  destruct (Z.eqb_spec (status_code resp) 200); [contradiction | reflexivity].
Qed.

(** *** The matcher and group 1 *)

Section Group1.

Variable fl : Re.flags.

Let has_g1 (st : Re.mstate) : Prop := Re.m_g1 st <> None.

Lemma one_inv (p : ascii -> bool) (st : Re.mstate)
      (k : Re.mstate -> option Re.mstate) (res : Re.mstate) :
  Re.one p st k = Some res ->
  exists st', k st' = Some res /\ Re.m_g1 st' = Re.m_g1 st.
Proof.
  unfold Re.one. destruct (Re.m_rest st) as [|c rest]; [discriminate|].
  destruct (p c); [|discriminate]. intros H.
  exists (Re.advance st c rest). split; [exact H | reflexivity].
Qed.

(** A repeat keeps group 1 when its body does. *)
Lemma rep_loop_g1 (m : Re.mstate -> (Re.mstate -> option Re.mstate) -> option Re.mstate)
      (greedy : bool) (lo : nat) (hi : option nat)
      (k : Re.mstate -> option Re.mstate) (res : Re.mstate) :
  (forall st k' res',
      m st k' = Some res' ->
      exists st', k' st' = Some res' /\ (has_g1 st -> has_g1 st')) ->
  forall fuel n st0,
    Re.rep_loop m greedy lo hi k fuel n st0 = Some res ->
    exists st', k st' = Some res /\ (has_g1 st0 -> has_g1 st').
Proof.
  intros Hm. induction fuel as [|fuel IHf]; intros n st0 H; cbn [Re.rep_loop] in H.
  - destruct (lo <=? n); [|discriminate]. exists st0; auto.
  - cbv zeta in H.
    assert (Hmore :
              (if Re.below n hi
               then m st0 (fun st' => if (Re.m_pos st' =? Re.m_pos st0)%N then None
                                      else Re.rep_loop m greedy lo hi k fuel (S n) st')
               else None) = Some res ->
              exists st', k st' = Some res /\ (has_g1 st0 -> has_g1 st')).
    { destruct (Re.below n hi); [|discriminate]. intros Hb.
      destruct (Hm _ _ _ Hb) as (st1 & H1 & Hkeep1).
      destruct (Re.m_pos st1 =? Re.m_pos st0)%N; [discriminate|].
      destruct (IHf _ _ H1) as (st2 & H2 & Hkeep2).
      exists st2; auto. }
    assert (Hstop :
              (if lo <=? n then k st0 else None) = Some res ->
              exists st', k st' = Some res /\ (has_g1 st0 -> has_g1 st')).
    { destruct (lo <=? n); [|discriminate]. intros Hk. exists st0; auto. }
    destruct greedy.
    + destruct (if Re.below n hi then _ else None) as [res1|] eqn:Em.
      * inversion H; subst res1. exact (Hmore eq_refl).
      * exact (Hstop H).
    + destruct (if lo <=? n then k st0 else None) as [res1|] eqn:Es.
      * inversion H; subst res1. exact (Hstop eq_refl).
      * exact (Hmore H).
Qed.

(** Whatever the matcher hands to its continuation keeps group 1 once it
    is set, and has it set when the pattern sets it on every match. *)
Lemma rmatch_g1 (r : Re.regex) :
  forall (st : Re.mstate) (k : Re.mstate -> option Re.mstate) (res : Re.mstate),
    Re.rmatch fl r st k = Some res ->
    exists st', k st' = Some res /\
                (has_g1 st -> has_g1 st') /\
                (sets_g1 r = true -> has_g1 st').
Proof.
  induction r as [ | x | neg items | | | r1 IH1 r2 IH2 | r1 IH1 r2 IH2
                   | r1 IH1 | greedy r1 IH1 lo hi ];
    intros st k res H; cbn [Re.rmatch sets_g1] in *.
  - exists st. repeat split; auto; discriminate.
  - destruct (one_inv _ _ _ _ H) as (st' & Hk & Hg). exists st'.
    unfold has_g1. rewrite Hg. repeat split; auto; discriminate.
  - destruct (one_inv _ _ _ _ H) as (st' & Hk & Hg). exists st'.
    unfold has_g1. rewrite Hg. repeat split; auto; discriminate.
  - destruct (one_inv _ _ _ _ H) as (st' & Hk & Hg). exists st'.
    unfold has_g1. rewrite Hg. repeat split; auto; discriminate.
  - destruct (Re.at_bol fl st); [|discriminate].
    exists st. repeat split; auto; discriminate.
  - destruct (IH1 _ _ _ H) as (st1 & H1 & Hkeep1 & Hset1).
    destruct (IH2 _ _ _ H1) as (st2 & H2 & Hkeep2 & Hset2).
    exists st2. repeat split; auto.
    intros Hs. apply orb_prop in Hs. destruct Hs; auto.
  - destruct (Re.rmatch fl r1 st k) as [res1|] eqn:E1.
    + inversion H; subst res1.
      destruct (IH1 _ _ _ E1) as (st1 & H1 & Hkeep1 & Hset1).
      exists st1. repeat split; auto.
      intros Hs. apply andb_prop in Hs. destruct Hs; auto.
    + destruct (IH2 _ _ _ H) as (st2 & H2 & Hkeep2 & Hset2).
      exists st2. repeat split; auto.
      intros Hs. apply andb_prop in Hs. destruct Hs; auto.
  - destruct (IH1 _ _ _ H) as (st1 & H1 & _ & _).
    eexists. split; [exact H1|].
    split; intros _; unfold has_g1; cbn; discriminate.
  - apply rep_loop_g1 in H.
    + destruct H as (st' & Hk & Hkeep). exists st'.
      repeat split; auto; discriminate.
    + intros st1 k' res' H1.
      destruct (IH1 _ _ _ H1) as (st2 & H2 & Hkeep2 & _). exists st2; auto.
Qed.

(** A match of a pattern that sets group 1 has its group 1. *)
Lemma search_from_g1 (r : Re.regex) (subject : string) :
  sets_g1 r = true ->
  forall (s : string) (prev : option ascii) (left : nat) (pos : N)
         (mo : Re.match_obj),
    Re.search_from fl r subject prev s left pos = Some mo ->
    exists g, Re.group1 mo = Some g.
Proof.
  intros Hsets. induction s as [|c s IH]; intros prev left pos mo;
    cbn [Re.search_from];
    destruct (Re.rmatch fl r (Re.mkM prev _ left pos None) (fun st => Some st))
      as [st'|] eqn:E; intros H; try discriminate.
  - destruct (rmatch_g1 _ _ _ _ E) as (st1 & H1 & _ & Hset).
    inversion H1; subst st1. inversion H; subst mo.
    specialize (Hset Hsets). unfold has_g1 in Hset. unfold Re.group1.
    cbn [Re.mo_g1]. destruct (Re.m_g1 st') as [[a b]|]; [eauto | contradiction].
  - destruct (rmatch_g1 _ _ _ _ E) as (st1 & H1 & _ & Hset).
    inversion H1; subst st1. inversion H; subst mo.
    specialize (Hset Hsets). unfold has_g1 in Hset. unfold Re.group1.
    cbn [Re.mo_g1]. destruct (Re.m_g1 st') as [[a b]|]; [eauto | contradiction].
  - eapply IH; eauto.
Qed.

End Group1.

(** *** The heuristic extractor *)

Lemma re_search_group (pattern content : string) (fl : Re.flags) :
  compiles_with_group pattern = true ->
  exists m, re_search pattern content fl = Val m /\
            forall mo, m = Some mo -> exists g, Re.group1 mo = Some g.
Proof.
  unfold compiles_with_group, re_search.
  destruct (Re.re_compile pattern) as [r|]; [|discriminate].
  intros Hsets. eexists. split; [reflexivity|].
  intros mo Hmo. unfold Re.search in Hmo.
  eapply search_from_g1; eauto.
Qed.

Lemma re_search_compiles (pattern content : string) (fl : Re.flags) :
  compiles pattern = true -> exists m, re_search pattern content fl = Val m.
Proof.
  unfold compiles, re_search.
  destruct (Re.re_compile pattern); [eauto | discriminate].
Qed.

(** The field loop never raises on patterns that set group 1, and what it
    finds is longer than [lo] and shorter than [hi]. *)
Lemma first_group_total (fl : Re.flags) (lo hi : nat) (patterns : list string)
      (content : string) :
  forallb compiles_with_group patterns = true ->
  exists o, first_group fl lo hi patterns content = Val o /\
            forall s, o = Some s -> lo < len s /\ len s < hi.
Proof.
  induction patterns as [|p ps IH]; cbn [forallb first_group]; intros Hall.
  - exists None. split; [reflexivity | discriminate].
  - apply andb_prop in Hall. destruct Hall as [Hp Hps].
    destruct (re_search_group p content fl Hp) as (m & -> & Hg). cbn [rbind].
    destruct m as [mo|]; [|auto].
    destruct (Hg mo eq_refl) as (g & ->).
    destruct (lo <? len (strip g)) eqn:Elo; cbn [andb]; [|auto].
    destruct (len (strip g) <? hi) eqn:Ehi; [|auto].
    eexists. split; [reflexivity|].
    intros s Hs. inversion Hs; subst s.
    apply Nat.ltb_lt in Elo, Ehi. auto.
Qed.

Lemma first_match_total (fl : Re.flags) (patterns : list string) (content : string) :
  forallb compiles patterns = true ->
  exists o, first_match fl patterns content = Val o.
Proof.
  induction patterns as [|p ps IH]; cbn [forallb first_match]; intros Hall.
  - eauto.
  - apply andb_prop in Hall. destruct Hall as [Hp Hps].
    destruct (re_search_compiles p content fl Hp) as (m & ->). cbn [rbind].
    destruct m; eauto.
Qed.

(** The description that the heuristic extractor puts in its draft. *)
Lemma heuristic_description_length (content : string) :
  len (heuristic_description content) <= 503.
Proof.
  unfold heuristic_description.
  destruct (String.eqb _ ""); [vm_compute; lia|].
  destruct (500 <? len content) eqn:E.
  - rewrite len_app. pose proof (len_take_le 500 content).
    change (len "...") with 3. lia.
  - apply Nat.ltb_ge in E. lia.
Qed.

(** The [try] block of the heuristic extractor always completes, with a
    title and a company that are not empty and the description above. *)
Lemma fallback_body_total (content : string) :
  exists title company other_info,
    fallback_body content
      = Val (make_draft (PyStr title) (PyStr company)
                        (PyStr (heuristic_description content)) other_info) /\
    0 < len title /\ 0 < len company.
Proof.
  unfold fallback_body.
  destruct (first_group_total IM 5 200 title_patterns content eq_refl)
    as (t & -> & Ht).
  destruct (first_group_total I_ 1 100 company_patterns content eq_refl)
    as (c & -> & Hc).
  destruct (first_match_total I_ salary_patterns content eq_refl) as (s & ->).
  destruct (first_group_total I_ 2 100 location_patterns content eq_refl)
    as (l & -> & _).
  destruct (re_search_compiles job_type_pattern content I_ eq_refl) as (m & ->).
  cbn [rbind].
  assert (Htitle : 0 < len (match t with Some s0 => s0 | None => "Unknown Title" end)).
  { destruct t as [s0|]; [destruct (Ht s0 eq_refl); lia | vm_compute; lia]. }
  assert (Hcompany : 0 < len (match c with Some s0 => s0 | None => "Unknown Company" end)).
  { destruct c as [s0|]; [destruct (Hc s0 eq_refl); lia | vm_compute; lia]. }
  destruct m as [mo|]; [destruct (Re.group1 mo)|]; cbn [rbind];
    do 3 eexists; (split; [reflexivity|]); auto.
Qed.

(** [fallback_extraction] never takes its [except] branch: it returns the
    draft of the [try] block and prints nothing. *)
Lemma fallback_extraction_spec (content source : string) :
  exists title company other_info,
    (forall st,
        fallback_extraction content source st
        = (Val (make_draft (PyStr title) (PyStr company)
                           (PyStr (heuristic_description content)) other_info), st)) /\
    0 < len title /\ 0 < len company.
Proof.
  destruct (fallback_body_total content) as (t & c & oi & Hbody & Ht & Hc).
  exists t, c, oi. unfold fallback_extraction. rewrite Hbody. auto.
Qed.

Lemma truncate_short (content : string) : len content <= 8000 -> truncate content = content.
Proof.
  intros H. unfold truncate. apply Nat.ltb_ge in H. rewrite H. reflexivity.
Qed.

(** *** The response parser *)

Lemma format_data_shape (job_data d : pyval) :
  format_data job_data = Val d ->
  exists title company description other_info,
    d = make_draft title company description other_info /\
    exists n, py_len description = Some n /\ n <= 500.
Proof.
  unfold format_data. intros H.
  destruct (py_get job_data "title" (PyStr "Unknown Title")) as [t|]; [|discriminate].
  destruct (py_get job_data "company" (PyStr "Unknown Company")) as [c|]; [|discriminate].
  destruct (py_get job_data "description" (PyStr "No description found")) as [x|];
    [|discriminate].
  cbn [rbind] in H.
  destruct (py_slice_to 500 x) as [desc|] eqn:Eslice; [|discriminate].
  destruct (copy_optional optional_fields job_data []) as [oi|]; [|discriminate].
  cbn [rbind] in H. inversion H; subst d.
  exists t, c, desc, oi. split; [reflexivity|].
  destruct x as [| | | |s|l|]; cbn [py_slice_to] in Eslice; try discriminate.
  - replace desc with (PyStr (take 500 s)) by congruence.
    eexists. split; [reflexivity | apply len_take_le].
  - replace desc with (PyList (firstn 500 l)) by congruence.
    eexists. split; [reflexivity|]. rewrite length_firstn. lia.
Qed.

Lemma parse_body_shape (W : world) (response_text : string) (d : pyval) :
  parse_body W response_text = Val (Some d) ->
  exists job_data, format_data job_data = Val d.
Proof.
  unfold parse_body.
  destruct (_ && _); [|discriminate].
  destruct (json_loads W _) as [job_data|]; [|discriminate]. cbn [rbind].
  destruct (format_data job_data) as [x|] eqn:E; [|discriminate]. cbn [rbind].
  intros H. inversion H; subst x. eauto.
Qed.

(** *** The description of a draft *)

Lemma format_data_sliced (job_data d : pyval) :
  format_data job_data = Val d -> description_sliced d.
Proof.
  unfold format_data. intros H.
  destruct (py_get job_data "title" (PyStr "Unknown Title")) as [t|]; [|discriminate].
  destruct (py_get job_data "company" (PyStr "Unknown Company")) as [c|]; [|discriminate].
  destruct (py_get job_data "description" (PyStr "No description found")) as [x|];
    [|discriminate].
  cbn [rbind] in H.
  destruct (py_slice_to 500 x) as [desc|] eqn:Eslice; [|discriminate].
  destruct (copy_optional optional_fields job_data []) as [oi|]; [|discriminate].
  cbn [rbind] in H. inversion H; subst d.
  destruct x as [|b|z|q|s|l|dd]; cbn [py_slice_to] in Eslice; try discriminate.
  - replace desc with (PyStr (take 500 s)) by congruence.
    left. exists (take 500 s). split; [reflexivity | apply len_take_le].
  - replace desc with (PyList (firstn 500 l)) by congruence.
    right. exists (firstn 500 l). split; [reflexivity|].
    rewrite length_firstn. lia.
Qed.

(** C1, as the code has it.  On the heuristic path the description is a
    string: the input itself when it has at most 500 characters, its first
    500 characters followed by "..." when it is longer (503 characters),
    and the sentinel when that text is blank; so it never exceeds 503
    characters.  On the LLM parse path, which never raises, the description
    of a draft is the slice [[:500]] of what the model gave: a string of at
    most 500 characters, or a list of at most 500 elements, whose elements
    are not looked at. *)
Theorem description_length_bound (W : world) (content source response_text : string)
        (st : tracker) :
  (exists d st',
      fallback_extraction content source st = (Val d, st') /\
      py_item d "description" = Val (PyStr (heuristic_description content)) /\
      len (heuristic_description content) <= 503 /\
      description_bounded 503 d) /\
  match parse_ollama_response W response_text st with
  | (Val (Some d), _) => description_bounded 500 d /\ description_sliced d
  | (Val None, _) => True
  | (Exn _, _) => False
  end.
Proof.
  split.
  - destruct (fallback_extraction_spec content source) as (t & c & oi & Hrun & _).
    pose proof (heuristic_description_length content) as Hlen.
    do 2 eexists. split; [apply Hrun|]. split; [reflexivity|]. split; [exact Hlen|].
    exists (PyStr (heuristic_description content)), (len (heuristic_description content)).
    repeat split; auto.
  - unfold parse_ollama_response.
    destruct (parse_body W response_text) as [[d|]|e] eqn:E; run; auto.
    + destruct (parse_body_shape _ _ _ E) as (job_data & Hfmt).
      split; [|exact (format_data_sliced _ _ Hfmt)].
      destruct (format_data_shape _ _ Hfmt) as (t & c & desc & oi & -> & n & Hn & Hle).
      exists desc, n. repeat split; auto.
    + destruct (exn_cls e); run; exact I.
Qed.

(** C1 as stated fails: an input of 501 characters gives a description of
    503 characters on the heuristic path. *)
Lemma description_exceeds_500 :
  exists d,
    fallback_extraction (replicate 501 "-") "Direct Input" (init None)
      = (Val d, init None) /\
    py_item d "description" = Val (PyStr (replicate 500 "-" ++ "...")) /\
    len (replicate 500 "-" ++ "...") = 503 /\
    ~ description_bounded 500 d.
Proof.
  eexists. split; [vm_compute; reflexivity|].
  split; [vm_compute; reflexivity|].
  split; [vm_compute; reflexivity|].
  intros (desc & n & Hd & Hn & Hle).
  vm_compute in Hd. inversion Hd; subst desc.
  vm_compute in Hn. inversion Hn; subst n.
  apply Nat.leb_le in Hle. vm_compute in Hle. discriminate.
Qed.

(** On the LLM parse path the bound counts what [[:500]] counts: a model
    that gives its description as a list of one string of 1000 characters
    gets a draft with that list, of [len] 1, as its description. *)
Example list_description_holds_1000_characters :
  exists d,
    parse_ollama_response list_answer_world list_description_json (init None)
      = (Val (Some d), init None) /\
    py_item d "description" = Val (PyList [PyStr (replicate 1000 "-")]) /\
    description_bounded 500 d /\
    len (replicate 1000 "-") = 1000.
Proof.
  eexists. split; [vm_compute; reflexivity|].
  split; [vm_compute; reflexivity|].
  split; [|vm_compute; reflexivity].
  eexists. exists 1. split; [vm_compute; reflexivity|].
  split; [reflexivity | lia].
Qed.

(** *** The orchestrator *)

Lemma yields_shape (W : world) (n : nat) (model prompt : string) (d : pyval) :
  yields W n model prompt = Some d ->
  exists job_data, format_data job_data = Val d.
Proof.
  unfold yields.
  destruct (requests_post W n model prompt) as [resp|]; [|discriminate].
  destruct (status_code resp =? 200)%Z; [|discriminate].
  destruct (json resp) as [result|]; [|discriminate]. cbn [rbind].
  destruct (py_get result "response" (PyStr "")) as [r|]; [|discriminate]. cbn [rbind].
  destruct (py_strip r) as [response_text|]; [|discriminate]. cbn [rbind].
  destruct (parse_body W response_text) as [[x|]|] eqn:E; try discriminate.
  destruct (truthy x); [|discriminate].
  intros H. inversion H; subst x. eapply parse_body_shape; eauto.
Qed.

Lemma first_success_shape (W : world) (ms : list string) (prompt : string) :
  forall n d,
    fst (first_success W n ms prompt) = Some d ->
    exists job_data, format_data job_data = Val d.
Proof.
  induction ms as [|m ms IH]; intros n d; cbn [first_success]; [discriminate|].
  destruct (yields W n m prompt) as [x|] eqn:E.
  - cbn [fst]. intros H. inversion H; subst x. eapply yields_shape; eauto.
  - specialize (IH (S n) d). destruct (first_success W (S n) ms prompt). exact IH.
Qed.

(** The record that the orchestrator builds from a draft: the four fields
    of the draft followed by its provenance. *)
Lemma update_draft (W : world) (title company description : pyval) (other_info : dict)
      (source_type source : string) :
  py_update (make_draft title company description other_info)
            (provenance W source_type source)
  = Val (PyDict ([ ("title", title); ("company", company);
                   ("description", description);
                   ("other_info", PyDict other_info) ]
                 ++ provenance W source_type source)).
Proof. reflexivity. Qed.

(** The orchestrator never raises and always returns a record: the draft of
    the LLM client when a call of the schedule yields one, the draft of the
    heuristic extractor on the truncated content otherwise. *)
Lemma extract_job_info_total (W : world) (content source_type source : string)
      (st : tracker) :
  exists title company description other_info st' evs,
    extract_job_info_from_content W content source_type source st
      = (Val (Some (PyDict ([ ("title", title); ("company", company);
                              ("description", description);
                              ("other_info", PyDict other_info) ]
                            ++ provenance W source_type source))), st') /\
    logs st st' evs /\
    (exists n, py_len description = Some n /\ n <= 503) /\
    match fst (first_success W (List.length (posts (events st))) schedule
                             (make_prompt (truncate content))) with
    | Some d => d = make_draft title company description other_info
    | None =>
        posts evs = schedule /\
        forall st0,
          fallback_extraction (truncate content) source st0
          = (Val (make_draft title company description other_info), st0)
    end.
Proof.
  unfold extract_job_info_from_content, extract_with_ollama.
  fold (truncate content). run.
  destruct (try_ollama_extraction_spec W (truncate content) st)
    as (st1 & e1 & Hrun & Hlog & Hposts).
  rewrite Hrun.
  pose proof (first_success_shape W schedule (make_prompt (truncate content))
                                  (List.length (posts (events st)))) as Hshape.
  pose proof (first_success_none W (List.length (posts (events st))) schedule
                                 (make_prompt (truncate content))) as Hnone.
  destruct (fst (first_success W (List.length (posts (events st))) schedule
                               (make_prompt (truncate content)))) as [d|].
  - destruct (Hshape d eq_refl) as (job_data & Hfmt).
    destruct (format_data_shape _ _ Hfmt) as (t & c & desc & oi & -> & n & Hn & Hle).
    cbn [truthy make_draft]. run. rewrite update_draft. unfold logs in Hlog. subst st1.
    exists t, c, desc, oi. do 2 eexists.
    split; [reflexivity|]. split; [solve_logs|].
    split; [exists n; split; [exact Hn | lia] | reflexivity].
  - destruct (fallback_extraction_spec (truncate content) source)
      as (t & c & oi & Hfb & _).
    run. rewrite Hfb. cbn [truthy make_draft]. run. rewrite update_draft. unfold logs in Hlog. subst st1.
    exists (PyStr t), (PyStr c), (PyStr (heuristic_description (truncate content))), oi.
    do 2 eexists.
    split; [reflexivity|]. split; [solve_logs|].
    split.
    { eexists. split; [reflexivity | apply heuristic_description_length]. }
    split; [|exact Hfb].
    rewrite posts_app, Hposts, (Hnone eq_refl). reflexivity.
Qed.

Lemma unreachable_first_success (W : world) (n : nat) (ms : list string)
      (prompt : string) :
  unreachable W -> first_success W n ms prompt = (None, ms).
Proof.
  intros H. apply first_success_all_fail. intros i _.
  apply unreachable_yields. exact H.
Qed.

(** With the inference service unreachable, the orchestrator calls every
    model of both attempts and then returns the draft of the heuristic
    extractor on the truncated content, followed by the provenance. *)
Lemma orchestrator_unreachable (W : world) (content source_type source : string)
      (st : tracker) :
  unreachable W ->
  exists fields st' evs,
    (forall st0,
        fallback_extraction (truncate content) source st0 = (Val (PyDict fields), st0)) /\
    extract_job_info_from_content W content source_type source st
      = (Val (Some (PyDict (fields ++ provenance W source_type source))), st') /\
    logs st st' evs /\
    posts evs = schedule.
Proof.
  intros Hdown.
  destruct (extract_job_info_total W content source_type source st)
    as (t & c & desc & oi & st' & evs & Hrun & Hlog & _ & Hpath).
  rewrite (unreachable_first_success W _ _ _ Hdown) in Hpath. cbn [fst] in Hpath.
  destruct Hpath as (Hposts & Hfb).
  eexists. exists st', evs.
  split; [exact Hfb|]. split; [exact Hrun|]. split; assumption.
Qed.

(** C5, as the code has it.  With the inference service unreachable, the
    orchestrator calls every model of both attempts and then returns the
    draft of the heuristic extractor on the content cut to its first 8000
    characters (the content itself when it is no longer than that),
    followed by the provenance fields. *)
Theorem orchestrator_falls_back (W : world) (content source_type source : string)
        (st : tracker) :
  unreachable W ->
  exists fields st' evs,
    (forall st0,
        fallback_extraction (truncate content) source st0 = (Val (PyDict fields), st0)) /\
    extract_job_info_from_content W content source_type source st
      = (Val (Some (PyDict (fields ++ provenance W source_type source))), st') /\
    logs st st' evs /\
    posts evs = schedule /\
    (len content <= 8000 -> truncate content = content).
Proof.
  intros Hdown.
  destruct (orchestrator_unreachable W content source_type source st Hdown)
    as (fields & st' & evs & Hfb & Hrun & Hlog & Hposts).
  exists fields, st', evs. repeat split; auto. apply truncate_short.
Qed.

Lemma offline_unreachable : unreachable offline.
Proof. intros n model prompt. exact I. Qed.

Lemma orchestrator_falls_back_witness :
  unreachable offline /\
  exists fields st' evs,
    (forall st0,
        fallback_extraction (truncate example1) "Direct Input" st0
        = (Val (PyDict fields), st0)) /\
    extract_job_info_from_content offline example1 "text" "Direct Input" (init None)
      = (Val (Some (PyDict (fields ++ provenance offline "text" "Direct Input"))), st') /\
    logs (init None) st' evs /\
    posts evs = schedule /\
    (len example1 <= 8000 -> truncate example1 = example1).
Proof.
  split; [exact offline_unreachable|].
  apply (orchestrator_falls_back offline example1 "text" "Direct Input" (init None)).
  exact offline_unreachable.
Defined.

(** C5 as stated fails on a long input: the job type of [long_posting]
    lies beyond its 8000th character, so the heuristic extractor finds it
    on the input text while the orchestrator, service unreachable, does
    not. *)
Lemma orchestrator_differs_on_long_input :
  exists draft record st',
    fallback_extraction long_posting "job.txt" (init None) = (Val draft, init None) /\
    extract_job_info_from_content offline long_posting "text_file" "job.txt" (init None)
      = (Val (Some record), st') /\
    py_item draft "other_info" = Val (PyDict [("job_type", PyStr "Contract")]) /\
    py_item record "other_info" = Val (PyDict []).
Proof.
  do 3 eexists.
  split; [vm_compute; reflexivity|].
  split; [vm_compute; reflexivity|].
  split; reflexivity.
Qed.

(** *** Example 1 *)

(** C3, as the code has it.  On the input of Example 1, with the inference
    service unreachable, the record has title "Backend Engineer", company
    "Acme Corp" and the optional fields salary "$120,000 - $150,000 per
    year", location "Austin, TX" and job type "Full-time". *)
Theorem example1_extraction (W : world) (st : tracker) :
  unreachable W ->
  exists record st',
    extract_job_info_from_content W example1 "text" "Direct Input" st
      = (Val (Some record), st') /\
    py_item record "title" = Val (PyStr "Backend Engineer") /\
    py_item record "company" = Val (PyStr "Acme Corp") /\
    py_item record "other_info"
      = Val (PyDict [ ("salary", PyStr "$120,000 - $150,000 per year");
                      ("location", PyStr "Austin, TX");
                      ("job_type", PyStr "Full-time") ]).
Proof.
  intros Hdown.
  destruct (orchestrator_unreachable W example1 "text" "Direct Input" st Hdown)
    as (fields & st' & evs & Hfb & Hrun & _ & _).
  specialize (Hfb (init None)).
  assert (Hfields :
            fields = [ ("title", PyStr "Backend Engineer");
                       ("company", PyStr "Acme Corp");
                       ("description", PyStr example1);
                       ("other_info",
                        PyDict [ ("salary", PyStr "$120,000 - $150,000 per year");
                                 ("location", PyStr "Austin, TX");
                                 ("job_type", PyStr "Full-time") ]) ]).
  { vm_compute in Hfb. inversion Hfb. reflexivity. }
  subst fields. exists (PyDict
    ([ ("title", PyStr "Backend Engineer"); ("company", PyStr "Acme Corp");
       ("description", PyStr example1);
       ("other_info",
        PyDict [ ("salary", PyStr "$120,000 - $150,000 per year");
                 ("location", PyStr "Austin, TX");
                 ("job_type", PyStr "Full-time") ]) ]
     ++ provenance W "text" "Direct Input")), st'.
  split; [exact Hrun|]. repeat split; reflexivity.
Qed.

Lemma example1_extraction_witness :
  unreachable offline /\
  exists record st',
    extract_job_info_from_content offline example1 "text" "Direct Input" (init None)
      = (Val (Some record), st') /\
    py_item record "title" = Val (PyStr "Backend Engineer") /\
    py_item record "company" = Val (PyStr "Acme Corp") /\
    py_item record "other_info"
      = Val (PyDict [ ("salary", PyStr "$120,000 - $150,000 per year");
                      ("location", PyStr "Austin, TX");
                      ("job_type", PyStr "Full-time") ]).
Proof.
  split; [exact offline_unreachable|].
  apply (example1_extraction offline (init None)). exact offline_unreachable.
Defined.

(** C3 as stated fails: the salary of the record is not "$120,000 -
    $150,000"; the pattern also takes the " per year" that follows. *)
Lemma example1_salary_differs :
  exists record st' other_info,
    add_job_from_text offline example1 (init None) = (Val true, st') /\
    jobs st' = [record] /\
    py_item record "other_info" = Val (PyDict other_info) /\
    dict_lookup "salary" other_info = Some (PyStr "$120,000 - $150,000 per year") /\
    dict_lookup "salary" other_info <> Some (PyStr "$120,000 - $150,000").
Proof.
  do 3 eexists.
  split; [vm_compute; reflexivity|].
  split; [reflexivity|].
  split; [reflexivity|].
  split; [reflexivity | discriminate].
Qed.

(** *** Title and company *)

(** The heuristic extractor always returns a title and a company that are
    not empty. *)
Lemma heuristic_title_company_nonempty (content source : string) (st : tracker) :
  exists title company description other_info,
    fallback_extraction content source st
      = (Val (make_draft (PyStr title) (PyStr company) description other_info), st) /\
    title <> "" /\ company <> "".
Proof.
  destruct (fallback_extraction_spec content source) as (t & c & oi & Hrun & Ht & Hc).
  exists t, c. do 2 eexists. split; [apply Hrun|].
  split; intros ->; cbn in *; lia.
Qed.

(** C4 fails on the LLM parse path: a title that the model gives as the
    empty string is present in the object, so the sentinel of [get] does
    not apply and the draft carries the empty title. *)
Theorem empty_title_passes_through (W : world) (st : tracker) :
  json_loads W empty_title_json = Val empty_title_data ->
  exists d,
    parse_ollama_response W empty_title_json st = (Val (Some d), st) /\
    py_item d "title" = Val (PyStr "") /\
    d = make_draft (PyStr "") (PyStr "Acme Corp") (PyStr "No description found") [].
Proof.
  intros Hloads. eexists.
  unfold parse_ollama_response, parse_body.
  change (slice _ _ empty_title_json) with empty_title_json.
  change (_ && _) with true. cbv iota. rewrite Hloads.
  split; [reflexivity|]. split; reflexivity.
Qed.

Lemma empty_title_passes_through_witness :
  json_loads empty_title_world empty_title_json = Val empty_title_data /\
  exists d,
    parse_ollama_response empty_title_world empty_title_json (init None)
      = (Val (Some d), init None) /\
    py_item d "title" = Val (PyStr "") /\
    d = make_draft (PyStr "") (PyStr "Acme Corp") (PyStr "No description found") [].
Proof.
  split; [reflexivity|].
  apply (empty_title_passes_through empty_title_world (init None)).
  reflexivity.
Defined.

(** With such an answer from the first model, a literal submission is
    accepted and the stored record has the empty title. *)
Lemma empty_title_is_stored :
  exists st' record,
    add_job_from_text empty_title_world example1 (init None) = (Val true, st') /\
    jobs st' = [record] /\
    py_item record "title" = Val (PyStr "") /\
    posts (events st') = ["phi3:mini"].
Proof.
  do 2 eexists. split; [vm_compute; reflexivity|].
  split; [reflexivity|]. split; reflexivity.
Qed.

(** A title that the model gives as [null] is stored as well, and from
    then on the duplicate scan of every later submission raises on it. *)
Lemma null_title_breaks_later_submissions :
  exists st1 record e st2,
    add_job_from_text null_title_world example1 (init None) = (Val true, st1) /\
    jobs st1 = [record] /\
    py_item record "title" = Val PyNone /\
    add_job_from_text offline example3 st1 = (Exn e, st2) /\
    exn_cls e = AttributeError /\
    jobs st2 = [record].
Proof.
  do 4 eexists. split; [vm_compute; reflexivity|].
  split; [reflexivity|]. split; [reflexivity|].
  split; [vm_compute; reflexivity|].
  split; reflexivity.
Qed.

(** *** Acquisition from a URL *)

(** C6, as the code has it.  When the GET raises (network error, timeout),
    [add_job_from_url] prints the error and returns [False]: no call to the
    inference service, no draft, the store and the file untouched.  The
    status of a response is not looked at: two responses with the same body
    give the same content, whatever their status. *)
Theorem url_fetch_error_aborts (W : world) (url : string) (st : tracker) :
  (forall e,
      requests_get W url = Exn e ->
      exists st',
        add_job_from_url W url st = (Val false, st') /\
        logs st st' [ Print "Processing URL..."; HttpGet url;
                      Print ("Error extracting from URL: " ++ exn_msg e) ] /\
        jobs st' = jobs st /\
        jobs_file st' = jobs_file st /\
        posts (events st') = posts (events st)) /\
  (forall W' r r',
      requests_get W url = Val r -> requests_get W' url = Val r' ->
      text r = text r' ->
      extract_from_url W url st = extract_from_url W' url st).
Proof.
  split.
  - intros e Hget. unfold add_job_from_url, extract_from_url. run. rewrite Hget.
    eexists. split; [reflexivity|].
    split; [solve_logs|]. cbn [jobs jobs_file events].
    repeat split. rewrite !posts_app. cbn. rewrite !app_nil_r. reflexivity.
  - intros W' r r' Hr Hr' Htext. unfold extract_from_url. run.
    rewrite Hr, Hr', Htext. reflexivity.
Qed.

Lemma url_fetch_error_aborts_witness :
  requests_get offline job_url = refused /\
  exists st',
    add_job_from_url offline job_url (init None) = (Val false, st') /\
    logs (init None) st'
         [ Print "Processing URL..."; HttpGet job_url;
           Print "Error extracting from URL: Connection refused" ] /\
    jobs st' = [] /\
    jobs_file st' = None /\
    posts (events st') = [].
Proof.
  split; [reflexivity|].
  apply (proj1 (url_fetch_error_aborts offline job_url (init None))
               (mkExn ConnectionError "Connection refused")).
  reflexivity.
Defined.

(** C6 as stated fails for a non-success status: the body of a 404
    response is cleaned, extracted and stored like any page. *)
Lemma not_found_page_is_stored :
  exists st' record,
    requests_get not_found job_url = Val (mkResponse 404 not_found_page not_json) /\
    add_job_from_url not_found job_url (init None) = (Val true, st') /\
    jobs st' = [record] /\
    py_item record "description"
      = Val (PyStr "404 404 Not Found The page you requested does not exist.") /\
    py_item record "source_type" = Val (PyStr "url").
Proof.
  do 2 eexists. split; [reflexivity|].
  split; [vm_compute; reflexivity|].
  split; [reflexivity|]. split; reflexivity.
Qed.

(** *** What a run prints *)

Section Quiet.

Variable W : world.

Lemma quiet_ret {A} (a : A) : never_too_short (ret a).
Proof. intros st. exists []. rewrite app_nil_r. split; [reflexivity | intros []]. Qed.

Lemma quiet_lift {A} (r : result A) : never_too_short (lift r).
Proof. intros st. exists []. rewrite app_nil_r. split; [reflexivity | intros []]. Qed.

Lemma quiet_bind {A B} (m : M A) (f : A -> M B) :
  never_too_short m -> (forall a, never_too_short (f a)) ->
  never_too_short (bind m f).
Proof.
  intros Hm Hf st. unfold bind. destruct (Hm st) as (e1 & He1 & Hq1).
  destruct (m st) as [[a|e] st1]; cbn [snd] in *.
  - destruct (Hf a st1) as (e2 & He2 & Hq2).
    exists (e1 ++ e2)%list. rewrite He2, He1, app_assoc. split; [reflexivity|].
    intros Hin. apply in_app_or in Hin. tauto.
  - exists e1. auto.
Qed.

Lemma quiet_try_except {A} (m : M A) (h : exn -> M A) :
  never_too_short m -> (forall e, never_too_short (h e)) ->
  never_too_short (try_except m h).
Proof.
  intros Hm Hh st. unfold try_except. destruct (Hm st) as (e1 & He1 & Hq1).
  destruct (m st) as [[a|e] st1]; cbn [snd] in *.
  - exists e1. auto.
  - destruct (Hh e st1) as (e2 & He2 & Hq2).
    exists (e1 ++ e2)%list. rewrite He2, He1, app_assoc. split; [reflexivity|].
    intros Hin. apply in_app_or in Hin. tauto.
Qed.

Lemma quiet_emit (e : event) : e <> Print too_short -> never_too_short (emit e).
Proof.
  intros Hne st. exists [e]. split; [reflexivity|].
  intros [H|[]]. auto.
Qed.

Lemma quiet_print (msg : string) : msg <> too_short -> never_too_short (print msg).
Proof. intros Hne. apply quiet_emit. congruence. Qed.

Lemma quiet_store {A} (m : M A) :
  (forall st, events (snd (m st)) = events st) -> never_too_short m.
Proof.
  intros H st. exists []. rewrite app_nil_r, H. split; [reflexivity | intros []].
Qed.

Lemma quiet_post (model prompt : string) : never_too_short (post_generate W model prompt).
Proof.
  intros st. exists [HttpPost model prompt]. split; [reflexivity|].
  intros [H|[]]. discriminate.
Qed.

End Quiet.

(** Decomposes a run into its steps; the messages that remain to be told
    apart from [too_short] differ from it within their first two characters. *)
Ltac quiet :=
  repeat match goal with
    | |- never_too_short (ret _) => apply quiet_ret
    | |- never_too_short (lift _) => apply quiet_lift
    | |- never_too_short (post_generate _ _ _) => apply quiet_post
    | |- never_too_short (print _) =>
        apply quiet_print; unfold too_short; cbn [String.append];
        let H := fresh in intros H; discriminate H
    | |- never_too_short (emit _) => apply quiet_emit; discriminate
    | |- never_too_short get_jobs => apply quiet_store; reflexivity
    | |- never_too_short save_jobs => apply quiet_store; reflexivity
    | |- never_too_short (append_job _) => apply quiet_store; reflexivity
    | |- never_too_short (bind _ _) => apply quiet_bind; [|intros ?]
    | |- never_too_short (try_except _ _) => apply quiet_try_except; [|intros ?]
    | |- never_too_short (match ?x with _ => _ end) => destruct x
    end.

Section QuietPipeline.

Variable W : world.

Lemma quiet_parse (response_text : string) :
  never_too_short (parse_ollama_response W response_text).
Proof. unfold parse_ollama_response. quiet. Qed.

Lemma quiet_try_model (model prompt : string) :
  never_too_short (try_model W model prompt).
Proof. unfold try_model. quiet. apply quiet_parse. Qed.

Lemma quiet_model_failed (model : string) (e : exn) :
  never_too_short (model_failed model e).
Proof. unfold model_failed. quiet. Qed.

Lemma quiet_model_loop (ms : list string) (prompt : string) :
  never_too_short (model_loop W ms prompt).
Proof.
  induction ms as [|m ms IH]; cbn [model_loop]; quiet;
    auto using quiet_try_model, quiet_model_failed.
Qed.

Lemma quiet_attempt_body (attempt : nat) (content : string) :
  never_too_short (attempt_body W attempt content).
Proof. unfold attempt_body. quiet. apply quiet_model_loop. Qed.

Lemma quiet_try_ollama (content : string) :
  never_too_short (try_ollama_extraction W content).
Proof.
  unfold try_ollama_extraction. generalize (seq 0 max_retries) as attempts.
  induction attempts as [|a l IH]; cbn [attempt_loop]; quiet;
    auto using quiet_attempt_body.
Qed.

Lemma quiet_fallback (content source : string) :
  never_too_short (fallback_extraction content source).
Proof. unfold fallback_extraction. quiet. Qed.

Lemma quiet_extract_job_info (content source_type source : string) :
  never_too_short (extract_job_info_from_content W content source_type source).
Proof.
  unfold extract_job_info_from_content, extract_with_ollama.
  quiet; auto using quiet_try_ollama, quiet_fallback.
Qed.

Lemma quiet_save_job_info (job_info : option pyval) :
  never_too_short (save_job_info W job_info).
Proof. unfold save_job_info. quiet. Qed.

Lemma quiet_extract_from_url (url : string) : never_too_short (extract_from_url W url).
Proof. unfold extract_from_url. quiet. Qed.

Lemma quiet_extract_from_pdf (pdf_path : string) :
  never_too_short (extract_from_pdf W pdf_path).
Proof. unfold extract_from_pdf. quiet. Qed.

Lemma quiet_add_job_from_url (url : string) : never_too_short (add_job_from_url W url).
Proof.
  unfold add_job_from_url.
  quiet; auto using quiet_extract_from_url, quiet_extract_job_info, quiet_save_job_info.
Qed.

Lemma quiet_add_job_from_pdf (pdf_path : string) :
  never_too_short (add_job_from_pdf W pdf_path).
Proof.
  unfold add_job_from_pdf.
  quiet; auto using quiet_extract_from_pdf, quiet_extract_job_info, quiet_save_job_info.
Qed.

Lemma quiet_add_job_from_text_file (text_path : string) :
  never_too_short (add_job_from_text_file W text_path).
Proof.
  unfold add_job_from_text_file.
  quiet; auto using quiet_extract_job_info, quiet_save_job_info.
Qed.

End QuietPipeline.

(** *** Routing and the paths without a length check *)

Lemma extract_job_info_returns (W : world) (content source_type source : string)
      (st : tracker) :
  exists record st' evs,
    extract_job_info_from_content W content source_type source st
      = (Val (Some record), st') /\
    logs st st' evs /\
    has_item record "title" /\ has_item record "company".
Proof.
  destruct (extract_job_info_total W content source_type source st)
    as (t & c & d & oi & st' & evs & Hrun & Hlog & _).
  do 3 eexists. split; [exact Hrun|]. split; [exact Hlog|].
  split; eexists; reflexivity.
Qed.

Lemma extract_from_url_total (W : world) (url : string) (st : tracker) :
  exists content st' evs,
    extract_from_url W url st = (Val content, st') /\ logs st st' evs.
Proof.
  unfold extract_from_url. run.
  destruct (requests_get W url) as [resp|e]; run.
  - destruct (re_sub "<script[^>]*>.*?</script>" "" (text resp) SI) as [h1|e]; run.
    + destruct (re_sub "<style[^>]*>.*?</style>" "" h1 SI) as [h2|e]; run.
      * destruct (re_sub "<[^>]+>" " " h2 Re.no_flags) as [t1|e]; run.
        -- destruct (re_sub "\s+" " " t1 Re.no_flags) as [t2|e]; run;
             do 3 eexists; (split; [reflexivity | solve_logs]).
        -- do 3 eexists; (split; [reflexivity | solve_logs]).
      * do 3 eexists; (split; [reflexivity | solve_logs]).
    + do 3 eexists; (split; [reflexivity | solve_logs]).
  - do 3 eexists; (split; [reflexivity | solve_logs]).
Qed.

Lemma extract_from_pdf_total (W : world) (pdf_path : string) (st : tracker) :
  exists content st' evs,
    extract_from_pdf W pdf_path st = (Val content, st') /\ logs st st' evs.
Proof.
  unfold extract_from_pdf.
  destruct (pypdf2_installed W).
  - destruct (pdf_pages W pdf_path) as [pages|e]; run.
    + exists (Some (pdf_text pages)), st, []. split; [reflexivity | apply logs_refl].
    + do 3 eexists; (split; [reflexivity | solve_logs]).
  - destruct (rbind (pip_install W) (fun _ => pdf_pages W pdf_path)) as [pages|e]; run;
      do 3 eexists; (split; [reflexivity | solve_logs]).
Qed.

(** C10, as the code has it.  An input that begins with "http" goes to
    [add_job_from_url] whatever its length.  On the URL and PDF paths the
    only test on the acquired content is that it is not empty: empty
    content is turned down with [False] before the extractor is called,
    and content that is not empty, however short, goes to
    [extract_job_info_from_content], which always returns a record, and
    that record goes to [save_job_info].  On the text-file path there is no
    test at all.  None of the three paths ever prints the message of the
    minimum-content check. *)
Theorem length_check_only_on_literal_text (W : world) (st : tracker) :
  (forall input,
      startswith "http" input = true ->
      add_job_from_input W input st = add_job_from_url W (strip input) st) /\
  (forall url,
      never_too_short (add_job_from_url W url) /\
      match extract_from_url W url (after st (Print "Processing URL...")) with
      | (Val (Some c), st1) =>
          if String.eqb c "" then add_job_from_url W url st = (Val false, st1)
          else
            exists record st2,
              extract_job_info_from_content W c "url" url st1
                = (Val (Some record), st2) /\
              add_job_from_url W url st = save_job_info W (Some record) st2
      | (Val None, st1) => add_job_from_url W url st = (Val false, st1)
      | (Exn _, _) => False
      end) /\
  (forall pdf_path,
      never_too_short (add_job_from_pdf W pdf_path) /\
      match extract_from_pdf W pdf_path (after st (Print "Processing PDF...")) with
      | (Val (Some c), st1) =>
          if String.eqb c "" then add_job_from_pdf W pdf_path st = (Val false, st1)
          else
            exists record st2,
              extract_job_info_from_content W c "pdf" pdf_path st1
                = (Val (Some record), st2) /\
              add_job_from_pdf W pdf_path st = save_job_info W (Some record) st2
      | (Val None, st1) => add_job_from_pdf W pdf_path st = (Val false, st1)
      | (Exn _, _) => False
      end) /\
  (forall text_path,
      never_too_short (add_job_from_text_file W text_path) /\
      match read_text_file W text_path with
      | Val c =>
          exists record st2,
            extract_job_info_from_content
              W c "text_file" text_path (after st (Print "Processing text file..."))
              = (Val (Some record), st2) /\
            add_job_from_text_file W text_path st
              = try_except (save_job_info W (Some record)) text_file_error st2
      | Exn e =>
          add_job_from_text_file W text_path st
            = text_file_error e (after st (Print "Processing text file..."))
      end).
Proof.
  split; [|split; [|split]].
  - intros input Hhttp. unfold add_job_from_input.
    rewrite (startswith_http_strip _ Hhttp). reflexivity.
  - intros url. split; [apply quiet_add_job_from_url|].
    unfold add_job_from_url. run. fold (after st (Print "Processing URL...")).
    destruct (extract_from_url_total W url (after st (Print "Processing URL...")))
      as (content & st1 & evs & Hrun & _).
    rewrite Hrun. destruct content as [c|]; [|reflexivity].
    destruct (String.eqb c ""); cbn [negb]; [reflexivity|].
    destruct (extract_job_info_returns W c "url" url st1)
      as (record & st2 & e2 & Hx & _).
    exists record, st2. rewrite Hx. auto.
  - intros pdf_path. split; [apply quiet_add_job_from_pdf|].
    unfold add_job_from_pdf. run. fold (after st (Print "Processing PDF...")).
    destruct (extract_from_pdf_total W pdf_path (after st (Print "Processing PDF...")))
      as (content & st1 & evs & Hrun & _).
    rewrite Hrun. destruct content as [c|]; [|reflexivity].
    destruct (String.eqb c ""); cbn [negb]; [reflexivity|].
    destruct (extract_job_info_returns W c "pdf" pdf_path st1)
      as (record & st2 & e2 & Hx & _).
    exists record, st2. rewrite Hx. auto.
  - intros text_path. split; [apply quiet_add_job_from_text_file|].
    unfold add_job_from_text_file, text_file_error. run.
    fold (after st (Print "Processing text file...")).
    destruct (read_text_file W text_path) as [c|e]; [|reflexivity].
    destruct (extract_job_info_returns
                W c "text_file" text_path (after st (Print "Processing text file...")))
      as (record & st2 & e2 & Hx & _).
    exists record, st2. rewrite Hx. auto.
Qed.

Lemma length_check_only_on_literal_text_witness :
  startswith "http" job_url = true /\
  add_job_from_input short_page job_url (init None)
    = add_job_from_url short_page (strip job_url) (init None).
Proof.
  split; [reflexivity|].
  apply (proj1 (length_check_only_on_literal_text short_page (init None))).
  reflexivity.
Defined.

(** A page whose text has 30 characters is extracted and stored. *)
Lemma short_page_is_stored :
  exists content st1 st' record,
    extract_from_url short_page job_url (after (init None) (Print "Processing URL..."))
      = (Val (Some content), st1) /\
    len content = 30 /\
    add_job_from_input short_page job_url (init None) = (Val true, st') /\
    jobs st' = [record] /\
    py_item record "description" = Val (PyStr content).
Proof.
  do 4 eexists. split; [vm_compute; reflexivity|].
  split; [reflexivity|].
  split; [vm_compute; reflexivity|].
  split; reflexivity.
Qed.

(** C10 as stated fails for content that is empty: a page that is markup
    only gives the empty text, and the submission is turned down before
    the extractor is called, although the inference service would answer. *)
Lemma markup_only_page_is_dropped :
  exists st1 st',
    extract_from_url markup_only job_url (after (init None) (Print "Processing URL..."))
      = (Val (Some ""), st1) /\
    add_job_from_input markup_only job_url (init None) = (Val false, st') /\
    posts (events st') = [] /\
    jobs st' = [] /\
    jobs_file st' = None.
Proof.
  do 2 eexists. split; [vm_compute; reflexivity|].
  split; [vm_compute; reflexivity|].
  repeat split; reflexivity.
Qed.

(** *** The frame of a submission *)

Section Frame.

Variable W : world.

Lemma frame_same (st st1 : tracker) (out : result bool * tracker) :
  jobs st1 = jobs st -> jobs_file st1 = jobs_file st -> frame st1 out -> frame st out.
Proof.
  intros Hj Hf. unfold frame. destruct out as [[[|]|e] st']; rewrite Hj, ?Hf; auto.
Qed.

(** A record with a title and a company: [save_job_info] appends it when
    it returns [True] and changes nothing otherwise. *)
Lemma save_record_frame (record : pyval) (st : tracker) :
  has_item record "title" -> has_item record "company" ->
  frame st (save_job_info W (Some record) st).
Proof.
  intros (t & Ht) (c & Hc).
  pose proof (save_job_info_cases W (Some record) st) as H.
  unfold frame. destruct (save_job_info W (Some record) st) as [[[|]|e] st'].
  - destruct H as (j & Hj & Happ & Hfile). eauto.
  - exact H.
  - destruct H as [H | (j & Hj & [Hx|Hx] & _)]; [exact H | |];
      inversion Hj; subst j; congruence.
Qed.

(** Extraction followed by insertion. *)
Lemma extract_and_save_frame (content source_type source : string) (st : tracker) :
  frame st (bind (extract_job_info_from_content W content source_type source)
                 (save_job_info W) st).
Proof.
  unfold bind.
  destruct (extract_job_info_returns W content source_type source st)
    as (record & st1 & evs & Hrun & Hlog & Ht & Hc).
  rewrite Hrun. apply logs_jobs in Hlog. destruct Hlog as [Hj Hf].
  apply (frame_same st st1); auto. apply save_record_frame; auto.
Qed.

Lemma add_job_from_url_frame (url : string) (st : tracker) :
  frame st (add_job_from_url W url st).
Proof.
  unfold add_job_from_url. unfold bind at 1 2. unfold print, emit.
  fold (after st (Print "Processing URL...")).
  destruct (extract_from_url_total W url (after st (Print "Processing URL...")))
    as (content & st1 & evs & Hrun & Hlog).
  rewrite Hrun. apply logs_jobs in Hlog. destruct Hlog as [Hj Hf]. cbn in Hj, Hf.
  apply (frame_same st st1); auto.
  destruct content as [c|]; [|split; reflexivity].
  destruct (String.eqb c ""); cbn [negb]; [split; reflexivity|].
  apply extract_and_save_frame.
Qed.

Lemma add_job_from_pdf_frame (pdf_path : string) (st : tracker) :
  frame st (add_job_from_pdf W pdf_path st).
Proof.
  unfold add_job_from_pdf. unfold bind at 1 2. unfold print, emit.
  fold (after st (Print "Processing PDF...")).
  destruct (extract_from_pdf_total W pdf_path (after st (Print "Processing PDF...")))
    as (content & st1 & evs & Hrun & Hlog).
  rewrite Hrun. apply logs_jobs in Hlog. destruct Hlog as [Hj Hf]. cbn in Hj, Hf.
  apply (frame_same st st1); auto.
  destruct content as [c|]; [|split; reflexivity].
  destruct (String.eqb c ""); cbn [negb]; [split; reflexivity|].
  apply extract_and_save_frame.
Qed.

Lemma add_job_from_text_file_frame (text_path : string) (st : tracker) :
  frame st (add_job_from_text_file W text_path st).
Proof.
  unfold add_job_from_text_file. unfold bind at 1. unfold print, emit.
  fold (after st (Print "Processing text file...")).
  apply (frame_same st (after st (Print "Processing text file..."))); try reflexivity.
  generalize (after st (Print "Processing text file...")) as st0. intros st0.
  unfold try_except. unfold bind at 1. unfold lift.
  destruct (read_text_file W text_path) as [c|e].
  - pose proof (extract_and_save_frame c "text_file" text_path st0) as H.
    destruct (bind (extract_job_info_from_content W c "text_file" text_path)
                   (save_job_info W) st0) as [[b|e] st'].
    + exact H.
    + run. exact H.
  - run. split; reflexivity.
Qed.

Lemma add_job_from_text_frame (text_content : string) (st : tracker) :
  frame st (add_job_from_text W text_content st).
Proof.
  unfold add_job_from_text. unfold bind at 1. unfold print, emit.
  fold (after st (Print "Processing text content...")).
  apply (frame_same st (after st (Print "Processing text content..."))); try reflexivity.
  destruct (len text_content <? 50).
  - run. split; reflexivity.
  - apply extract_and_save_frame.
Qed.

End Frame.

(** C9.  [save_job_info] appends the record it accepts at the end of the
    stored sequence and persists the new sequence; when it rejects (a
    duplicate, or nothing extracted) the stored sequence and the file are
    unchanged.  The same frame holds for a whole submission, whatever its
    input and whatever the world does: accepted, it appends exactly one
    record behind the stored ones; rejected or interrupted by an
    exception, it leaves the stored sequence and the file as they were. *)
Theorem submission_frame (W : world) (st : tracker) :
  (forall job_info,
      match save_job_info W job_info st with
      | (Val true, st') =>
          exists j, job_info = Some j /\
                    jobs st' = (jobs st ++ [j])%list /\
                    jobs_file st' = Some (jobs st')
      | (Val false, st') => jobs st' = jobs st /\ jobs_file st' = jobs_file st
      | (Exn _, _) => True
      end) /\
  (forall user_input, frame st (add_job_from_input W user_input st)).
Proof.
  split.
  - intros job_info. pose proof (save_job_info_cases W job_info st) as H.
    destruct (save_job_info W job_info st) as [[[|]|e] st']; auto.
  - intros user_input. unfold add_job_from_input.
    destruct (startswith "http" (strip user_input)); [apply add_job_from_url_frame|].
    destruct (endswith ".pdf" (strip user_input) && os_path_exists W (strip user_input));
      [apply add_job_from_pdf_frame|].
    destruct (endswith ".txt" (strip user_input) && os_path_exists W (strip user_input));
      [apply add_job_from_text_file_frame | apply add_job_from_text_frame].
Qed.

(** Example 3, through the whole pipeline with the service unreachable: the
    second submission, whose title differs only in case, is rejected as a
    duplicate and the store keeps the one record. *)
Lemma example3_duplicate :
  exists st1 st2 record,
    add_job_from_text offline example1 (init None) = (Val true, st1) /\
    jobs st1 = [record] /\
    add_job_from_text offline example3 st1 = (Val false, st2) /\
    jobs st2 = [record] /\
    jobs_file st2 = Some [record] /\
    last (prints (events st2)) "" = "Similar job already exists!".
Proof.
  do 3 eexists. split; [vm_compute; reflexivity|].
  split; [reflexivity|].
  split; [vm_compute; reflexivity|].
  split; [reflexivity|]. split; [reflexivity|]. vm_compute. reflexivity.
Qed.

(* ===================================================================== *)
(** ** Further properties of the code *)
(* ===================================================================== *)

(** *** The fields of a heuristic draft *)

Lemma heuristic_description_nonempty (content : string) :
  heuristic_description content <> "".
Proof.
  unfold heuristic_description.
  destruct (String.eqb_spec
              (strip (if 500 <? len content then take 500 content ++ "..." else content)) "")
    as [E|E]; [discriminate|].
  intros H. apply E. rewrite H. reflexivity.
Qed.

(** X1.  For every input the heuristic extractor returns a draft, without
    raising and without printing.  Its title is the sentinel or a match of
    6 to 199 characters, its company the sentinel or a match of 2 to 99
    characters, its description is never empty, and [other_info] holds, in
    this order and each only when found, the salary, a location of 3 to 99
    characters and the job type, all strings. *)
Theorem heuristic_draft_fields (content source : string) (st : tracker) :
  exists title company salary location job_type,
    fallback_extraction content source st
      = (Val (make_draft (PyStr title) (PyStr company)
                         (PyStr (heuristic_description content))
                         (field "salary" salary ++ field "location" location
                          ++ field "job_type" job_type)%list), st) /\
    (title = "Unknown Title" \/ (5 < len title /\ len title < 200)) /\
    (company = "Unknown Company" \/ (1 < len company /\ len company < 100)) /\
    heuristic_description content <> "" /\
    (forall l, location = Some l -> 2 < len l /\ len l < 100).
Proof.
  unfold fallback_extraction, fallback_body.
  destruct (first_group_total IM 5 200 title_patterns content eq_refl)
    as (t & -> & Ht).
  destruct (first_group_total I_ 1 100 company_patterns content eq_refl)
    as (c & -> & Hc).
  destruct (first_match_total I_ salary_patterns content eq_refl) as (s & ->).
  destruct (first_group_total I_ 2 100 location_patterns content eq_refl)
    as (l & -> & Hl).
  destruct (re_search_group job_type_pattern content I_ eq_refl) as (m & -> & Hg).
  cbn [rbind].
  exists (match t with Some s0 => s0 | None => "Unknown Title" end),
    (match c with Some s0 => s0 | None => "Unknown Company" end),
    s, l,
    (match m with
     | Some mo => Re.group1 mo
     | None => None
     end).
  split.
  - destruct m as [mo|].
    + destruct (Hg mo eq_refl) as (g & ->). cbn [rbind].
      destruct s, l; reflexivity.
    + cbn [rbind]. destruct s, l; reflexivity.
  - split; [destruct t as [s0|]; [right; apply Ht; reflexivity | left; reflexivity]|].
    split; [destruct c as [s0|]; [right; apply Hc; reflexivity | left; reflexivity]|].
    split; [apply heuristic_description_nonempty | exact Hl].
Qed.

(** *** What a run emits *)

Section Emits.

Variable W : world.
Variable P : event -> Prop.

Lemma emits_ret {A} (a : A) : emits P (ret a).
Proof. intros st. exists []. rewrite app_nil_r. split; [reflexivity | constructor]. Qed.

Lemma emits_lift {A} (r : result A) : emits P (lift r).
Proof. intros st. exists []. rewrite app_nil_r. split; [reflexivity | constructor]. Qed.

Lemma emits_bind {A B} (m : M A) (f : A -> M B) :
  emits P m -> (forall a, emits P (f a)) -> emits P (bind m f).
Proof.
  intros Hm Hf st. unfold bind. destruct (Hm st) as (e1 & He1 & Hq1).
  destruct (m st) as [[a|e] st1]; cbn [snd] in *.
  - destruct (Hf a st1) as (e2 & He2 & Hq2).
    exists (e1 ++ e2)%list. rewrite He2, He1, app_assoc. split; [reflexivity|].
    apply Forall_app; auto.
  - exists e1. auto.
Qed.

Lemma emits_try_except {A} (m : M A) (h : exn -> M A) :
  emits P m -> (forall e, emits P (h e)) -> emits P (try_except m h).
Proof.
  intros Hm Hh st. unfold try_except. destruct (Hm st) as (e1 & He1 & Hq1).
  destruct (m st) as [[a|e] st1]; cbn [snd] in *.
  - exists e1. auto.
  - destruct (Hh e st1) as (e2 & He2 & Hq2).
    exists (e1 ++ e2)%list. rewrite He2, He1, app_assoc. split; [reflexivity|].
    apply Forall_app; auto.
Qed.

Lemma emits_emit (e : event) : P e -> emits P (emit e).
Proof. intros He st. exists [e]. split; [reflexivity | repeat constructor; exact He]. Qed.

Lemma emits_post (model prompt : string) :
  P (HttpPost model prompt) -> emits P (post_generate W model prompt).
Proof. intros He st. exists [HttpPost model prompt]. split; [reflexivity | repeat constructor; exact He]. Qed.

End Emits.

Lemma emits_store (P : event -> Prop) {A} (m : M A) :
  (forall st, events (snd (m st)) = events st) -> emits P m.
Proof.
  intros H st. exists []. rewrite app_nil_r, H. split; [reflexivity | constructor].
Qed.


(** Decomposes a run into its steps, leaving the events to be checked. *)
Ltac emits_step :=
  match goal with
    | |- emits _ (ret _) => apply emits_ret
    | |- emits _ (lift _) => apply emits_lift
    | |- emits _ (post_generate _ _ _) => apply emits_post
    | |- emits _ (print _) => apply emits_emit
    | |- emits _ (emit _) => apply emits_emit
    | |- emits ?P get_jobs => apply (emits_store P); reflexivity
    | |- emits ?P save_jobs => apply (emits_store P); reflexivity
    | |- emits ?P (append_job _) => apply (emits_store P); reflexivity
    | |- emits _ (bind _ _) => apply emits_bind; [|intros ?]
    | |- emits _ (try_except _ _) => apply emits_try_except; [|intros ?]
    | |- emits _ (match ?x with _ => _ end) => destruct x
  end.

Ltac emits_steps := repeat emits_step.

Lemma logs_unique (st st' : tracker) (e1 e2 : list event) :
  logs st st' e1 -> events st' = (events st ++ e2)%list -> e1 = e2.
Proof.
  intros -> H. cbn in H. apply app_inv_head in H. exact H.
Qed.

Lemma call_with_sleeps (prompt : string) (evs : list event) :
  Forall (call_with prompt) evs ->
  sleeps evs = [] /\ Forall (eq prompt) (prompts evs).
Proof.
  induction 1 as [|e l He _ [IHs IHp]]; [split; [reflexivity | constructor]|].
  destruct e; cbn in He; try contradiction; cbn; auto.
Qed.

Lemma sleeps_app (l1 l2 : list event) : sleeps (l1 ++ l2) = (sleeps l1 ++ sleeps l2)%list.
Proof. unfold sleeps. apply flat_map_app. Qed.

Lemma prompts_app (l1 l2 : list event) :
  prompts (l1 ++ l2) = (prompts l1 ++ prompts l2)%list.
Proof. unfold prompts. apply flat_map_app. Qed.

Section ClientEvents.

Variable W : world.

Lemma emits_parse (P : event -> Prop) (response_text : string) :
  (forall msg, P (Print msg)) -> emits P (parse_ollama_response W response_text).
Proof. intros HP. unfold parse_ollama_response. emits_steps; apply HP. Qed.

Lemma emits_model_loop (ms : list string) (prompt : string) :
  emits (call_with prompt) (model_loop W ms prompt).
Proof.
  induction ms as [|m ms IH]; cbn [model_loop]; [apply emits_ret|].
  apply emits_bind; [|intros [d|]; [apply emits_ret | exact IH]].
  apply emits_try_except; [|intros e; unfold model_failed; emits_steps; exact I].
  unfold try_model. emits_steps; try exact I; try reflexivity.
  apply emits_parse. intros msg; exact I.
Qed.

(** One attempt: what it sleeps and what it sends. *)
Lemma attempt_body_events (attempt : nat) (content : string) (st : tracker) :
  exists st' evs,
    attempt_body W attempt content st
      = (Val (fst (first_success W (List.length (posts (events st))) models
                                 (make_prompt content))), st') /\
    logs st st' evs /\
    posts evs = snd (first_success W (List.length (posts (events st))) models
                                   (make_prompt content)) /\
    sleeps evs
      = match fst (first_success W (List.length (posts (events st))) models
                                 (make_prompt content)) with
        | Some _ => []
        | None => if attempt <? max_retries - 1 then [5] else []
        end /\
    Forall (eq (make_prompt content)) (prompts evs).
Proof.
  unfold attempt_body. run.
  match goal with
  | |- context [model_loop W models _ ?s] =>
      destruct (model_loop_spec W models (make_prompt content) s)
        as (st1 & e1 & Hrun & Hlog & Hposts);
      destruct (emits_model_loop models (make_prompt content) s)
        as (e1' & Hev & Hcalls)
  end.
  rewrite Hrun in Hev. cbn [snd] in Hev.
  rewrite <- (logs_unique _ _ _ _ Hlog Hev) in Hcalls. clear Hev e1'.
  destruct (call_with_sleeps _ _ Hcalls) as [Hsl Hpr].
  cbn [events] in Hrun, Hposts. rewrite posts_print in Hrun, Hposts.
  rewrite Hrun, <- Hposts. unfold logs in Hlog. subst st1.
  destruct (fst (first_success W (List.length (posts (events st))) models
                               (make_prompt content))) as [d|].
  - do 2 eexists. split; [reflexivity|]. split; [solve_logs|].
    split; [apply posts_cons_print|]. split; [exact Hsl | exact Hpr].
  - destruct (attempt <? max_retries - 1); run;
      (do 2 eexists; split; [reflexivity|]; split; [solve_logs|]).
    + split; [rewrite posts_cons_print, posts_app; apply app_nil_r|].
      split.
      * change (sleeps (Print ?m :: ?l)) with (sleeps l).
        rewrite sleeps_app, Hsl. reflexivity.
      * change (prompts (Print ?m :: ?l)) with (prompts l).
        rewrite prompts_app. cbn. rewrite app_nil_r. exact Hpr.
    + split; [apply posts_cons_print|]. split; [exact Hsl | exact Hpr].
Qed.

End ClientEvents.

(** X2.  The retry policy of the inference client.  [try_ollama_extraction]
    never raises and leaves the store alone; it sleeps exactly once, for
    five seconds, when every model of the first round failed, and not at
    all otherwise (the three-second pause of its [except] clause is never
    taken); and every request it sends carries the same prompt, built from
    the first 4000 characters of the content. *)
Theorem retry_backoff (W : world) (content : string) (st : tracker) :
  exists r st' evs,
    try_ollama_extraction W content st = (Val r, st') /\
    logs st st' evs /\
    sleeps evs
      = match fst (first_success W (List.length (posts (events st))) models
                                 (make_prompt content)) with
        | Some _ => []
        | None => [5]
        end /\
    Forall (eq (make_prompt content)) (prompts evs) /\
    List.length (prompts evs) = List.length (posts evs) /\
    1 <= List.length (posts evs) <= 10.
Proof.
  assert (Hlen : forall evs, List.length (prompts evs) = List.length (posts evs)).
  { induction evs as [|e l IH]; [reflexivity|].
    destruct e; cbn; try exact IH. f_equal. exact IH. }
  assert (Hfs : forall n, 1 <= List.length (snd (first_success W n models (make_prompt content))) <= 5).
  { intros n. unfold models. cbn [first_success].
    repeat match goal with
      | |- context [yields ?w ?k ?m ?p] => destruct (yields w k m p); cbn; try lia
      end. }
  unfold try_ollama_extraction. cbn [max_retries seq attempt_loop].
  unfold bind at 1.
  destruct (attempt_body_events W 0 content st)
    as (st1 & e1 & Hrun1 & Hlog1 & Hposts1 & Hsl1 & Hpr1).
  rewrite Hrun1.
  pose proof (Hfs (List.length (posts (events st)))) as Hb1.
  rewrite <- Hposts1 in Hb1.
  destruct (fst (first_success W (List.length (posts (events st))) models
                               (make_prompt content))) as [d|].
  - exists (Some d), st1, e1. rewrite Hlen. repeat split; auto; lia.
  - unfold bind at 1.
    destruct (attempt_body_events W 1 content st1)
      as (st2 & e2 & Hrun2 & Hlog2 & Hposts2 & Hsl2 & Hpr2).
    rewrite Hrun2.
    pose proof (Hfs (List.length (posts (events st1)))) as Hb2.
    rewrite <- Hposts2 in Hb2.
    assert (Hs2 : sleeps e2 = []).
    { rewrite Hsl2. destruct (fst (first_success W _ models _)); reflexivity. }
    assert (Hgoal : forall r, logs st st2 (e1 ++ e2) /\
              sleeps (e1 ++ e2) = [5] /\
              Forall (eq (make_prompt content)) (prompts (e1 ++ e2)) /\
              List.length (prompts (e1 ++ e2)) = List.length (posts (e1 ++ e2)) /\
              1 <= List.length (posts (e1 ++ e2)) <= 10 ->
            exists (r0 : option pyval) st' evs,
              (Val r, st2) = (Val r0, st') /\ logs st st' evs /\
              sleeps evs = [5] /\
              Forall (eq (make_prompt content)) (prompts evs) /\
              List.length (prompts evs) = List.length (posts evs) /\
              1 <= List.length (posts evs) <= 10).
    { intros r H. exists r, st2, (e1 ++ e2)%list. split; [reflexivity | exact H]. }
    assert (Hall : logs st st2 (e1 ++ e2) /\
              sleeps (e1 ++ e2) = [5] /\
              Forall (eq (make_prompt content)) (prompts (e1 ++ e2)) /\
              List.length (prompts (e1 ++ e2)) = List.length (posts (e1 ++ e2)) /\
              1 <= List.length (posts (e1 ++ e2)) <= 10).
    { split; [eapply logs_trans; eauto|].
      rewrite Hlen, sleeps_app, prompts_app, Hs2, Hsl1, posts_app, !length_app.
      repeat split; auto; try lia.
      apply Forall_app; auto. }
    destruct (fst (first_success W (List.length (posts (events st1))) models
                                 (make_prompt content))) as [d|];
      apply Hgoal; exact Hall.
Qed.
(** X3.  The inference client sees only the first 4000 characters: two
    contents that agree on them are treated alike, whatever the service
    answers. *)
Theorem prompt_window (W : world) (c1 c2 : string) (st : tracker) :
  take 4000 c1 = take 4000 c2 ->
  try_ollama_extraction W c1 st = try_ollama_extraction W c2 st.
Proof.
  intros H. unfold try_ollama_extraction.
  assert (Hp : make_prompt c1 = make_prompt c2).
  { unfold make_prompt. rewrite H. reflexivity. }
  assert (Hb : forall a, attempt_body W a c1 = attempt_body W a c2).
  { intros a. unfold attempt_body. rewrite Hp. reflexivity. }
  induction (seq 0 max_retries) as [|a l IH]; [reflexivity|].
  cbn [attempt_loop]. rewrite Hb.
  unfold bind. destruct (attempt_body W a c2 st) as [[[d|]|e] st1]; try reflexivity.
  revert st1. clear -Hb.
  induction l as [|b l IH]; intros st1; [reflexivity|].
  cbn [attempt_loop]. rewrite Hb. unfold bind.
  destruct (attempt_body W b c2 st1) as [[[d|]|e] st2]; try reflexivity.
  apply IH.
Qed.

Lemma prompt_window_witness :
  take 4000 (replicate 4000 "-" ++ "Contract position")
  = take 4000 (replicate 4000 "-" ++ "Full-time position") /\
  try_ollama_extraction flaky (replicate 4000 "-" ++ "Contract position") (init None)
  = try_ollama_extraction flaky (replicate 4000 "-" ++ "Full-time position") (init None).
Proof.
  assert (H : take 4000 (replicate 4000 "-" ++ "Contract position")
              = take 4000 (replicate 4000 "-" ++ "Full-time position"))
    by (vm_compute; reflexivity).
  split; [exact H | exact (prompt_window flaky _ _ (init None) H)].
Defined.

(** *** Records of the pipeline *)

Lemma format_data_sliceable (job_data d : pyval) :
  format_data job_data = Val d ->
  exists title company description other_info,
    d = make_draft title company description other_info /\ sliceable description.
Proof.
  unfold format_data. intros H.
  destruct (py_get job_data "title" (PyStr "Unknown Title")) as [t|]; [|discriminate].
  destruct (py_get job_data "company" (PyStr "Unknown Company")) as [c|]; [|discriminate].
  destruct (py_get job_data "description" (PyStr "No description found")) as [x|];
    [|discriminate].
  cbn [rbind] in H.
  destruct (py_slice_to 500 x) as [desc|] eqn:Eslice; [|discriminate].
  destruct (copy_optional optional_fields job_data []) as [oi|]; [|discriminate].
  cbn [rbind] in H. inversion H; subst d.
  exists t, c, desc, oi. split; [reflexivity|].
  destruct x as [| | | |s|l|]; cbn [py_slice_to] in Eslice; try discriminate.
  - replace desc with (PyStr (take 500 s)) by congruence. exact I.
  - replace desc with (PyList (firstn 500 l)) by congruence. exact I.
Qed.

(** The orchestrator always returns a record of the pipeline. *)
Lemma extract_job_info_record (W : world) (content source_type source : string)
      (st : tracker) :
  exists title company description other_info st' evs,
    extract_job_info_from_content W content source_type source st
      = (Val (Some (record_of W title company description other_info
                              source_type source)), st') /\
    logs st st' evs /\
    sliceable description.
Proof.
  unfold extract_job_info_from_content, extract_with_ollama.
  fold (truncate content). run.
  destruct (try_ollama_extraction_spec W (truncate content) st)
    as (st1 & e1 & Hrun & Hlog & Hposts).
  rewrite Hrun.
  pose proof (first_success_shape W schedule (make_prompt (truncate content))
                                  (List.length (posts (events st)))) as Hshape.
  destruct (fst (first_success W (List.length (posts (events st))) schedule
                               (make_prompt (truncate content)))) as [d|].
  - destruct (Hshape d eq_refl) as (job_data & Hfmt).
    destruct (format_data_sliceable _ _ Hfmt) as (t & c & desc & oi & -> & Hs).
    cbn [truthy make_draft]. run. rewrite update_draft. unfold logs in Hlog. subst st1.
    exists t, c, desc, oi. do 2 eexists.
    split; [reflexivity|]. split; [solve_logs | exact Hs].
  - destruct (fallback_extraction_spec (truncate content) source)
      as (t & c & oi & Hfb & _).
    run. rewrite Hfb. cbn [truthy make_draft]. run. rewrite update_draft.
    unfold logs in Hlog. subst st1.
    exists (PyStr t), (PyStr c), (PyStr (heuristic_description (truncate content))), oi.
    do 2 eexists.
    split; [reflexivity|]. split; [solve_logs | exact I].
Qed.

Section PipelineFrame.

Variable W : world.

Lemma pipeline_frame_same (st st1 : tracker) (out : result bool * tracker) :
  jobs st1 = jobs st -> jobs_file st1 = jobs_file st ->
  pipeline_frame W st1 out -> pipeline_frame W st out.
Proof.
  intros Hj Hf. unfold pipeline_frame.
  destruct out as [[[|]|e] st']; rewrite Hj, ?Hf; auto.
Qed.

Lemma save_record_pipeline_frame (record : pyval) (st : tracker) :
  made_by_pipeline W record ->
  pipeline_frame W st (save_job_info W (Some record) st).
Proof.
  intros Hmade. pose proof Hmade as (t & c & d & oi & sty & src & -> & Hs & Hin).
  unfold save_job_info. cbn [truthy record_of app]. run.
  destruct (find_duplicate (jobs st) _) as [[|]|e] eqn:Hdup; run;
    [split; reflexivity | | split; reflexivity].
  change (py_item (record_of W t c d oi sty src) "title") with (Val t).
  change (py_item (record_of W t c d oi sty src) "company") with (Val c).
  cbn [pipeline_frame]. exists (record_of W t c d oi sty src). auto.
Qed.

Lemma extract_and_save_pipeline_frame (content source_type source : string)
      (st : tracker) :
  In source_type ["url"; "pdf"; "text_file"; "text"] ->
  pipeline_frame W st (bind (extract_job_info_from_content W content source_type source)
                            (save_job_info W) st).
Proof.
  intros Hin. unfold bind.
  destruct (extract_job_info_record W content source_type source st)
    as (t & c & d & oi & st1 & evs & Hrun & Hlog & Hs).
  rewrite Hrun. apply logs_jobs in Hlog. destruct Hlog as [Hj Hf].
  apply (pipeline_frame_same st st1); auto.
  apply save_record_pipeline_frame. unfold made_by_pipeline.
  exists t, c, d, oi, source_type, source. auto.
Qed.

Lemma add_job_from_url_pipeline_frame (url : string) (st : tracker) :
  pipeline_frame W st (add_job_from_url W url st).
Proof.
  unfold add_job_from_url. unfold bind at 1 2. unfold print, emit.
  fold (after st (Print "Processing URL...")).
  destruct (extract_from_url_total W url (after st (Print "Processing URL...")))
    as (content & st1 & evs & Hrun & Hlog).
  rewrite Hrun. apply logs_jobs in Hlog. destruct Hlog as [Hj Hf]. cbn in Hj, Hf.
  apply (pipeline_frame_same st st1); auto.
  destruct content as [c|]; [|split; reflexivity].
  destruct (String.eqb c ""); cbn [negb]; [split; reflexivity|].
  apply extract_and_save_pipeline_frame. cbn. auto.
Qed.

Lemma add_job_from_pdf_pipeline_frame (pdf_path : string) (st : tracker) :
  pipeline_frame W st (add_job_from_pdf W pdf_path st).
Proof.
  unfold add_job_from_pdf. unfold bind at 1 2. unfold print, emit.
  fold (after st (Print "Processing PDF...")).
  destruct (extract_from_pdf_total W pdf_path (after st (Print "Processing PDF...")))
    as (content & st1 & evs & Hrun & Hlog).
  rewrite Hrun. apply logs_jobs in Hlog. destruct Hlog as [Hj Hf]. cbn in Hj, Hf.
  apply (pipeline_frame_same st st1); auto.
  destruct content as [c|]; [|split; reflexivity].
  destruct (String.eqb c ""); cbn [negb]; [split; reflexivity|].
  apply extract_and_save_pipeline_frame. cbn. auto.
Qed.

Lemma add_job_from_text_file_pipeline_frame (text_path : string) (st : tracker) :
  pipeline_frame W st (add_job_from_text_file W text_path st).
Proof.
  unfold add_job_from_text_file. unfold bind at 1. unfold print, emit.
  fold (after st (Print "Processing text file...")).
  apply (pipeline_frame_same st (after st (Print "Processing text file...")));
    try reflexivity.
  generalize (after st (Print "Processing text file...")) as st0. intros st0.
  unfold try_except. unfold bind at 1. unfold lift.
  destruct (read_text_file W text_path) as [c|e].
  - assert (Hin : In "text_file" ["url"; "pdf"; "text_file"; "text"]) by (cbn; auto).
    pose proof (extract_and_save_pipeline_frame c "text_file" text_path st0 Hin) as H.
    destruct (bind (extract_job_info_from_content W c "text_file" text_path)
                   (save_job_info W) st0) as [[b|e] st'].
    + exact H.
    + run. exact H.
  - run. split; reflexivity.
Qed.

Lemma add_job_from_text_pipeline_frame (text_content : string) (st : tracker) :
  pipeline_frame W st (add_job_from_text W text_content st).
Proof.
  unfold add_job_from_text. unfold bind at 1. unfold print, emit.
  fold (after st (Print "Processing text content...")).
  apply (pipeline_frame_same st (after st (Print "Processing text content...")));
    try reflexivity.
  destruct (len text_content <? 50).
  - run. split; reflexivity.
  - apply extract_and_save_pipeline_frame. cbn. auto.
Qed.

Lemma add_job_from_input_pipeline_frame (user_input : string) (st : tracker) :
  pipeline_frame W st (add_job_from_input W user_input st).
Proof.
  unfold add_job_from_input.
  destruct (startswith "http" (strip user_input));
    [apply add_job_from_url_pipeline_frame|].
  destruct (endswith ".pdf" (strip user_input) && os_path_exists W (strip user_input));
    [apply add_job_from_pdf_pipeline_frame|].
  destruct (endswith ".txt" (strip user_input) && os_path_exists W (strip user_input));
    [apply add_job_from_text_file_pipeline_frame|].
  apply add_job_from_text_pipeline_frame.
Qed.

End PipelineFrame.

(** X4.  The orchestrator never raises and never returns [None]: whatever
    the content and whatever the inference service does, it returns a
    record with the four fields of a draft (the description being a string
    or a list) followed by the provenance: the source and its type as they
    were passed, the status "Applied", and the same date twice.  It leaves
    the store and the file alone. *)
Theorem orchestrator_returns_record (W : world) (content source_type source : string)
        (st : tracker) :
  exists record st' evs,
    extract_job_info_from_content W content source_type source st
      = (Val (Some record), st') /\
    logs st st' evs /\
    (exists title company description other_info,
        record = record_of W title company description other_info source_type source /\
        sliceable description) /\
    py_item record "source" = Val (PyStr source) /\
    py_item record "source_type" = Val (PyStr source_type) /\
    py_item record "status" = Val (PyStr "Applied") /\
    py_item record "date_added" = Val (PyStr (strftime_now W)) /\
    py_item record "last_update" = Val (PyStr (strftime_now W)) /\
    py_item record "url" = Exn (mkExn KeyError "url").
Proof.
  destruct (extract_job_info_record W content source_type source st)
    as (t & c & d & oi & st' & evs & Hrun & Hlog & Hs).
  exists (record_of W t c d oi source_type source), st', evs.
  split; [exact Hrun|]. split; [exact Hlog|].
  split; [exists t, c, d, oi; auto|].
  repeat split; reflexivity.
Qed.

(** *** The store *)

Lemma find_duplicate_false_count (l : list pyval) (j : pyval) (k : string * string) :
  find_duplicate l j = Val false -> job_key j = Some k -> count_key k l = 0.
Proof.
  intros Hdup Hj. induction l as [|e l IH]; [reflexivity|].
  cbn [find_duplicate] in Hdup.
  destruct (same_key e j) as [[|]|x] eqn:E; cbn [rbind] in Hdup; try discriminate.
  specialize (IH Hdup). unfold count_key in *. cbn [filter].
  destruct (job_key e) as [[t c]|] eqn:He; [|exact IH].
  rewrite (same_key_keys _ _ _ _ He Hj) in E. cbn [fst snd] in E.
  replace (String.eqb t (fst k) && String.eqb c (snd k)) with false by congruence.
  exact IH.
Qed.

Lemma unique_keys_app (l : list pyval) (j : pyval) :
  unique_keys l -> find_duplicate l j = Val false -> unique_keys (l ++ [j]).
Proof.
  intros Hu Hdup k. rewrite count_key_app. specialize (Hu k).
  unfold count_key at 2. cbn [filter].
  destruct (job_key j) as [[t c]|] eqn:Hj; [|cbn; lia].
  destruct (String.eqb t (fst k) && String.eqb c (snd k)) eqn:E; [|cbn; lia].
  apply andb_prop in E. destruct E as [Et Ec].
  apply String.eqb_eq in Et, Ec. destruct k as [kt kc]. cbn [fst snd] in Et, Ec. subst kt kc.
  rewrite (find_duplicate_false_count l j (t, c) Hdup Hj). cbn. lia.
Qed.

Lemma save_job_info_store (W : world) (job_info : option pyval) (st : tracker) :
  jobs (snd (save_job_info W job_info st)) = jobs st \/
  exists j, find_duplicate (jobs st) j = Val false /\
            jobs (snd (save_job_info W job_info st)) = (jobs st ++ [j])%list.
Proof.
  unfold save_job_info.
  destruct job_info as [j|]; [destruct (truthy j)|]; run; auto.
  destruct (find_duplicate (jobs st) j) as [[|]|e] eqn:Hdup; run; auto.
  right. exists j. split; [exact Hdup|].
  destruct (py_item j "title") as [t|e]; run; [|reflexivity].
  destruct (py_item j "company") as [c|e]; run; reflexivity.
Qed.

(** X5.  No two stored records ever share a key: if the keys of the store
    are pairwise distinct, they still are after [save_job_info], whatever
    it is given, and after a whole submission, whatever the input and
    whatever the world does. *)
Theorem keys_stay_unique (W : world) (st : tracker) :
  unique_keys (jobs st) ->
  (forall job_info, unique_keys (jobs (snd (save_job_info W job_info st)))) /\
  (forall user_input, unique_keys (jobs (snd (add_job_from_input W user_input st)))).
Proof.
  intros Hu. split.
  - intros job_info.
    destruct (save_job_info_store W job_info st) as [H | (j & Hdup & H)]; rewrite H.
    + exact Hu.
    + apply unique_keys_app; assumption.
  - intros user_input.
    pose proof (add_job_from_input_pipeline_frame W user_input st) as H.
    destruct (add_job_from_input W user_input st) as [[[|]|e] st']; cbn [snd pipeline_frame] in *.
    + destruct H as (record & _ & Hdup & Hj & _). rewrite Hj.
      apply unique_keys_app; assumption.
    + destruct H as [Hj _]. rewrite Hj. exact Hu.
    + destruct H as [Hj _]. rewrite Hj. exact Hu.
Qed.

Lemma keys_stay_unique_witness :
  unique_keys (jobs (init (Some [other_record]))) /\
  (forall job_info,
      unique_keys (jobs (snd (save_job_info offline job_info
                                            (init (Some [other_record])))))) /\
  (forall user_input,
      unique_keys (jobs (snd (add_job_from_input offline user_input
                                                 (init (Some [other_record])))))).
Proof.
  assert (H : unique_keys (jobs (init (Some [other_record])))).
  { intros k. unfold count_key. cbn [jobs init load_jobs filter].
    destruct (match job_key other_record with
              | Some (t, c) => String.eqb t (fst k) && String.eqb c (snd k)
              | None => false
              end); cbn; lia. }
  split; [exact H | exact (keys_stay_unique offline _ H)].
Defined.

Lemma find_duplicate_key_in (l : list pyval) (j : pyval) (k : string * string) :
  Forall well_keyed l -> job_key j = Some k ->
  find_duplicate l j = Val (key_in k l).
Proof.
  intros Hall Hj. induction Hall as [|e l [[t c] He] _ IH]; [reflexivity|].
  cbn [find_duplicate]. rewrite (same_key_keys _ _ _ _ He Hj). cbn [rbind fst snd].
  unfold key_in in *. cbn [existsb]. rewrite He.
  destruct (String.eqb t (fst k) && String.eqb c (snd k)); [reflexivity | exact IH].
Qed.

(** X6.  On a store whose records all have a string title and a string
    company, the duplicate test is membership of the key: a non-empty
    draft with key [k] is rejected, with its message and without touching
    the store, exactly when some stored record has the key [k]; otherwise
    it is appended and persisted (even when the final message then
    raises). *)
Theorem duplicate_test_is_key_membership (W : world) (j : pyval) (k : string * string)
        (st : tracker) :
  Forall well_keyed (jobs st) ->
  job_key j = Some k ->
  truthy j = true ->
  if key_in k (jobs st) then
    save_job_info W (Some j) st
      = (Val false, after st (Print "Similar job already exists!"))
  else
    fst (save_job_info W (Some j) st) <> Val false /\
    jobs (snd (save_job_info W (Some j) st)) = (jobs st ++ [j])%list /\
    jobs_file (snd (save_job_info W (Some j) st)) = Some (jobs st ++ [j])%list.
Proof.
  intros Hall Hj Ht. unfold save_job_info. rewrite Ht. run.
  rewrite (find_duplicate_key_in _ _ _ Hall Hj).
  destruct (key_in k (jobs st)); cbn [fst snd]; [reflexivity|].
  destruct (py_item j "title") as [t|e]; run;
    [destruct (py_item j "company") as [c|e]; run|];
    (split; [discriminate | split; reflexivity]).
Qed.

Lemma duplicate_test_is_key_membership_witness :
  save_job_info offline (Some (backend_draft "BACKEND engineer"))
                (init (Some [other_record; backend_draft "Backend Engineer"]))
  = (Val false,
     after (init (Some [other_record; backend_draft "Backend Engineer"]))
           (Print "Similar job already exists!")).
Proof.
  apply (duplicate_test_is_key_membership offline
           (backend_draft "BACKEND engineer") ("backend engineer", "acme corp")
           (init (Some [other_record; backend_draft "Backend Engineer"]))).
  - repeat constructor; eexists; reflexivity.
  - reflexivity.
  - reflexivity.
Defined.

Lemma made_is_shaped (W : world) (record : pyval) :
  made_by_pipeline W record -> pipeline_shaped record.
Proof.
  intros (t & c & d & oi & sty & src & -> & Hs & _).
  unfold pipeline_shaped, record_of, provenance. cbn [app].
  do 9 eexists. split; [reflexivity | exact Hs].
Qed.

Lemma older_record_shaped : pipeline_shaped older_record.
Proof. unfold pipeline_shaped, older_record. do 9 eexists. split; [reflexivity | exact I]. Qed.

(** X7.  Every record that a submission stores was made by the pipeline.
    A store that holds only records of the pipeline's shape, stored on
    whatever days and whatever their status has become, still does after a
    submission; and an accepted submission appended one record, made by the
    pipeline today, which the duplicate test had let through. *)
Theorem stored_records_are_pipeline_made (W : world) (user_input : string)
        (st : tracker) :
  Forall pipeline_shaped (jobs st) ->
  Forall pipeline_shaped (jobs (snd (add_job_from_input W user_input st))) /\
  (fst (add_job_from_input W user_input st) = Val true ->
   exists record,
     made_by_pipeline W record /\
     find_duplicate (jobs st) record = Val false /\
     jobs (snd (add_job_from_input W user_input st)) = (jobs st ++ [record])%list /\
     jobs_file (snd (add_job_from_input W user_input st))
       = Some (jobs st ++ [record])%list).
Proof.
  intros Hall.
  pose proof (add_job_from_input_pipeline_frame W user_input st) as H.
  destruct (add_job_from_input W user_input st) as [[[|]|e] st'];
    cbn [fst snd pipeline_frame] in *.
  - destruct H as (record & Hmade & Hdup & Hj & Hf). split.
    + rewrite Hj. apply Forall_app. split; [exact Hall|].
      constructor; [exact (made_is_shaped W record Hmade) | constructor].
    + intros _. exists record. rewrite Hf, Hj. auto.
  - destruct H as [Hj _]. rewrite Hj. split; [exact Hall | discriminate].
  - destruct H as [Hj _]. rewrite Hj. split; [exact Hall | discriminate].
Qed.

Lemma stored_records_are_pipeline_made_witness :
  Forall pipeline_shaped (jobs (init (Some [older_record]))) /\
  Forall pipeline_shaped
         (jobs (snd (add_job_from_input offline example1 (init (Some [older_record]))))) /\
  (fst (add_job_from_input offline example1 (init (Some [older_record]))) = Val true ->
   exists record,
     made_by_pipeline offline record /\
     find_duplicate (jobs (init (Some [older_record]))) record = Val false /\
     jobs (snd (add_job_from_input offline example1 (init (Some [older_record]))))
       = (jobs (init (Some [older_record])) ++ [record])%list /\
     jobs_file (snd (add_job_from_input offline example1 (init (Some [older_record]))))
       = Some (jobs (init (Some [older_record])) ++ [record])%list).
Proof.
  assert (H : Forall pipeline_shaped (jobs (init (Some [older_record]))))
    by (repeat constructor; exact older_record_shaped).
  split; [exact H|].
  exact (stored_records_are_pipeline_made offline example1 _ H).
Defined.

(** The submission of the witness is accepted: the store then holds the
    older record and the one of today. *)
Example older_store_grows :
  exists st' record,
    add_job_from_input offline example1 (init (Some [older_record])) = (Val true, st') /\
    jobs st' = [older_record; record] /\
    py_item record "date_added" = Val (PyStr "11/04/2026") /\
    py_item older_record "date_added" = Val (PyStr "01/15/2026").
Proof.
  do 2 eexists. split; [vm_compute; reflexivity|].
  repeat split; reflexivity.
Qed.

(** *** Display *)

Section Shown.

Variable W : world.
Variable str_title : string -> string.

Lemma print_items_total (indent : string) (items : dict) (st : tracker) :
  exists st' evs,
    print_items W str_title indent items st = (Val tt, st') /\ logs st st' evs.
Proof.
  revert st. induction items as [|[key value] rest IH]; intros st; cbn [print_items].
  - exists st, []. split; [reflexivity | apply logs_refl].
  - run.
    match goal with
    | |- context [print_items W str_title indent rest ?s] =>
        destruct (IH s) as (st' & evs & Hrun & Hlog)
    end.
    rewrite Hrun. unfold logs in Hlog. subst st'.
    do 2 eexists. split; [reflexivity | solve_logs].
Qed.

Lemma display_job_total (i : nat) (job : pyval) (st : tracker) :
  pipeline_shaped job ->
  exists st' evs,
    display_job W str_title i job st = (Val tt, st') /\ logs st st' evs.
Proof.
  intros (t & c & d & oi & src & sty & added & status & updated & -> & Hs).
  unfold display_job.
  cbn [record_with py_item py_get dict_lookup String.eqb Ascii.eqb Bool.eqb].
  run.
  assert (Hd : exists x, py_slice_to 100 d = Val x).
  { destruct d; cbn in Hs; try contradiction; eexists; reflexivity. }
  destruct Hd as [x Hx]. rewrite Hx.
  destruct (truthy (PyDict oi)).
  - cbn [py_items].
    match goal with
    | |- context [print_items W str_title ?ind oi ?s] =>
        destruct (print_items_total ind oi s) as (st' & evs & Hrun & Hlog)
    end.
    rewrite Hrun. unfold logs in Hlog. subst st'.
    do 2 eexists. split; [reflexivity | solve_logs].
  - do 2 eexists. split; [reflexivity | solve_logs].
Qed.

Lemma display_loop_total (l : list pyval) :
  Forall pipeline_shaped l ->
  forall i st,
    exists st' evs,
      display_loop W str_title i l st = (Val tt, st') /\ logs st st' evs.
Proof.
  induction 1 as [|job l Hjob _ IH]; intros i st; cbn [display_loop].
  - exists st, []. split; [reflexivity | apply logs_refl].
  - unfold bind.
    destruct (display_job_total i job st Hjob) as (st1 & e1 & Hrun1 & Hlog1).
    rewrite Hrun1.
    destruct (IH (S i) st1) as (st2 & e2 & Hrun2 & Hlog2).
    rewrite Hrun2. exists st2, (e1 ++ e2)%list.
    split; [reflexivity | eapply logs_trans; eauto].
Qed.

End Shown.

(** The store after the posting of example 1 was submitted to a tracker
    that holds a record of an earlier day. *)
Lemma example_store_shaped :
  Forall pipeline_shaped
         (jobs (snd (add_job_from_text offline example1 (init (Some [older_record]))))).
Proof.
  pose proof (add_job_from_text_pipeline_frame
                offline example1 (init (Some [older_record]))) as H.
  assert (Hold : Forall pipeline_shaped (jobs (init (Some [older_record]))))
    by (repeat constructor; exact older_record_shaped).
  destruct (add_job_from_text offline example1 (init (Some [older_record])))
    as [[[|]|e] st']; cbn [snd pipeline_frame] in *.
  - destruct H as (record & Hmade & _ & Hj & _). rewrite Hj.
    apply Forall_app. split; [exact Hold|].
    constructor; [exact (made_is_shaped offline record Hmade) | constructor].
  - destruct H as [Hj _]. rewrite Hj. exact Hold.
  - destruct H as [Hj _]. rewrite Hj. exact Hold.
Qed.

(** X8.  The tracker can always list what it stored: on a store that holds
    only records of the pipeline's shape, stored on whatever days and
    whatever their status has become, [display_jobs] returns without
    raising and changes neither the store nor the file; on the empty store
    it prints one line. *)
Theorem display_jobs_total (W : world) (str_title : string -> string) (st : tracker) :
  Forall pipeline_shaped (jobs st) ->
  exists st' evs,
    display_jobs W str_title st = (Val tt, st') /\
    logs st st' evs /\
    (jobs st = [] -> evs = [Print "No jobs saved yet."]).
Proof.
  intros Hall. unfold display_jobs. run.
  destruct (jobs st) as [|job l] eqn:Hjobs.
  - do 2 eexists. split; [reflexivity|]. split; [solve_logs | reflexivity].
  - match goal with
    | |- context [display_loop W str_title 1 (job :: l) ?s] =>
        destruct (display_loop_total W str_title (job :: l) Hall 1 s)
          as (st' & evs & Hrun & Hlog)
    end.
    rewrite Hrun. unfold logs in Hlog. subst st'. cbn [jobs jobs_file events].
    do 2 eexists. split; [reflexivity|]. split; [solve_logs | discriminate].
Qed.

Lemma display_jobs_total_witness :
  Forall pipeline_shaped
         (jobs (snd (add_job_from_text offline example1 (init (Some [older_record]))))) /\
  exists st' evs,
    display_jobs offline lower
                 (snd (add_job_from_text offline example1 (init (Some [older_record]))))
      = (Val tt, st') /\
    logs (snd (add_job_from_text offline example1 (init (Some [older_record])))) st' evs /\
    (jobs (snd (add_job_from_text offline example1 (init (Some [older_record])))) = [] ->
     evs = [Print "No jobs saved yet."]).
Proof.
  split; [exact example_store_shaped|].
  exact (display_jobs_total offline lower _ example_store_shaped).
Defined.

(** X9.  The details view of the manager cannot show a record of the
    tracker.  For a record of the pipeline's shape, stored on whatever day
    and whatever its status has become, [show_job_details] with its number
    prints the record down to its description and then raises [KeyError]
    on the field 'url', which no such record has; what else the store
    holds does not matter.  With a number out of range the view prints
    "Invalid job number".  The store is not changed either way. *)
Theorem show_job_details_missing_url (W : world) (str_title : string -> string)
        (job_index : Z) (st : tracker) :
  (((job_index <? 1) || (Z.of_nat (List.length (jobs st)) <? job_index))%Z = true ->
   Manager.show_job_details W str_title job_index st
   = (Val tt, after st (Print "Invalid job number"))) /\
  (forall job,
      (1 <= job_index)%Z ->
      nth_error (jobs st) (Z.to_nat (job_index - 1)) = Some job ->
      pipeline_shaped job ->
      exists st' evs description,
        Manager.show_job_details W str_title job_index st
          = (Exn (mkExn KeyError "url"), st') /\
        logs st st' evs /\
        py_item job "description" = Val description /\
        last (prints evs) "" = NL ++ "Description:" ++ NL ++ py_str W description).
Proof.
  split.
  - intros E. unfold Manager.show_job_details. run. rewrite E. reflexivity.
  - intros job H1 Hn (t & c & d & oi & src & sty & added & status & updated & -> & Hs).
    assert (E : ((job_index <? 1)
                 || (Z.of_nat (List.length (jobs st)) <? job_index))%Z = false).
    { apply orb_false_intro; apply Z.ltb_ge; [lia|].
      assert (Z.to_nat (job_index - 1) < List.length (jobs st))
        by (apply nth_error_Some; congruence).
      lia. }
    unfold Manager.show_job_details. run. rewrite E, Hn.
    cbn [record_with py_item py_get dict_lookup String.eqb Ascii.eqb Bool.eqb truthy].
    assert (Hlast : forall l m, last (prints (l ++ [Print m])) "" = m).
    { intros l m. unfold prints. rewrite flat_map_app. cbn [flat_map app].
      apply last_last. }
    destruct oi as [|kv oi]; cbn [py_items].
    + do 2 eexists. exists d. split; [reflexivity|]. split; [solve_logs|].
      split; [reflexivity|].
      cbn [prints flat_map app last]. reflexivity.
    + match goal with
      | |- context [print_items W str_title ?ind (kv :: oi) ?s] =>
          destruct (print_items_total W str_title ind (kv :: oi) s)
            as (st' & evs & Hrun & Hlog)
      end.
      rewrite Hrun. unfold logs in Hlog. subst st'. cbn [jobs jobs_file events].
      do 2 eexists. exists d. split; [reflexivity|]. split; [solve_logs|].
      split; [reflexivity|].
      rewrite !app_comm_cons. apply Hlast.
Qed.

Lemma show_job_details_missing_url_witness :
  exists st' evs description,
    Manager.show_job_details offline lower 2 (init (Some [PyInt 7; older_record]))
      = (Exn (mkExn KeyError "url"), st') /\
    logs (init (Some [PyInt 7; older_record])) st' evs /\
    py_item older_record "description" = Val description /\
    last (prints evs) "" = NL ++ "Description:" ++ NL ++ py_str offline description.
Proof.
  apply (proj2 (show_job_details_missing_url
                  offline lower 2 (init (Some [PyInt 7; older_record])))
               older_record).
  - lia.
  - reflexivity.
  - exact older_record_shaped.
Defined.

(** *** The handlers of the server *)

Lemma respond_handled (W : world) (file : option (list pyval)) (failed : string)
      (st : tracker) (out : result bool * tracker) :
  jobs st = load_jobs file -> jobs_file st = file ->
  pipeline_frame W st out ->
  handled W file failed
          (match out with
           | (Val success, st') => Server.respond success failed st'
           | (Exn e, st') => (Exn e, st')
           end).
Proof.
  intros Hj Hf H. destruct out as [[[|]|e] st']; cbn [pipeline_frame] in H.
  - destruct H as (record & Hmade & Hdup & Hjobs & Hfile).
    unfold Server.respond, Server.last_job, bind, ret.
    rewrite Hjobs, rev_unit. cbn [handled].
    left. exists record. rewrite Hfile, Hjobs, <- Hj. auto.
  - destruct H as [_ Hfile]. cbn. right. split; [reflexivity | congruence].
  - destruct H as [_ Hfile]. cbn. congruence.
Qed.

(** X10.  The two handlers of the server that take a URL or a text.  A
    missing or empty field is answered with the handler's first error
    ("Text is required", "URL is required") and touches nothing.  For a
    field that is there, the answer is a success only when a record made by
    the pipeline, which the duplicate test let through, was appended to the
    content of the file and written back, and the answer carries that
    record (the index [-1] is never out of range); in every other case, the
    handler's second error or an exception, the file is as it was.  A text
    of fewer than 50 characters always gets the second error. *)
Theorem handlers_report_what_they_stored (W : world) (file : option (list pyval)) :
  (forall text,
      text = None \/ text = Some "" ->
      Server.process_text W text file
      = (Val (Server.failure "Text is required"), init file)) /\
  (forall url,
      url = None \/ url = Some "" ->
      Server.process_url W url file
      = (Val (Server.failure "URL is required"), init file)) /\
  (forall text,
      text <> "" ->
      handled W file "Failed to process text" (Server.process_text W (Some text) file)) /\
  (forall url,
      url <> "" ->
      handled W file "Failed to process URL" (Server.process_url W (Some url) file)) /\
  (forall text,
      text <> "" ->
      len text < 50 ->
      fst (Server.process_text W (Some text) file)
      = Val (Server.failure "Failed to process text")).
Proof.
  split; [|split; [|split; [|split]]].
  - intros text [-> | ->]; reflexivity.
  - intros url [-> | ->]; reflexivity.
  - intros t Ht. unfold Server.process_text.
    destruct (String.eqb_spec t ""); [contradiction|].
    unfold bind at 1.
    pose proof (add_job_from_text_pipeline_frame W t (init file)) as H.
    apply (respond_handled W file "Failed to process text") in H; try reflexivity.
    destruct (add_job_from_text W t (init file)) as [[b|e] st']; exact H.
  - intros u Hu. unfold Server.process_url.
    destruct (String.eqb_spec u ""); [contradiction|].
    unfold bind at 1.
    pose proof (add_job_from_url_pipeline_frame W u (init file)) as H.
    apply (respond_handled W file "Failed to process URL") in H; try reflexivity.
    destruct (add_job_from_url W u (init file)) as [[b|e] st']; exact H.
  - intros text Ht Hlen. unfold Server.process_text.
    destruct (String.eqb_spec text ""); [contradiction|].
    unfold add_job_from_text. apply Nat.ltb_lt in Hlen. run. rewrite Hlen.
    reflexivity.
Qed.

(** *** Blank content *)

Lemma all_space_app (s t : string) :
  all_space (s ++ t) = all_space s && all_space t.
Proof.
  induction s as [|c s IH]; [reflexivity|].
  cbn [String.append all_space]. rewrite IH. apply andb_assoc.
Qed.

Lemma strip_blank (s : string) : strip s = "" <-> all_space s = true.
Proof.
  unfold strip. induction s as [|c s IH]; [split; reflexivity|].
  cbn [lstrip all_space]. destruct (isspace c) eqn:E; [exact IH|].
  rewrite rstrip_cons_nonspace by exact E. split; discriminate.
Qed.

Lemma pages_blank (pages : list string) (acc : string) :
  all_space (fold_left (fun acc page => acc ++ page ++ NL)%string pages acc)
  = all_space acc && forallb all_space pages.
Proof.
  revert acc. induction pages as [|p pages IH]; intros acc; cbn [fold_left forallb].
  - symmetry. apply andb_true_r.
  - rewrite IH, !all_space_app. change (all_space NL) with true.
    rewrite andb_true_r. symmetry. apply andb_assoc.
Qed.

(** X11.  A PDF from which no text is obtained is dropped before anything
    else happens.  When the reading fails (the reader raises, or PyPDF2 is
    missing and its installation or the reading after it raises), or every
    page is blank (a scanned document), [add_job_from_pdf] returns [False]
    without calling the inference service and without touching the store.
    It prints "Processing PDF...", then "PyPDF2 not installed.
    Installing..." when the import failed, then the message of the failure
    if there was one ("Error reading PDF: ..." with PyPDF2 installed,
    "Failed to install PyPDF2: ..." without); for blank pages there is no
    further line. *)
Theorem textless_pdf_rejected (W : world) (pdf_path : string) (st : tracker) :
  textless W pdf_path ->
  exists st' evs,
    add_job_from_pdf W pdf_path st = (Val false, st') /\
    logs st st' evs /\
    posts evs = [] /\
    prints evs = textless_report W pdf_path.
Proof.
  unfold textless, textless_report, pdf_read, add_job_from_pdf, extract_from_pdf.
  intros H.
  assert (Hblank : forall pages, forallb all_space pages = true -> pdf_text pages = "").
  { intros pages Hp. unfold pdf_text. apply strip_blank. rewrite pages_blank. exact Hp. }
  destruct (pypdf2_installed W).
  - destruct (pdf_pages W pdf_path) as [pages|e]; run.
    + rewrite (Hblank pages H). cbn [String.eqb negb].
      do 2 eexists. split; [reflexivity|]. split; [solve_logs|].
      split; reflexivity.
    + do 2 eexists. split; [reflexivity|]. split; [solve_logs|].
      split; reflexivity.
  - destruct (rbind (pip_install W) (fun _ => pdf_pages W pdf_path)) as [pages|e]; run.
    + rewrite (Hblank pages H). cbn [String.eqb negb].
      do 2 eexists. split; [reflexivity|]. split; [solve_logs|].
      split; reflexivity.
    + do 2 eexists. split; [reflexivity|]. split; [solve_logs|].
      split; reflexivity.
Qed.

Lemma textless_pdf_rejected_witness :
  textless scanned_after_install "scan.pdf" /\
  exists st' evs,
    add_job_from_pdf scanned_after_install "scan.pdf" (init None) = (Val false, st') /\
    logs (init None) st' evs /\
    posts evs = [] /\
    prints evs = textless_report scanned_after_install "scan.pdf".
Proof.
  split; [reflexivity|].
  apply (textless_pdf_rejected scanned_after_install "scan.pdf" (init None)).
  reflexivity.
Defined.

(** The three ways of a scanned document: PyPDF2 installed, installed on
    the way, and not to be installed. *)
Example scanned_pdf_reports :
  textless_report scanned "scan.pdf" = ["Processing PDF..."] /\
  textless_report scanned_after_install "scan.pdf"
    = ["Processing PDF..."; "PyPDF2 not installed. Installing..."] /\
  textless_report no_pip "scan.pdf"
    = ["Processing PDF..."; "PyPDF2 not installed. Installing...";
       "Failed to install PyPDF2: returned non-zero exit status 1"] /\
  prints (events (snd (add_job_from_pdf no_pip "scan.pdf" (init None))))
    = textless_report no_pip "scan.pdf".
Proof. repeat split; reflexivity. Qed.

(** *** The answer of the model *)

(** X12.  What "format the data" makes of the model's object.  Anything
    but a JSON object is an [AttributeError].  For an object, title and
    company are taken as they are, whatever their type, with the sentinels
    only for an absent key; the description is cut to 500 and is the only
    field that can make the formatting fail (when it is neither a string
    nor a list); [other_info] holds the optional fields that are present
    and truthy, in the order location, salary, requirements, job_type,
    and nothing else of the object. *)
Theorem format_data_closed_form (job_data : pyval) :
  match job_data with
  | PyDict d =>
      format_data job_data
      = rbind (py_slice_to 500 (or_default d "description"
                                           (PyStr "No description found")))
              (fun description =>
                 Val (make_draft (or_default d "title" (PyStr "Unknown Title"))
                                 (or_default d "company" (PyStr "Unknown Company"))
                                 description
                                 (copied d "location" ++ copied d "salary" ++
                                  copied d "requirements" ++ copied d "job_type")%list))
  | _ =>
      format_data job_data
      = Exn (mkExn AttributeError "object has no attribute 'get'")
  end.
Proof.
  destruct job_data as [|b|z|q|s|l|d]; try reflexivity.
  unfold format_data, or_default, copied, optional_fields.
  cbn [py_get rbind].
  destruct (py_slice_to 500 _) as [desc|e]; cbn [rbind]; [|reflexivity].
  cbn [copy_optional py_get py_item rbind].
  destruct (dict_lookup "location" d) as [v1|]; [destruct (truthy v1)|];
    cbn [truthy rbind dict_set app];
    (destruct (dict_lookup "salary" d) as [v2|]; [destruct (truthy v2)|];
     cbn [truthy rbind dict_set app String.eqb Ascii.eqb Bool.eqb];
     (destruct (dict_lookup "requirements" d) as [v3|]; [destruct (truthy v3)|];
      cbn [truthy rbind dict_set app String.eqb Ascii.eqb Bool.eqb];
      (destruct (dict_lookup "job_type" d) as [v4|]; [destruct (truthy v4)|];
       cbn [truthy rbind dict_set app String.eqb Ascii.eqb Bool.eqb];
       reflexivity))).
Qed.

Lemma find_from_absent (c : ascii) (s : string) (i : Z) :
  has_char c s = false -> find_from c s i = (-1)%Z.
Proof.
  revert i. induction s as [|a s IH]; intros i H; [reflexivity|].
  cbn [has_char] in H. apply orb_false_elim in H. destruct H as [Ha Hs].
  cbn [find_from]. rewrite Ha. apply IH. exact Hs.
Qed.

Lemma find_from_first (c : ascii) (pre rest : string) (i : Z) :
  has_char c pre = false ->
  find_from c (pre ++ String c rest) i = (i + Z.of_nat (len pre))%Z.
Proof.
  revert i. induction pre as [|a pre IH]; intros i H.
  - cbn [String.append find_from]. rewrite Ascii.eqb_refl. cbn. lia.
  - cbn [has_char] in H. apply orb_false_elim in H. destruct H as [Ha Hs].
    cbn [String.append find_from]. rewrite Ha, (IH _ Hs).
    unfold len. cbn [String.length]. lia.
Qed.

Lemma rfind_from_absent (c : ascii) (s : string) (i last : Z) :
  has_char c s = false -> rfind_from c s i last = last.
Proof.
  revert i last. induction s as [|a s IH]; intros i last H; [reflexivity|].
  cbn [has_char] in H. apply orb_false_elim in H. destruct H as [Ha Hs].
  cbn [rfind_from]. rewrite Ha. apply IH. exact Hs.
Qed.

Lemma rfind_from_last (c : ascii) (pre post : string) (i last : Z) :
  has_char c post = false ->
  rfind_from c (pre ++ String c post) i last = (i + Z.of_nat (len pre))%Z.
Proof.
  intros H. revert i last. induction pre as [|a pre IH]; intros i last.
  - cbn [String.append rfind_from]. rewrite Ascii.eqb_refl.
    rewrite (rfind_from_absent _ _ _ _ H). cbn. lia.
  - cbn [String.append rfind_from]. rewrite IH.
    unfold len. cbn [String.length]. lia.
Qed.

Lemma drop_app (pre s : string) : drop (len pre) (pre ++ s) = s.
Proof. induction pre as [|a pre IH]; [destruct s; reflexivity | exact IH]. Qed.

Lemma take_app (s post : string) : take (len s) (s ++ post) = s.
Proof.
  induction s as [|a s IH]; [destruct post; reflexivity|].
  cbn [len String.length take String.append]. f_equal. exact IH.
Qed.

Lemma app_assoc_string (a b c : string) : ((a ++ b) ++ c = a ++ (b ++ c))%string.
Proof. induction a as [|x a IH]; [reflexivity | cbn; f_equal; exact IH]. Qed.

(** The span between the first opening and the last closing brace. *)
Lemma parse_body_span (W : world) (pre mid post : string) :
  has_char "{" pre = false -> has_char "}" post = false ->
  parse_body W (pre ++ "{" ++ mid ++ "}" ++ post)
  = rbind (json_loads W ("{" ++ mid ++ "}")) (fun job_data =>
    rbind (format_data job_data) (fun formatted_data =>
    Val (Some formatted_data))).
Proof.
  intros Hpre Hpost. unfold parse_body, find, rfind.
  cbn [String.append].
  rewrite (find_from_first "{" pre _ 0 Hpre).
  replace (pre ++ String "{" (mid ++ String "}" post))%string
    with ((pre ++ String "{" mid) ++ String "}" post)%string
    by (rewrite app_assoc_string; reflexivity).
  rewrite (rfind_from_last "}" _ post 0 (-1) Hpost).
  rewrite len_app. change (len (String "{" mid)) with (S (len mid)).
  replace ((0 <=? 0 + Z.of_nat (len pre))%Z
           && (0 + Z.of_nat (len pre) <? 0 + Z.of_nat (len pre + S (len mid)) + 1)%Z)
    with true by (symmetry; apply andb_true_intro; split; [apply Z.leb_le | apply Z.ltb_lt]; lia).
  replace (Z.to_nat (0 + Z.of_nat (len pre))) with (len pre) by lia.
  replace (Z.to_nat (0 + Z.of_nat (len pre + S (len mid)) + 1))
    with (len pre + len (String "{" (mid ++ "}"))).
  2:{ change (len (String "{" (mid ++ "}"))) with (S (len (mid ++ "}"))).
      rewrite len_app. change (len "}") with 1. lia. }
  unfold slice. rewrite app_assoc_string. cbn [String.append].
  rewrite drop_app.
  replace (len pre + len (String "{" (mid ++ "}")) - len pre)
    with (len (String "{" (mid ++ "}"))) by lia.
  replace (String "{" (mid ++ String "}" post))
    with (String "{" (mid ++ "}") ++ post)%string.
  2:{ cbn [String.append]. rewrite app_assoc_string. reflexivity. }
  rewrite take_app. reflexivity.
Qed.

(** X13.  Prose around the JSON object is ignored.  Whatever stands before
    the first opening brace and behind the last closing brace of the
    model's answer has no influence: the answer is parsed as the span
    between the two alone would be. *)
Theorem answer_prose_is_ignored (W : world) (pre mid post : string) (st : tracker) :
  has_char "{" pre = false ->
  has_char "}" post = false ->
  parse_ollama_response W (pre ++ "{" ++ mid ++ "}" ++ post) st
  = parse_ollama_response W ("{" ++ mid ++ "}") st.
Proof.
  intros Hpre Hpost. unfold parse_ollama_response.
  rewrite (parse_body_span W pre mid post Hpre Hpost).
  pose proof (parse_body_span W "" mid "" eq_refl eq_refl) as H.
  cbn [String.append] in H |- *.
  replace (mid ++ "}" ++ "")%string with (mid ++ "}")%string in H
    by (cbn [String.append]; reflexivity).
  rewrite H. reflexivity.
Qed.

Lemma answer_prose_is_ignored_witness :
  parse_ollama_response offline ("Sure! " ++ "{" ++ "}" ++ " Hope this helps.") (init None)
  = parse_ollama_response offline ("{" ++ "}") (init None).
Proof.
  apply (answer_prose_is_ignored offline "Sure! " "" " Hope this helps." (init None));
    reflexivity.
Defined.

(** X14.  An answer without an opening brace, or without a closing one,
    is no answer: the parser returns [None] without raising and without
    printing. *)
Theorem answer_without_object (W : world) (response_text : string) (st : tracker) :
  has_char "{" response_text = false \/ has_char "}" response_text = false ->
  parse_ollama_response W response_text st = (Val None, st).
Proof.
  intros H. unfold parse_ollama_response, parse_body, find, rfind.
  destruct H as [H|H].
  - rewrite (find_from_absent _ _ _ H). reflexivity.
  - rewrite (rfind_from_absent _ _ _ _ H).
    replace ((0 <=? find_from "{" response_text 0)%Z
             && (find_from "{" response_text 0 <? -1 + 1)%Z) with false; [reflexivity|].
    symmetry. apply andb_false_iff.
    destruct (Z.leb_spec 0 (find_from "{" response_text 0)); [right | left; reflexivity].
    apply Z.ltb_ge. lia.
Qed.

Lemma answer_without_object_witness :
  parse_ollama_response offline "I cannot help with that." (init None)
  = (Val None, init None).
Proof.
  apply (answer_without_object offline "I cannot help with that." (init None)).
  left. reflexivity.
Defined.

(** *** The text of a page *)

Section Cleaning.

Variable fl : Re.flags.

Lemma lower_char_lt (c : ascii) : lower_char c = "<"%char -> c = "<"%char.
Proof.
  destruct c as [[] [] [] [] [] [] [] []]; vm_compute; intros H;
    first [reflexivity | discriminate H].
Qed.

Lemma rmatch_needs_lt (r : Re.regex) :
  begins_with "<" r = true ->
  forall st k,
    match Re.m_rest st with
    | String c _ => c <> "<"%char
    | EmptyString => True
    end ->
    Re.rmatch fl r st k = None.
Proof.
  induction r as [| x | | | | r1 IH1 r2 _ | | |]; cbn [begins_with];
    try discriminate; intros Hb st k Hst.
  - apply Ascii.eqb_eq in Hb. subst x. cbn [Re.rmatch]. unfold Re.one.
    destruct (Re.m_rest st) as [|c rest]; [reflexivity|].
    destruct (Re.IGNORECASE fl).
    + destruct (Ascii.eqb_spec (lower_char c) (lower_char "<")) as [E|E];
        [|reflexivity].
      exfalso. apply Hst. apply lower_char_lt. exact E.
    + destruct (Ascii.eqb_spec c "<") as [E|E]; [contradiction | reflexivity].
  - cbn [Re.rmatch]. apply IH1; assumption.
Qed.

Lemma sub_from_no_lt (r : Re.regex) (repl : string) :
  begins_with "<" r = true ->
  forall s prev left pos,
    has_char "<" s = false ->
    Re.sub_from fl r repl prev s left pos 0 = s.
Proof.
  intros Hb. induction s as [|c s IH]; intros prev left pos H; cbn [Re.sub_from].
  - rewrite (rmatch_needs_lt r Hb) by exact I. reflexivity.
  - cbn [has_char] in H. apply orb_false_elim in H. destruct H as [Hc Hs].
    rewrite (rmatch_needs_lt r Hb).
    + rewrite IH by exact Hs. reflexivity.
    + cbn [Re.m_rest]. intros E. subst c. discriminate Hc.
Qed.

(** One run of whitespace: the greedy repeat takes all of it. *)
Lemma rep_whitespace (fuel : nat) :
  forall st0 n,
    blanks (Re.m_rest st0) < fuel ->
    match Re.rep_loop (Re.rmatch fl (Re.Cls false [Re.CSpace])) true 1 None
                      (fun st => Some st) fuel n st0 with
    | Some st' =>
        Re.m_pos st' = (Re.m_pos st0 + N.of_nat (blanks (Re.m_rest st0)))%N /\
        1 <= n + blanks (Re.m_rest st0)
    | None => n + blanks (Re.m_rest st0) = 0
    end.
Proof.
  induction fuel as [|fuel IH]; intros st0 n Hf; [lia|].
  cbn [Re.rep_loop Re.below Re.rmatch]. unfold Re.one.
  assert (Hstop : blanks (Re.m_rest st0) = 0 ->
                  match (if 1 <=? n then Some st0 else None) with
                  | Some st' =>
                      Re.m_pos st' = (Re.m_pos st0 + N.of_nat (blanks (Re.m_rest st0)))%N /\
                      1 <= n + blanks (Re.m_rest st0)
                  | None => n + blanks (Re.m_rest st0) = 0
                  end).
  { intros ->. destruct (Nat.leb_spec 1 n); [split; lia | lia]. }
  destruct (Re.m_rest st0) as [|c rest] eqn:Hrest; [apply Hstop; reflexivity|].
  unfold Re.class_match. cbn [existsb Re.item_match xorb]. rewrite orb_false_r.
  cbn [blanks] in *. destruct (isspace c) eqn:Hc; [|apply Hstop; reflexivity].
  replace (Re.m_pos (Re.advance st0 c rest) =? Re.m_pos st0)%N with false
    by (symmetry; apply N.eqb_neq; cbn; lia).
  specialize (IH (Re.advance st0 c rest) (S n)). cbn [Re.advance Re.m_rest Re.m_pos] in IH.
  assert (Hlt : blanks rest < fuel) by lia. specialize (IH Hlt).
  destruct (Re.rep_loop _ true 1 None _ fuel (S n) _) as [st'|].
  - destruct IH as [Hp _]. split; [rewrite Hp; lia | lia].
  - lia.
Qed.

Lemma blanks_le (s : string) : blanks s <= len s.
Proof.
  induction s as [|c s IH]; [apply Nat.le_refl|].
  cbn [blanks]. unfold len in *. cbn [String.length].
  destruct (isspace c); lia.
Qed.

Lemma sub_whitespace (s : string) :
  forall prev pos,
    Re.sub_from fl (Re.Rep true (Re.Cls false [Re.CSpace]) 1 None) " "
                prev s (len s) pos 0 = collapse false s /\
    Re.sub_from fl (Re.Rep true (Re.Cls false [Re.CSpace]) 1 None) " "
                prev s (len s) pos (blanks s) = collapse true s.
Proof.
  induction s as [|c s IH]; intros prev pos.
  - cbn [blanks]. split; cbn [Re.sub_from Re.rmatch Re.m_left len String.length];
      (pose proof (rep_whitespace 1 (Re.mkM prev "" 0 pos None) 0) as H;
       cbn [Re.m_rest blanks Re.m_pos] in H; specialize (H (Nat.lt_0_1));
       destruct (Re.rep_loop _ true 1 None _ 1 0 _); [lia | reflexivity]).
  - assert (Hzero :
      Re.sub_from fl (Re.Rep true (Re.Cls false [Re.CSpace]) 1 None) " "
                  prev (String c s) (len (String c s)) pos 0
      = collapse false (String c s)).
    { cbn [Re.sub_from Re.rmatch Re.m_left].
      pose proof (rep_whitespace (S (len (String c s)))
                    (Re.mkM prev (String c s) (len (String c s)) pos None) 0) as H.
      cbn [Re.m_rest Re.m_pos] in H.
      pose proof (blanks_le (String c s)) as Hle.
      specialize (H ltac:(lia)).
      destruct (Re.rep_loop _ true 1 None _ (S (len (String c s))) 0 _) as [st'|].
      - destruct H as [Hp Hn]. rewrite Hp.
        replace (N.to_nat (pos + N.of_nat (blanks (String c s)) - pos))
          with (blanks (String c s)) by lia.
        cbn [blanks collapse] in *. destruct (isspace c); [|lia].
        change (Nat.pred (len (String c s))) with (len s).
        rewrite (proj2 (IH (Some c) (N.succ pos))). reflexivity.
      - cbn [blanks collapse] in *. destruct (isspace c); [lia|].
        change (Nat.pred (len (String c s))) with (len s).
        rewrite (proj1 (IH (Some c) (N.succ pos))). reflexivity. }
    split; [exact Hzero|].
    cbn [blanks]. destruct (isspace c) eqn:Hc.
    + cbn [Re.sub_from collapse]. rewrite Hc.
      change (Nat.pred (len (String c s))) with (len s).
      apply (proj2 (IH (Some c) (N.succ pos))).
    + rewrite Hzero. cbn [collapse]. rewrite Hc. reflexivity.
Qed.

End Cleaning.

Lemma re_sub_no_lt (pattern repl s : string) (fl : Re.flags) (r : Re.regex) :
  Re.re_compile pattern = Some r -> begins_with "<" r = true ->
  has_char "<" s = false ->
  re_sub pattern repl s fl = Val s.
Proof.
  intros Hc Hb Hs. unfold re_sub. rewrite Hc. unfold Re.sub.
  rewrite (sub_from_no_lt fl r repl Hb) by exact Hs. reflexivity.
Qed.

Lemma re_sub_whitespace (s : string) :
  re_sub "\s+" " " s Re.no_flags = Val (collapse false s).
Proof.
  unfold re_sub.
  replace (Re.re_compile "\s+")
    with (Some (Re.Rep true (Re.Cls false [Re.CSpace]) 1 None))
    by (vm_compute; reflexivity).
  unfold Re.sub. f_equal. apply (sub_whitespace Re.no_flags s None 0%N).
Qed.

Lemma spaced_inside_collapse (s : string) :
  forall b, spaced_inside b (collapse b s) = true.
Proof.
  induction s as [|c s IH]; intros b; [reflexivity|].
  cbn [collapse]. destruct (isspace c) eqn:Hc.
  - destruct b; [apply IH|]. cbn [spaced_inside]. rewrite IH. reflexivity.
  - cbn [spaced_inside]. rewrite Hc. apply IH.
Qed.

Lemma spaced_inside_lstrip (s : string) :
  forall b, spaced_inside b s = true -> spaced_inside true (lstrip s) = true.
Proof.
  induction s as [|c s IH]; intros b H; [reflexivity|].
  cbn [lstrip]. cbn [spaced_inside] in H. destruct (isspace c) eqn:Hc.
  - apply andb_prop in H. destruct H as [_ H]. apply (IH true H).
  - cbn [spaced_inside]. rewrite Hc. exact H.
Qed.

Lemma spaced_rstrip (s : string) :
  forall b, spaced_inside b s = true ->
            rstrip s = "" \/ spaced b (rstrip s) = true.
Proof.
  induction s as [|c s IH]; intros b H; [left; reflexivity|].
  cbn [spaced_inside] in H. cbn [rstrip]. destruct (isspace c) eqn:Hc.
  - apply andb_prop in H. destruct H as [H1 H]. 
    destruct (IH true H) as [E|E].
    + rewrite E. left. reflexivity.
    + destruct (rstrip s) as [|x r] eqn:Hr; [left; reflexivity|].
      right. cbn [spaced]. rewrite Hc, H1. exact E.
  - right. destruct (IH false H) as [E|E].
    + rewrite E. cbn [spaced]. rewrite Hc. reflexivity.
    + destruct (rstrip s) as [|x r] eqn:Hr; cbn [spaced]; rewrite Hc; [reflexivity|].
      exact E.
Qed.

Lemma single_spaced_clean (t : string) :
  single_spaced (strip (collapse false t)) = true.
Proof.
  unfold strip.
  pose proof (spaced_inside_lstrip _ _ (spaced_inside_collapse t false)) as H.
  destruct (spaced_rstrip _ _ H) as [E|E]; [rewrite E; reflexivity|].
  unfold single_spaced. destruct (rstrip _); [reflexivity | exact E].
Qed.

Lemma extract_from_url_clean (W : world) (url : string) (st : tracker) :
  match extract_from_url W url st with
  | (Val (Some c), _) => exists t, c = strip (collapse false t)
  | (Val None, _) => True
  | (Exn _, _) => False
  end.
Proof.
  unfold extract_from_url. run.
  destruct (requests_get W url) as [resp|e]; run; [|exact I].
  destruct (re_sub "<script[^>]*>.*?</script>" "" (text resp) SI) as [h1|e]; run;
    [|exact I].
  destruct (re_sub "<style[^>]*>.*?</style>" "" h1 SI) as [h2|e]; run; [|exact I].
  destruct (re_sub "<[^>]+>" " " h2 Re.no_flags) as [t1|e]; run; [|exact I].
  rewrite re_sub_whitespace. run. exists t1. reflexivity.
Qed.

(** X15.  The text that [extract_from_url] returns is normalised: whatever
    the page, it is empty or a sequence of words separated by single
    spaces, with no other whitespace, none at its head and none at its
    end.  The function never raises. *)
Theorem url_text_is_single_spaced (W : world) (url : string) (st : tracker) :
  exists content st',
    extract_from_url W url st = (Val content, st') /\
    forall c, content = Some c -> single_spaced c = true.
Proof.
  pose proof (extract_from_url_clean W url st) as H.
  destruct (extract_from_url W url st) as [[[c|]|e] st']; [| |contradiction].
  - destruct H as (t & ->). do 2 eexists. split; [reflexivity|].
    intros c Hc. inversion Hc; subst c. apply single_spaced_clean.
  - do 2 eexists. split; [reflexivity|]. intros c Hc. discriminate Hc.
Qed.

Lemma extract_from_url_plain (W : world) (url : string) (resp : response)
      (st : tracker) :
  requests_get W url = Val resp ->
  has_char "<" (text resp) = false ->
  extract_from_url W url st
  = (Val (Some (strip (collapse false (text resp)))), after st (HttpGet url)).
Proof.
  intros Hget Hplain. unfold extract_from_url. run. rewrite Hget. run.
  rewrite (re_sub_no_lt "<script[^>]*>.*?</script>" "" (text resp) SI _
             ltac:(vm_compute; reflexivity) eq_refl Hplain). run.
  rewrite (re_sub_no_lt "<style[^>]*>.*?</style>" "" (text resp) SI _
             ltac:(vm_compute; reflexivity) eq_refl Hplain). run.
  rewrite (re_sub_no_lt "<[^>]+>" " " (text resp) Re.no_flags _
             ltac:(vm_compute; reflexivity) eq_refl Hplain). run.
  rewrite re_sub_whitespace. reflexivity.
Qed.

Lemma collapse_spaced (s : string) :
  forall b, spaced b s = true -> collapse b s = s.
Proof.
  induction s as [|c s IH]; intros b H; [reflexivity|].
  cbn [spaced] in H. cbn [collapse]. destruct (isspace c) eqn:Hc.
  - apply andb_prop in H. destruct H as [H1 H]. apply andb_prop in H1.
    destruct H1 as [Hsp Hb]. apply Ascii.eqb_eq in Hsp. subst c.
    destruct b; [discriminate Hb|]. rewrite (IH true H). reflexivity.
  - rewrite (IH false H). reflexivity.
Qed.

Lemma rstrip_spaced (s : string) :
  forall b, spaced b s = true -> rstrip s = s.
Proof.
  induction s as [|c s IH]; intros b H; [reflexivity|].
  cbn [spaced] in H. cbn [rstrip]. destruct (isspace c) eqn:Hc.
  - apply andb_prop in H. destruct H as [_ H]. rewrite (IH true H).
    destruct s; [discriminate H | reflexivity].
  - rewrite (IH false H). destruct s; reflexivity.
Qed.

Lemma strip_single_spaced (s : string) :
  single_spaced s = true -> strip (collapse false s) = s.
Proof.
  destruct s as [|c s]; [reflexivity|]. unfold single_spaced. intros H.
  assert (Hc : isspace c = false).
  { cbn [spaced] in H. destruct (isspace c); [|reflexivity].
    rewrite andb_false_r in H. discriminate H. }
  assert (Hf : spaced false (String c s) = true).
  { cbn [spaced] in H |- *. rewrite Hc in H |- *. exact H. }
  rewrite (collapse_spaced _ false Hf). unfold strip.
  rewrite lstrip_cons_nonspace by exact Hc. apply (rstrip_spaced _ true H).
Qed.

(** X16.  A page without markup is only normalised.  When the body that the
    server returns holds no "<", whatever its status, the three tag
    patterns change nothing, and the content is the body with every run of
    whitespace collapsed into one space and the ends stripped; a body that
    is normalised already is returned as it is. *)
Theorem plain_page_is_normalised (W : world) (url : string) (resp : response)
        (st : tracker) :
  requests_get W url = Val resp ->
  has_char "<" (text resp) = false ->
  extract_from_url W url st
  = (Val (Some (strip (collapse false (text resp)))), after st (HttpGet url)) /\
  (single_spaced (text resp) = true ->
   extract_from_url W url st = (Val (Some (text resp)), after st (HttpGet url))).
Proof.
  intros Hget Hplain.
  pose proof (extract_from_url_plain W url resp st Hget Hplain) as H.
  split; [exact H|]. intros Hs. rewrite H, (strip_single_spaced _ Hs). reflexivity.
Qed.

Lemma plain_page_is_normalised_witness :
  extract_from_url plain_page job_url (init None)
  = (Val (Some "Backend Engineer at Acme Corp."), after (init None) (HttpGet job_url)) /\
  (single_spaced plain_text = true ->
   extract_from_url plain_page job_url (init None)
   = (Val (Some plain_text), after (init None) (HttpGet job_url))).
Proof.
  apply (plain_page_is_normalised plain_page job_url
           (mkResponse 200 plain_text not_json) (init None)); reflexivity.
Defined.

Lemma all_space_no_lt (s : string) : all_space s = true -> has_char "<" s = false.
Proof.
  induction s as [|c s IH]; [reflexivity|].
  cbn [all_space has_char]. intros H. apply andb_prop in H. destruct H as [Hc Hs].
  rewrite (IH Hs), orb_false_r.
  destruct (Ascii.eqb_spec c "<") as [E|E]; [subst c; discriminate Hc | reflexivity].
Qed.

Lemma all_space_collapse (s : string) :
  all_space s = true -> forall b, all_space (collapse b s) = true.
Proof.
  induction s as [|c s IH]; [reflexivity|].
  cbn [all_space collapse]. intros H b. apply andb_prop in H. destruct H as [Hc Hs].
  rewrite Hc. destruct b; [apply IH; exact Hs|].
  cbn [all_space]. apply IH. exact Hs.
Qed.

(** X17.  A page of whitespace is dropped before anything else happens:
    when the body that the server returns is blank (or empty),
    [add_job_from_url] returns [False] after the request, without a
    message, without calling the inference service and without touching
    the store. *)
Theorem blank_page_rejected (W : world) (url : string) (resp : response)
        (st : tracker) :
  requests_get W url = Val resp ->
  all_space (text resp) = true ->
  exists st',
    add_job_from_url W url st = (Val false, st') /\
    logs st st' [Print "Processing URL..."; HttpGet url].
Proof.
  intros Hget Hblank. unfold add_job_from_url. unfold bind at 1 2. unfold print at 1, emit.
  rewrite (extract_from_url_plain W url resp _ Hget (all_space_no_lt _ Hblank)).
  replace (strip (collapse false (text resp))) with "".
  2:{ symmetry. apply strip_blank. apply all_space_collapse. exact Hblank. }
  cbn [String.eqb negb]. eexists. split; [reflexivity | unfold after; solve_logs].
Qed.

Lemma blank_page_rejected_witness :
  exists st',
    add_job_from_url blank_page job_url (init None) = (Val false, st') /\
    logs (init None) st' [Print "Processing URL..."; HttpGet job_url].
Proof.
  apply (blank_page_rejected blank_page job_url
           (mkResponse 200 ("  " ++ NL ++ " ") not_json) (init None)); reflexivity.
Defined.

(** *** The message for a failed extraction *)

(** Decomposes a run into its steps; the messages that remain to be told
    apart from [extraction_failed] differ from it within their first
    characters. *)
Ltac told_apart :=
  try match goal with
    | |- other_than extraction_failed _ =>
        unfold other_than, extraction_failed; cbn [String.append];
        let H := fresh in intros H; discriminate H
    end.

Ltac unfailing := emits_steps; told_apart.

Section Unfailing.

Variable W : world.

Lemma unfailing_parse (response_text : string) :
  emits (other_than extraction_failed) (parse_ollama_response W response_text).
Proof. unfold parse_ollama_response. unfailing. Qed.

Lemma unfailing_model_loop (ms : list string) (prompt : string) :
  emits (other_than extraction_failed) (model_loop W ms prompt).
Proof.
  induction ms as [|m ms IH]; cbn [model_loop]; [apply emits_ret|].
  apply emits_bind; [|intros [d|]; [apply emits_ret | exact IH]].
  apply emits_try_except; [|intros e; unfold model_failed; unfailing].
  unfold try_model. unfailing. apply unfailing_parse.
Qed.

Lemma unfailing_try_ollama (content : string) :
  emits (other_than extraction_failed) (try_ollama_extraction W content).
Proof.
  unfold try_ollama_extraction. generalize (seq 0 max_retries) as attempts.
  induction attempts as [|a l IH]; cbn [attempt_loop]; [apply emits_ret|].
  apply emits_bind; [|intros [d|]; [apply emits_ret | exact IH]].
  unfold attempt_body. unfailing. apply unfailing_model_loop.
Qed.

Lemma unfailing_extract_job_info (content source_type source : string) :
  emits (other_than extraction_failed) (extract_job_info_from_content W content source_type source).
Proof.
  unfold extract_job_info_from_content, extract_with_ollama, fallback_extraction.
  unfailing; apply unfailing_try_ollama.
Qed.

Lemma unfailing_save_record (record : pyval) :
  made_by_pipeline W record -> emits (other_than extraction_failed) (save_job_info W (Some record)).
Proof.
  intros (t & c & d & oi & sty & src & -> & _ & _).
  unfold save_job_info. cbn [truthy record_of app].
  change (py_item (PyDict (("title", t) :: ("company", c) :: ("description", d)
                           :: ("other_info", PyDict oi) :: provenance W sty src)) "title")
    with (Val t).
  change (py_item (PyDict (("title", t) :: ("company", c) :: ("description", d)
                           :: ("other_info", PyDict oi) :: provenance W sty src)) "company")
    with (Val c).
  unfailing.
Qed.

Lemma unfailing_extract_and_save (content source_type source : string) :
  In source_type ["url"; "pdf"; "text_file"; "text"] ->
  emits (other_than extraction_failed) (bind (extract_job_info_from_content W content source_type source)
                (save_job_info W)).
Proof.
  intros Hin st. unfold bind.
  destruct (unfailing_extract_job_info content source_type source st)
    as (e1 & He1 & HP1).
  destruct (extract_job_info_record W content source_type source st)
    as (t & c & d & oi & st1 & evs & Hrun & _ & Hs).
  rewrite Hrun in He1 |- *. cbn [snd] in He1.
  assert (Hmade : made_by_pipeline W (record_of W t c d oi source_type source)).
  { unfold made_by_pipeline. exists t, c, d, oi, source_type, source. auto. }
  destruct (unfailing_save_record _ Hmade st1) as (e2 & He2 & HP2).
  exists (e1 ++ e2)%list. rewrite He2, He1, app_assoc. split; [reflexivity|].
  apply Forall_app; auto.
Qed.

Lemma unfailing_add_job_from_input (user_input : string) :
  emits (other_than extraction_failed) (add_job_from_input W user_input).
Proof.
  assert (Hin : forall s, In s ["url"; "pdf"; "text_file"; "text"] ->
                          forall content source,
                            emits (other_than extraction_failed) (bind (extract_job_info_from_content W content s source)
                                          (save_job_info W)))
    by (intros; apply unfailing_extract_and_save; assumption).
  unfold add_job_from_input, add_job_from_url, add_job_from_pdf,
    add_job_from_text_file, add_job_from_text, extract_from_url, extract_from_pdf.
  repeat first [apply Hin; cbn; tauto | emits_step]; told_apart.
Qed.

End Unfailing.

(** X18.  A submission never reports a failed extraction.  The message
    "Failed to extract job information" of [save_job_info] is for a
    missing record; the orchestrator always hands over a record, so no
    submission, whatever its input and whatever the world does, ever
    prints it. *)
Theorem extraction_never_reported_failed (W : world) (user_input : string)
        (st : tracker) :
  exists evs,
    events (snd (add_job_from_input W user_input st)) = (events st ++ evs)%list /\
    ~ In (Print "Failed to extract job information") evs.
Proof.
  destruct (unfailing_add_job_from_input W user_input st) as (evs & Hev & HP).
  exists evs. split; [exact Hev|].
  rewrite Forall_forall in HP. intros Hin. exact (HP _ Hin eq_refl).
Qed.

(** *** Records changed in place *)

Import Manager.

Lemma lookup_set_same (key : string) (v : pyval) (d : dict) :
  dict_lookup key (dict_set key v d) = Some v.
Proof.
  induction d as [|[k x] d IH]; cbn [dict_set dict_lookup].
  - rewrite String.eqb_refl. reflexivity.
  - destruct (String.eqb k key) eqn:E; cbn [dict_lookup]; rewrite E; [reflexivity | exact IH].
Qed.

Lemma lookup_set_other (key key' : string) (v : pyval) (d : dict) :
  key' <> key -> dict_lookup key (dict_set key' v d) = dict_lookup key d.
Proof.
  intros Hne. induction d as [|[k x] d IH]; cbn [dict_set dict_lookup].
  - destruct (String.eqb_spec key' key); [contradiction | reflexivity].
  - destruct (String.eqb k key') eqn:E; cbn [dict_lookup].
    + apply String.eqb_eq in E. subst k.
      destruct (String.eqb_spec key' key); [contradiction | reflexivity].
    + destruct (String.eqb k key); [reflexivity | exact IH].
Qed.

Lemma replace_nth_app (done todo : list pyval) (job x : pyval) :
  replace_nth (List.length done) x (done ++ job :: todo) = (done ++ x :: todo)%list.
Proof. induction done as [|y done IH]; cbn; [reflexivity | f_equal; exact IH]. Qed.

Lemma nth_error_middle (done todo : list pyval) (job : pyval) :
  nth_error (done ++ job :: todo) (List.length done) = Some job.
Proof. induction done as [|y done IH]; cbn; [reflexivity | exact IH]. Qed.

Lemma replace_nth_length (i : nat) (x : pyval) (l : list pyval) :
  List.length (replace_nth i x l) = List.length l.
Proof.
  revert i. induction l as [|y l IH]; intros [|i]; cbn; try reflexivity.
  f_equal. apply IH.
Qed.

Lemma replace_nth_other (i j : nat) (x : pyval) (l : list pyval) :
  j <> i -> nth_error (replace_nth i x l) j = nth_error l j.
Proof.
  revert i j. induction l as [|y l IH]; intros [|i] [|j] H; cbn; try reflexivity.
  - contradiction.
  - apply IH. intros E. apply H. f_equal. exact E.
Qed.

Lemma nth_error_split (l : list pyval) (i : nat) (job : pyval) :
  nth_error l i = Some job ->
  exists done todo, l = (done ++ job :: todo)%list /\ List.length done = i.
Proof.
  intros H. destruct (nth_error_split l i H) as (l1 & l2 & Hl & Hlen).
  exists l1, l2. auto.
Qed.

Section GhostedProofs.

Variable W : world.
Variable days_since : string -> option Z.

Lemma assign_middle (done todo : list pyval) (d : dict) (key : string) (x : pyval)
      (file : option (list pyval)) (evs : list event) :
  assign (List.length done) key x (mkTracker (done ++ PyDict d :: todo) file evs)
  = (Val tt, mkTracker (done ++ PyDict (dict_set key x d) :: todo) file evs).
Proof.
  unfold assign, get_job. run. rewrite nth_error_middle. cbn [py_setitem].
  cbn [jobs jobs_file events]. rewrite replace_nth_app. reflexivity.
Qed.

(** One iteration of the loop, with its [except]. *)
Lemma ghost_step (done todo : list pyval) (job : pyval)
      (file : option (list pyval)) (evs : list event) :
  try_except (ghost_body W days_since (List.length done)) (fun _ => ret false)
             (mkTracker (done ++ job :: todo) file evs)
  = (Val (due days_since job),
     mkTracker (done ++ ghosted W days_since job :: todo) file evs).
Proof.
  unfold ghost_body, ghosted, due, get_job. run. rewrite nth_error_middle.
  destruct job as [|b|z|q|s|l|d]; try reflexivity.
  destruct (py_item (PyDict d) "last_update") as [[| | | |s| |]|e]; try reflexivity.
  cbn [days_since_update]. destruct (days_since s) as [days|]; [|reflexivity].
  destruct (180 <=? days)%Z; [|reflexivity]. cbn [andb].
  destruct (py_item (PyDict d) "status") as [status|e]; [|reflexivity].
  destruct (is_open status); [|reflexivity].
  change (bind (assign (List.length done) "status" (PyStr "Ghosted")) ?f ?s)
    with (let (r, s1) := assign (List.length done) "status" (PyStr "Ghosted") s in
          match r with Val a => f a s1 | Exn e => (Exn e, s1) end).
  rewrite assign_middle.
  change (bind (assign (List.length done) "last_update" ?v) ?f ?s)
    with (let (r, s1) := assign (List.length done) "last_update" v s in
          match r with Val a => f a s1 | Exn e => (Exn e, s1) end).
  rewrite assign_middle. reflexivity.
Qed.

Lemma ghost_loop_spec (todo : list pyval) :
  forall done updated_count file evs,
    ghost_loop W days_since (List.length todo) (List.length done) updated_count
               (mkTracker (done ++ todo) file evs)
    = (Val (updated_count + List.length (filter (due days_since) todo)),
       mkTracker (done ++ map (ghosted W days_since) todo) file evs).
Proof.
  induction todo as [|job todo IH]; intros done c file evs.
  - cbn. rewrite Nat.add_0_r. reflexivity.
  - cbn [List.length ghost_loop]. unfold bind at 1. rewrite ghost_step.
    replace (S (List.length done))
      with (List.length (done ++ [ghosted W days_since job]))
      by (rewrite length_app; cbn; lia).
    replace (done ++ ghosted W days_since job :: todo)%list
      with ((done ++ [ghosted W days_since job]) ++ todo)%list
      by (rewrite <- app_assoc; reflexivity).
    rewrite IH. cbn [filter map]. rewrite <- app_assoc. cbn [app].
    destruct (due days_since job); cbn [List.length Nat.add];
      rewrite ?Nat.add_succ_r; reflexivity.
Qed.

Lemma check_ghosted_jobs_spec (st : tracker) :
  check_ghosted_jobs W days_since st
  = match List.length (filter (due days_since) (jobs st)) with
    | 0 => (Val tt, after st (Print "No jobs to mark as ghosted"))
    | S n =>
        (Val tt,
         mkTracker (map (ghosted W days_since) (jobs st))
                   (Some (map (ghosted W days_since) (jobs st)))
                   (events st ++
                    [Print ("Marked " ++ str_of_nat (S n) ++ " jobs as ghosted")]))
    end.
Proof.
  unfold check_ghosted_jobs. unfold bind at 1, get_jobs. unfold bind at 1.
  destruct st as [l file evs]. cbn [jobs jobs_file events].
  pose proof (ghost_loop_spec l [] 0 file evs) as H. cbn [app List.length] in H.
  rewrite H. cbn [Nat.add].
  assert (Hsame : filter (due days_since) l = [] -> map (ghosted W days_since) l = l).
  { clear H. induction l as [|job l IH]; [reflexivity|]. cbn [filter map].
    unfold ghosted at 1. destruct (due days_since job); [discriminate|].
    intros E. rewrite (IH E). reflexivity. }
  destruct (filter (due days_since) l) as [|x rest] eqn:E.
  - cbn [List.length Nat.ltb Nat.leb]. rewrite (Hsame eq_refl). reflexivity.
  - cbn [List.length]. change (0 <? S (List.length rest)) with true. cbn iota.
    run. reflexivity.
Qed.

Lemma due_ghosted (job : pyval) : due days_since (ghosted W days_since job) = false.
Proof.
  unfold ghosted. destruct (due days_since job) eqn:E; [|exact E].
  unfold due in E |- *. destruct job as [|b|z|q|s|l|d]; try discriminate E.
  unfold mark, py_item.
  rewrite lookup_set_same.
  destruct (days_since (strftime_now W)) as [days|]; [|reflexivity].
  rewrite lookup_set_other by discriminate. rewrite lookup_set_same.
  cbn. apply andb_false_r.
Qed.

End GhostedProofs.

(** X19.  [check_ghosted_jobs] is a map over the store.  It never raises;
    it keeps the number and the order of the records; a record is changed
    exactly when its last update parses and lies 180 days or more back and
    its status is none of Ghosted, Rejected and Hired (a record that
    cannot be read is skipped), and then only its status and its last
    update are set; the file is written, and the count printed, exactly
    when a record was changed. *)
Theorem check_ghosted_jobs_is_a_map (W : world) (days_since : string -> option Z)
        (st : tracker) :
  exists st',
    check_ghosted_jobs W days_since st = (Val tt, st') /\
    jobs st' = map (ghosted W days_since) (jobs st) /\
    List.length (jobs st') = List.length (jobs st) /\
    (forall job,
        due days_since job = true ->
        py_item (ghosted W days_since job) "status" = Val (PyStr "Ghosted") /\
        py_item (ghosted W days_since job) "last_update"
          = Val (PyStr (strftime_now W)) /\
        forall key, key <> "status" -> key <> "last_update" ->
                    py_item (ghosted W days_since job) key = py_item job key) /\
    (forall job, due days_since job = false -> ghosted W days_since job = job) /\
    match List.length (filter (due days_since) (jobs st)) with
    | 0 => jobs_file st' = jobs_file st /\
           events st' = (events st ++ [Print "No jobs to mark as ghosted"])%list
    | S n => jobs_file st' = Some (jobs st') /\
             events st' = (events st ++
                           [Print ("Marked " ++ str_of_nat (S n)
                                   ++ " jobs as ghosted")])%list
    end.
Proof.
  rewrite check_ghosted_jobs_spec.
  assert (Hsame : filter (due days_since) (jobs st) = [] ->
                  map (ghosted W days_since) (jobs st) = jobs st).
  { induction (jobs st) as [|job l IH]; [reflexivity|]. cbn [filter map].
    unfold ghosted at 1. destruct (due days_since job); [discriminate|].
    intros E. rewrite (IH E). reflexivity. }
  assert (Hfields : forall job,
             due days_since job = true ->
             py_item (ghosted W days_since job) "status" = Val (PyStr "Ghosted") /\
             py_item (ghosted W days_since job) "last_update"
               = Val (PyStr (strftime_now W)) /\
             forall key, key <> "status" -> key <> "last_update" ->
                         py_item (ghosted W days_since job) key = py_item job key).
  { intros job Hdue. unfold ghosted. rewrite Hdue.
    destruct job as [|b|z|q|s|l|d]; try discriminate Hdue. unfold mark, py_item.
    rewrite lookup_set_same.
    rewrite lookup_set_other by discriminate. rewrite lookup_set_same.
    split; [reflexivity|]. split; [reflexivity|].
    intros key H1 H2. rewrite !lookup_set_other by congruence. reflexivity. }
  assert (Hkeep : forall job, due days_since job = false -> ghosted W days_since job = job).
  { intros job H. unfold ghosted. rewrite H. reflexivity. }
  destruct (filter (due days_since) (jobs st)) as [|x rest] eqn:E; cbn [List.length].
  - eexists. split; [reflexivity|]. unfold after. cbn [jobs jobs_file events].
    rewrite (Hsame eq_refl).
    split; [reflexivity|]. split; [reflexivity|]. split; [exact Hfields|].
    split; [exact Hkeep | split; reflexivity].
  - eexists. split; [reflexivity|]. cbn [jobs jobs_file events].
    rewrite length_map.
    split; [reflexivity|]. split; [reflexivity|]. split; [exact Hfields|].
    split; [exact Hkeep | split; reflexivity].
Qed.

Lemma due_mark (W : world) (days_since : string -> option Z) (job : pyval) :
  due days_since (mark W job) = false.
Proof.
  unfold due. destruct job as [|b|z|q|s|l|d]; try reflexivity.
  unfold mark, py_item. rewrite lookup_set_same.
  destruct (days_since (strftime_now W)) as [days|]; [|reflexivity].
  rewrite lookup_set_other by discriminate. rewrite lookup_set_same.
  cbn. apply andb_false_r.
Qed.

Lemma check_ghosted_jobs_store (W : world) (days_since : string -> option Z)
      (st : tracker) :
  exists st',
    check_ghosted_jobs W days_since st = (Val tt, st') /\
    jobs st' = map (ghosted W days_since) (jobs st).
Proof.
  rewrite check_ghosted_jobs_spec.
  assert (Hsame : filter (due days_since) (jobs st) = [] ->
                  map (ghosted W days_since) (jobs st) = jobs st).
  { induction (jobs st) as [|job l IH]; [reflexivity|]. cbn [filter map].
    unfold ghosted at 1. destruct (due days_since job); [discriminate|].
    intros E. rewrite (IH E). reflexivity. }
  destruct (filter (due days_since) (jobs st)) as [|x rest]; cbn [List.length].
  - eexists. split; [reflexivity|]. unfold after. cbn [jobs]. symmetry. exact (Hsame eq_refl).
  - eexists. split; [reflexivity | reflexivity].
Qed.

(** X20.  Checking again.  A record that one run of [check_ghosted_jobs]
    marked is left as it is by a later run, whatever the date of that run
    and whatever else it marks; and a second run at the same date marks
    nothing at all: it changes no record, does not write the file, and
    prints that there is nothing to mark.  (A run at a later date can mark
    a record that was not yet due at the first one.) *)
Theorem check_ghosted_jobs_twice (W1 W2 : world) (days1 days2 : string -> option Z)
        (st : tracker) :
  (exists st2,
      check_ghosted_jobs W2 days2 (snd (check_ghosted_jobs W1 days1 st)) = (Val tt, st2) /\
      List.length (jobs st2) = List.length (jobs st) /\
      forall i job,
        nth_error (jobs st) i = Some job ->
        due days1 job = true ->
        nth_error (jobs (snd (check_ghosted_jobs W1 days1 st))) i = Some (mark W1 job) /\
        nth_error (jobs st2) i = Some (mark W1 job)) /\
  check_ghosted_jobs W1 days1 (snd (check_ghosted_jobs W1 days1 st))
  = (Val tt, after (snd (check_ghosted_jobs W1 days1 st))
                   (Print "No jobs to mark as ghosted")).
Proof.
  split.
  - destruct (check_ghosted_jobs_store W1 days1 st) as (st1 & Hrun1 & Hjobs1).
    rewrite Hrun1. cbn [snd].
    destruct (check_ghosted_jobs_store W2 days2 st1) as (st2 & Hrun2 & Hjobs2).
    exists st2. split; [exact Hrun2|].
    split; [rewrite Hjobs2, Hjobs1, !length_map; reflexivity|].
    intros i job Hn Hdue.
    assert (H1 : nth_error (jobs st1) i = Some (mark W1 job)).
    { rewrite Hjobs1, nth_error_map, Hn. cbn [option_map]. unfold ghosted.
      rewrite Hdue. reflexivity. }
    split; [exact H1|].
    rewrite Hjobs2, nth_error_map, H1. cbn [option_map]. unfold ghosted.
    rewrite due_mark. reflexivity.
  - assert (Hnone : forall l, filter (due days1) (map (ghosted W1 days1) l) = []).
    { induction l as [|job l IH]; [reflexivity|]. cbn [map filter].
      rewrite due_ghosted. exact IH. }
    rewrite (check_ghosted_jobs_spec W1 days1 (snd (check_ghosted_jobs W1 days1 st))).
    rewrite (check_ghosted_jobs_spec W1 days1 st).
    destruct (filter (due days1) (jobs st)) as [|x rest] eqn:E; cbn [List.length snd].
    + unfold after at 1 3. cbn [jobs]. rewrite E. reflexivity.
    + cbn [jobs]. rewrite Hnone. reflexivity.
Qed.

(** A record whose last update lies 179 days back is left alone today and
    marked by the run of the next day. *)
Example marked_a_day_later :
  exists st1 st2,
    check_ghosted_jobs offline (fun _ => Some 179%Z) (init (Some [older_record]))
      = (Val tt, st1) /\
    jobs st1 = [older_record] /\
    jobs_file st1 = Some [older_record] /\
    check_ghosted_jobs the_next_day (fun _ => Some 180%Z) st1 = (Val tt, st2) /\
    jobs st2 = [mark the_next_day older_record] /\
    py_item (mark the_next_day older_record) "status" = Val (PyStr "Ghosted") /\
    py_item (mark the_next_day older_record) "last_update" = Val (PyStr "11/05/2026") /\
    jobs_file st2 = Some (jobs st2).
Proof.
  do 2 eexists. split; [reflexivity|]. split; [reflexivity|].
  split; [reflexivity|]. split; [reflexivity|].
  repeat split; reflexivity.
Qed.

(** *** The handlers of the server that change a record *)

Import Server.

Lemma assign_at (W : world) (l : list pyval) (i : nat) (d : dict) (key : string)
      (x : pyval) (file : option (list pyval)) (evs : list event) :
  nth_error l i = Some (PyDict d) ->
  assign i key x (mkTracker l file evs)
  = (Val tt, mkTracker (replace_nth i (PyDict (dict_set key x d)) l) file evs).
Proof.
  intros H. unfold assign, get_job. run. rewrite H. cbn [py_setitem]. reflexivity.
Qed.

Lemma assign_fail (l : list pyval) (i : nat) (job : pyval) (key : string)
      (x : pyval) (e : exn) (file : option (list pyval)) (evs : list event) :
  nth_error l i = Some job ->
  py_setitem job key x = Exn e ->
  assign i key x (mkTracker l file evs) = (Exn e, mkTracker l file evs).
Proof.
  intros H Hs. unfold assign, get_job. run. rewrite H, Hs. reflexivity.
Qed.

Lemma nth_error_replace (i : nat) (x : pyval) (l : list pyval) :
  i < List.length l -> nth_error (replace_nth i x l) i = Some x.
Proof.
  revert i. induction l as [|y l IH]; intros [|i] H; cbn in *; try lia; [reflexivity|].
  apply IH. lia.
Qed.

Lemma replace_nth_twice (i : nat) (x y : pyval) (l : list pyval) :
  replace_nth i y (replace_nth i x l) = replace_nth i y l.
Proof.
  revert i. induction l as [|z l IH]; intros [|i]; cbn; try reflexivity.
  f_equal. apply IH.
Qed.

(** The handler on a JSON object, by the outcome of its test. *)
Lemma update_status_eq (W : world) (d : dict) (file : option (list pyval)) :
  update_status W (PyDict d) file =
  if is_not_none (field_of d "job_id") && is_not_none (field_of d "status") then
    match in_bounds (field_of d "job_id") (List.length (load_jobs file)) with
    | Val true =>
        (assign_by (field_of d "job_id") "status" (field_of d "status") ;;;
         assign_by (field_of d "job_id") "last_update" (PyStr (strftime_now W)) ;;;
         save_jobs ;;;
         ret (PyDict [("success", PyBool true)], 200%Z)) (init file)
    | Val false => (Val invalid_request, init file)
    | Exn e => (Exn e, init file)
    end
  else (Val invalid_request, init file).
Proof.
  unfold update_status, field_of, or_default.
  unfold bind at 1. cbn [lift py_get or_default].
  unfold bind at 1. cbn [lift].
  unfold bind at 1, get_jobs at 1.
  set (job_id := match dict_lookup "job_id" d with Some x => x | None => PyNone end).
  set (new_status := match dict_lookup "status" d with Some x => x | None => PyNone end).
  destruct (is_not_none job_id && is_not_none new_status).
  - unfold bind at 1, lift. cbn [init jobs].
    destruct (in_bounds _ _) as [[|]|e]; reflexivity.
  - reflexivity.
Qed.

(** X21.  What a status update changes, for every JSON body.  A body that
    is not an object raises.  For an object, the handler answers 400 and
    touches nothing when the job id or the status is missing or [null], or
    when the job id is a number (a boolean counts as 0 or 1) outside the
    range of the stored records.  It raises, without writing, when the
    status is there and the job id is a string, a list or an object (the
    comparison fails), when the job id is a fraction inside the range (it
    is no list index), and when the named record is not an object.
    Otherwise it answers with success, and the file then holds the same
    records in the same order, the named one with the new status, whatever
    value that is, and with today as its last update, and with its other
    fields as they were. *)
Theorem update_status_effect (W : world) (data : pyval) (file : option (list pyval)) :
  match update_status W data file with
  | (Val (response, code), st') =>
      exists d,
        data = PyDict d /\
        ((response = PyDict [("success", PyBool true)] /\ code = 200%Z /\
          exists i job job',
            as_int (field_of d "job_id") = Some (Z.of_nat i) /\
            field_of d "status" <> PyNone /\
            nth_error (load_jobs file) i = Some job /\
            jobs_file st' = Some (replace_nth i job' (load_jobs file)) /\
            py_item job' "status" = Val (field_of d "status") /\
            py_item job' "last_update" = Val (PyStr (strftime_now W)) /\
            (forall key, key <> "status" -> key <> "last_update" ->
                         py_item job' key = py_item job key) /\
            List.length (replace_nth i job' (load_jobs file))
              = List.length (load_jobs file) /\
            (forall j, j <> i ->
                       nth_error (replace_nth i job' (load_jobs file)) j
                       = nth_error (load_jobs file) j)) \/
         (response = Server.failure "Invalid request" /\ code = 400%Z /\
          jobs_file st' = file /\
          (field_of d "job_id" = PyNone \/
           field_of d "status" = PyNone \/
           (exists i, as_int (field_of d "job_id") = Some i /\
                      ~ (0 <= i < Z.of_nat (List.length (load_jobs file)))%Z) \/
           (exists q, field_of d "job_id" = PyFloat q /\
                      ~ (0 <= q /\ q < inject_Z (Z.of_nat (List.length (load_jobs file))))%Q))))
  | (Exn e, st') =>
      jobs_file st' = file /\
      ((forall d, data <> PyDict d) \/
       exists d,
         data = PyDict d /\
         field_of d "status" <> PyNone /\
         ((unordered (field_of d "job_id") /\ exn_cls e = TypeError) \/
          (exists q, field_of d "job_id" = PyFloat q /\
                     (0 <= q /\ q < inject_Z (Z.of_nat (List.length (load_jobs file))))%Q /\
                     exn_cls e = TypeError) \/
          (exists i job,
              as_int (field_of d "job_id") = Some (Z.of_nat i) /\
              nth_error (load_jobs file) i = Some job /\
              py_setitem job "status" (field_of d "status") = Exn e)))
  end.
Proof.
  destruct data as [|b0|z0|q0|s0|l0|d];
    try (cbn; split; [reflexivity | left; intros d; discriminate]).
  rewrite update_status_eq.
  remember (field_of d "job_id") as job_id eqn:Ej.
  remember (field_of d "status") as new_status eqn:Es.
  set (l := load_jobs file).
  destruct (is_not_none job_id) eqn:Hj.
  2:{ cbn [andb jobs_file init]. exists d; rewrite <- ?Ej, <- ?Es; split; [reflexivity|]. right.
      split; [reflexivity|]. split; [reflexivity|]. split; [reflexivity|].
      left. destruct job_id; try discriminate Hj. reflexivity. }
  destruct (is_not_none new_status) eqn:Hs.
  2:{ cbn [andb jobs_file init]. exists d; rewrite <- ?Ej, <- ?Es; split; [reflexivity|]. right.
      split; [reflexivity|]. split; [reflexivity|]. split; [reflexivity|].
      right. left. destruct new_status; try discriminate Hs. reflexivity. }
  assert (Hstatus : new_status <> PyNone)
    by (intros E; rewrite E in Hs; discriminate Hs).
  cbn [andb].
  destruct (in_bounds job_id (List.length l)) as [[|]|e] eqn:Hr.
  - (* inside the range *)
    destruct (as_int job_id) as [i|] eqn:Hint.
    + assert (Hi : (0 <= i < Z.of_nat (List.length l))%Z).
      { destruct job_id; try discriminate Hint; cbn [in_bounds] in Hr;
          rewrite Hint in Hr; injection Hr as Hb;
          apply andb_prop in Hb; destruct Hb as [H1 H2];
          apply Z.leb_le in H1; apply Z.ltb_lt in H2; lia. }
      assert (Hidx : list_index job_id (List.length l) = Val (Z.to_nat i)).
      { unfold list_index. rewrite Hint.
        replace ((0 <=? i)%Z && (i <? Z.of_nat (List.length l))%Z) with true; [reflexivity|].
        symmetry. apply andb_true_intro. split; [apply Z.leb_le | apply Z.ltb_lt]; lia. }
      destruct (nth_error l (Z.to_nat i)) as [job|] eqn:Hn.
      2:{ apply nth_error_None in Hn. lia. }
      assert (Hid : i = Z.of_nat (Z.to_nat i)) by lia.
      unfold assign_by. unfold bind at 1. unfold bind at 1, get_jobs at 1.
      cbn [init jobs]. fold l. unfold bind at 1, lift at 1. rewrite Hidx.
      destruct (py_setitem job "status" new_status) as [job1|e] eqn:Hset.
      * destruct job as [|b|z|q|s|l1|dj]; try discriminate Hset.
        unfold init; fold l. rewrite (assign_at W _ _ dj) by exact Hn.
        unfold bind at 1. unfold bind at 1. unfold bind at 1, get_jobs at 1.
        cbn [jobs]. unfold bind at 1, lift at 1.
        rewrite replace_nth_length, Hidx.
        rewrite (assign_at W _ _ (dict_set "status" new_status dj))
          by (apply nth_error_replace; apply nth_error_Some; congruence).
        rewrite replace_nth_twice. unfold bind, save_jobs, ret.
        cbn [jobs jobs_file events].
        exists d; rewrite <- ?Ej, <- ?Es; split; [reflexivity|]. left.
        split; [reflexivity|]. split; [reflexivity|].
        exists (Z.to_nat i), (PyDict dj). eexists.
        split; [rewrite <- Hid; exact Hint|].
        split; [exact Hstatus|].
        split; [exact Hn|]. split; [reflexivity|].
        unfold py_item.
        split; [rewrite lookup_set_other by discriminate; rewrite lookup_set_same;
                reflexivity|].
        split; [rewrite lookup_set_same; reflexivity|].
        split; [intros key K1 K2; rewrite !lookup_set_other by congruence; reflexivity|].
        split; [apply replace_nth_length|].
        intros j Hjn. apply replace_nth_other. exact Hjn.
      * unfold init; fold l. rewrite (assign_fail _ _ _ _ _ e _ _ Hn Hset). cbn [jobs_file].
        split; [reflexivity|]. right. exists d; rewrite <- ?Ej, <- ?Es; split; [reflexivity|].
        split; [exact Hstatus|]. right. right.
        exists (Z.to_nat i), job. split; [rewrite <- Hid; exact Hint|].
        split; [exact Hn | exact Hset].
    + (* a fraction inside the range *)
      destruct job_id as [|b|z|q|s|l1|dj] eqn:Ejob; try discriminate Hint;
        try discriminate Hr.
      cbn [in_bounds] in Hr. injection Hr as Hb.
      apply andb_prop in Hb. destruct Hb as [H1 H2].
      apply Qle_bool_iff in H1.
      assert (H3 : (q < inject_Z (Z.of_nat (List.length l)))%Q).
      { apply Qnot_le_lt. intros Hle. apply Qle_bool_iff in Hle.
        rewrite Hle in H2. discriminate H2. }
      unfold assign_by, bind, get_jobs, lift. cbn [init jobs list_index as_int jobs_file].
      split; [reflexivity|]. right. exists d; rewrite <- ?Ej, <- ?Es; split; [reflexivity|].
      split; [exact Hstatus|]. right. left. exists q.
      split; [reflexivity|]. split; [split; assumption | reflexivity].
  - (* a number outside the range *)
    cbn [jobs_file init]. exists d; rewrite <- ?Ej, <- ?Es; split; [reflexivity|]. right.
    split; [reflexivity|]. split; [reflexivity|]. split; [reflexivity|].
    right. right.
    destruct job_id as [|b|z|q|s|l1|dj] eqn:Ejob; try discriminate Hr.
    + left. exists (Z.b2z b). split; [reflexivity|].
      cbn [in_bounds as_int] in Hr. injection Hr as Hb. intros [H1 H2].
      apply Z.leb_le in H1. apply Z.ltb_lt in H2. rewrite H1, H2 in Hb. discriminate Hb.
    + left. exists z. split; [reflexivity|].
      cbn [in_bounds as_int] in Hr. injection Hr as Hb. intros [H1 H2].
      apply Z.leb_le in H1. apply Z.ltb_lt in H2. rewrite H1, H2 in Hb. discriminate Hb.
    + right. exists q. split; [reflexivity|].
      cbn [in_bounds] in Hr. injection Hr as Hb. intros [H1 H2].
      apply Qle_bool_iff in H1. rewrite H1 in Hb. cbn [andb] in Hb.
      apply negb_false_iff in Hb. apply Qle_bool_iff in Hb.
      exact (Qlt_not_le _ _ H2 Hb).
  - (* the comparison raises *)
    cbn [jobs_file init]. split; [reflexivity|]. right.
    exists d; rewrite <- ?Ej, <- ?Es; split; [reflexivity|].
    split; [exact Hstatus|]. left.
    destruct job_id as [|b|z|q|s|l1|dj]; try discriminate Hr; try discriminate Hj;
      cbn [in_bounds] in Hr; injection Hr as He; rewrite <- He;
      (split; [exact I | reflexivity]).
Qed.

Example text_job_id_raises :
  update_status offline
    (PyDict [("job_id", PyStr "0"); ("status", PyStr "Ghosted")])
    (Some [stored_example])
  = (Exn (mkExn TypeError "'<=' not supported between instances of 'int' and 'str'"),
     init (Some [stored_example])).
Proof. reflexivity. Qed.

Example fractional_job_id_raises :
  update_status offline
    (PyDict [("job_id", PyFloat 0); ("status", PyStr "Ghosted")])
    (Some [stored_example])
  = (Exn (mkExn TypeError "list indices must be integers or slices, not float"),
     init (Some [stored_example])).
Proof. reflexivity. Qed.

Example true_names_the_second_record :
  exists st',
    update_status offline
      (PyDict [("job_id", PyBool true); ("status", PyStr "Ghosted")])
      (Some [stored_example; older_record])
    = (Val (PyDict [("success", PyBool true)], 200%Z), st') /\
    nth_error (jobs st') 0 = Some stored_example /\
    (exists job', nth_error (jobs st') 1 = Some job' /\
                  py_item job' "status" = Val (PyStr "Ghosted")).
Proof.
  eexists. split; [vm_compute; reflexivity|].
  split; [reflexivity|]. eexists. split; reflexivity.
Qed.

Section Edit.

Variable W : world.
Variable str_title : string -> string.

Lemma get_job_middle (done todo : list pyval) (job : pyval)
      (file : option (list pyval)) (evs : list event) :
  get_job (List.length done) (mkTracker (done ++ job :: todo) file evs)
  = (Val job, mkTracker (done ++ job :: todo) file evs).
Proof. unfold get_job. cbn [jobs]. rewrite nth_error_middle. reflexivity. Qed.

Lemma assign_other_info_middle (done todo : list pyval) (d other_info : dict)
      (key : string) (x : pyval) (file : option (list pyval)) (evs : list event) :
  dict_lookup "other_info" d = Some (PyDict other_info) ->
  assign_other_info (List.length done) key x
                    (mkTracker (done ++ PyDict d :: todo) file evs)
  = (Val tt,
     mkTracker (done ++ PyDict (dict_set "other_info"
                                         (PyDict (dict_set key x other_info)) d)
                     :: todo) file evs).
Proof.
  intros H. unfold assign_other_info. unfold bind at 1. rewrite get_job_middle.
  unfold bind at 1, lift, py_item. rewrite H. unfold bind at 1. cbn [py_setitem].
  apply assign_middle.
Qed.

(** The record that [handle_job_edit] makes of a record of the pipeline
    and the fields of the request. *)
Lemma edit_pipeline_record (done todo : list pyval) (title company description : pyval)
      (other_info : dict) (source source_type date_added status last_update : pyval)
      (data : dict) (file : option (list pyval)) :
  load_jobs file
  = (done ++ record_with title company description other_info
                         source source_type date_added status last_update
          :: todo)%list ->
  exists job',
    handle_job_edit W (List.length done) POST (PyDict data) file
    = (Val (Server.success_with job', 200%Z),
       mkTracker (done ++ job' :: todo) (Some (done ++ job' :: todo)%list) []) /\
    job' = PyDict
             [ ("title", or_default data "title" title);
               ("company", or_default data "company" company);
               ("description", or_default data "description" description);
               ("other_info",
                PyDict (dict_set "salary"
                          (or_default data "salary"
                             (or_default (dict_set "location"
                                            (or_default data "location"
                                               (or_default other_info "location" PyNone))
                                            other_info) "salary" PyNone))
                          (dict_set "location"
                             (or_default data "location"
                                (or_default other_info "location" PyNone))
                             other_info)));
               ("source", source);
               ("source_type", source_type);
               ("date_added", date_added);
               ("status", status);
               ("last_update", PyStr (strftime_now W));
               ("url", or_default data "url" PyNone) ].
Proof.
  intros Hl. eexists. split; [|reflexivity].
  unfold handle_job_edit, init. rewrite Hl.
  unfold bind at 1, get_jobs. cbn [jobs].
  replace (List.length done <? List.length (done ++ _ :: todo)) with true
    by (symmetry; apply Nat.ltb_lt; rewrite length_app; cbn; lia).
  cbn [negb]. unfold record_with.
  unfold bind at 1. rewrite get_job_middle.
  unfold bind at 1. cbn [lift py_get_or py_item dict_lookup String.eqb Ascii.eqb Bool.eqb rbind].
  unfold bind at 1. rewrite assign_middle.
  cbn [dict_set String.eqb Ascii.eqb Bool.eqb].
  unfold bind at 1. rewrite get_job_middle.
  unfold bind at 1. cbn [lift py_get_or py_item dict_lookup String.eqb Ascii.eqb Bool.eqb rbind].
  unfold bind at 1. rewrite assign_middle.
  cbn [dict_set String.eqb Ascii.eqb Bool.eqb].
  unfold bind at 1. rewrite get_job_middle.
  unfold bind at 1. cbn [lift py_get_or py_item dict_lookup String.eqb Ascii.eqb Bool.eqb rbind].
  unfold bind at 1. rewrite assign_middle.
  cbn [dict_set String.eqb Ascii.eqb Bool.eqb].
  unfold bind at 1. rewrite get_job_middle.
  unfold bind at 1. cbn [lift py_contains dict_lookup String.eqb Ascii.eqb Bool.eqb negb].
  unfold bind at 1. cbn [ret].
  unfold bind at 1. rewrite get_job_middle.
  unfold bind at 1.
  cbn [lift py_get_or other_info_get py_get dict_lookup String.eqb Ascii.eqb Bool.eqb rbind].
  unfold bind at 1. erewrite assign_other_info_middle by reflexivity.
  cbn [dict_set String.eqb Ascii.eqb Bool.eqb].
  unfold bind at 1. rewrite get_job_middle.
  unfold bind at 1.
  cbn [lift py_get_or other_info_get py_get dict_lookup String.eqb Ascii.eqb Bool.eqb rbind].
  unfold bind at 1. erewrite assign_other_info_middle by reflexivity.
  cbn [dict_set String.eqb Ascii.eqb Bool.eqb].
  unfold bind at 1. rewrite get_job_middle.
  unfold bind at 1.
  cbn [lift py_get_or py_get dict_lookup String.eqb Ascii.eqb Bool.eqb rbind].
  unfold bind at 1. rewrite assign_middle.
  cbn [dict_set String.eqb Ascii.eqb Bool.eqb].
  unfold bind at 1. rewrite assign_middle.
  cbn [dict_set String.eqb Ascii.eqb Bool.eqb].
  unfold bind at 1, save_jobs. cbn [jobs jobs_file events].
  unfold bind at 1. rewrite get_job_middle.
  unfold ret, or_default. reflexivity.
Qed.


Lemma show_job_details_showable (done todo : list pyval) (job : pyval)
      (file : option (list pyval)) (evs : list event) :
  showable job ->
  exists st' evs',
    Manager.show_job_details W str_title (Z.of_nat (List.length done) + 1)
                             (mkTracker (done ++ job :: todo) file evs)
    = (Val tt, st') /\
    logs (mkTracker (done ++ job :: todo) file evs) st' evs'.
Proof.
  intros (Hitems & (oi & Hoi) & Hnotes).
  assert (Hitem : forall key,
             In key ["title"; "company"; "status"; "date_added"; "last_update";
                     "description"; "url"] ->
             exists v, py_item job key = Val v)
    by (intros key Hin; rewrite Forall_forall in Hitems; exact (Hitems key Hin)).
  destruct (Hitem "title" ltac:(cbn; tauto)) as [t Ht].
  destruct (Hitem "company" ltac:(cbn; tauto)) as [c Hc].
  destruct (Hitem "status" ltac:(cbn; tauto)) as [s Hs].
  destruct (Hitem "date_added" ltac:(cbn; tauto)) as [da Hda].
  destruct (Hitem "last_update" ltac:(cbn; tauto)) as [lu Hlu].
  destruct (Hitem "description" ltac:(cbn; tauto)) as [de Hde].
  destruct (Hitem "url" ltac:(cbn; tauto)) as [u Hu].
  assert (Hoi' : oi <> [] -> py_item job "other_info" = Val (PyDict oi)).
  { intros Hne. destruct job as [|b|z|q|x|l|d]; try discriminate Hoi.
    unfold py_get in Hoi. unfold py_item.
    destruct (dict_lookup "other_info" d) as [v|]; [congruence|].
    inversion Hoi. }
  unfold Manager.show_job_details. run.
  replace ((Z.of_nat (List.length done) + 1 <? 1)%Z
           || (Z.of_nat (List.length (done ++ job :: todo))
               <? Z.of_nat (List.length done) + 1)%Z) with false.
  2:{ symmetry. apply orb_false_intro; apply Z.ltb_ge;
        rewrite ?length_app; cbn [List.length]; lia. }
  replace (Z.to_nat (Z.of_nat (List.length done) + 1 - 1)) with (List.length done) by lia.
  rewrite nth_error_middle, Ht, Hc, Hs, Hda, Hlu, Hoi, Hde, Hnotes, Hu.
  cbn [truthy].
  destruct oi as [|kv rest].
  - do 2 eexists. split; [reflexivity | solve_logs].
  - rewrite Hoi' by discriminate. cbn [py_items].
    match goal with
    | |- context [print_items W str_title ?ind (kv :: rest) ?s] =>
        destruct (print_items_total W str_title ind (kv :: rest) s)
          as (st1 & e1 & Hrun & Hlog)
    end.
    rewrite Hrun. unfold logs in Hlog. subst st1. cbn [jobs jobs_file events].
    do 2 eexists. split; [reflexivity | solve_logs].
Qed.

End Edit.

(** X22.  Editing a record through the server makes it a record that the
    manager can show.  For a record of the pipeline's shape, stored on
    whatever day and whatever its status has become, and a JSON object as
    body, a POST to [handle_job_edit] answers with success and the edited
    record and writes the file with that record in the place of the old
    one, the others untouched.  The edited record has a field 'url'
    ([null] unless the body gives one), today as its last update, and
    title, company and description are those of the body where it gives
    them; so [show_job_details], which raises on the record as the
    pipeline made it, returns normally on the edited one. *)
Theorem edited_record_can_be_shown (W : world) (str_title : string -> string)
        (file : option (list pyval)) (job_id : nat) (job : pyval) (data : dict) :
  nth_error (load_jobs file) job_id = Some job ->
  pipeline_shaped job ->
  exists job' st',
    handle_job_edit W job_id POST (PyDict data) file
      = (Val (Server.success_with job', 200%Z), st') /\
    jobs st' = replace_nth job_id job' (load_jobs file) /\
    jobs_file st' = Some (jobs st') /\
    py_item job' "url" = Val (or_default data "url" PyNone) /\
    py_item job' "last_update" = Val (PyStr (strftime_now W)) /\
    py_item job' "title" = rbind (py_item job "title")
                                 (fun x => Val (or_default data "title" x)) /\
    py_item job' "company" = rbind (py_item job "company")
                                   (fun x => Val (or_default data "company" x)) /\
    py_item job' "description" = rbind (py_item job "description")
                                       (fun x => Val (or_default data "description" x)) /\
    py_item job' "date_added" = py_item job "date_added" /\
    py_item job' "status" = py_item job "status" /\
    exists st'' evs,
      Manager.show_job_details W str_title (Z.of_nat job_id + 1) st' = (Val tt, st'') /\
      logs st' st'' evs.
Proof.
  intros Hn (t & c & desc & oi & src & sty & added & status & updated & -> & _).
  destruct (nth_error_split _ _ _ Hn) as (done & todo & Hl & <-).
  destruct (edit_pipeline_record W done todo t c desc oi src sty added status updated
                                 data file Hl)
    as (job' & Hrun & Hjob).
  exists job'. eexists. split; [exact Hrun|].
  cbn [jobs jobs_file]. rewrite Hl, replace_nth_app.
  split; [reflexivity|]. split; [reflexivity|].
  rewrite Hjob.
  split; [reflexivity|]. split; [reflexivity|]. split; [reflexivity|].
  split; [reflexivity|]. split; [reflexivity|]. split; [reflexivity|].
  split; [reflexivity|].
  apply show_job_details_showable.
  split; [repeat constructor; eexists; reflexivity|].
  split; [eexists; reflexivity | reflexivity].
Qed.

Lemma edited_record_can_be_shown_witness :
  exists job' st',
    handle_job_edit offline 1 POST (PyDict url_request)
                    (Some [stored_example; older_record])
      = (Val (Server.success_with job', 200%Z), st') /\
    jobs st' = replace_nth 1 job' (load_jobs (Some [stored_example; older_record])) /\
    jobs_file st' = Some (jobs st') /\
    py_item job' "url" = Val (or_default url_request "url" PyNone) /\
    py_item job' "last_update" = Val (PyStr (strftime_now offline)) /\
    py_item job' "title" = rbind (py_item older_record "title")
                                 (fun x => Val (or_default url_request "title" x)) /\
    py_item job' "company" = rbind (py_item older_record "company")
                                   (fun x => Val (or_default url_request "company" x)) /\
    py_item job' "description"
      = rbind (py_item older_record "description")
              (fun x => Val (or_default url_request "description" x)) /\
    py_item job' "date_added" = py_item older_record "date_added" /\
    py_item job' "status" = py_item older_record "status" /\
    exists st'' evs,
      Manager.show_job_details offline lower (Z.of_nat 1 + 1) st' = (Val tt, st'') /\
      logs st' st'' evs.
Proof.
  apply (edited_record_can_be_shown offline lower
           (Some [stored_example; older_record]) 1 older_record url_request).
  - reflexivity.
  - exact older_record_shaped.
Defined.

(** *** What happens after the acquisition *)

Section AfterAcquisition.

Variable W : world.
Variable P : event -> Prop.
Hypothesis P_print : forall msg, P (Print msg).
Hypothesis P_post : forall model prompt, P (HttpPost model prompt).
Hypothesis P_sleep : forall seconds, P (Sleep seconds).

Lemma emits_model_loop_any (ms : list string) (prompt : string) :
  emits P (model_loop W ms prompt).
Proof.
  induction ms as [|m ms IH]; cbn [model_loop]; [apply emits_ret|].
  apply emits_bind; [|intros [d|]; [apply emits_ret | exact IH]].
  apply emits_try_except; [|intros e; unfold model_failed; emits_steps; apply P_print].
  unfold try_model. emits_steps; auto. apply emits_parse. exact P_print.
Qed.

Lemma emits_try_ollama_any (content : string) :
  emits P (try_ollama_extraction W content).
Proof.
  unfold try_ollama_extraction. generalize (seq 0 max_retries) as attempts.
  induction attempts as [|a l IH]; cbn [attempt_loop]; [apply emits_ret|].
  apply emits_bind; [|intros [d|]; [apply emits_ret | exact IH]].
  unfold attempt_body. emits_steps; auto. apply emits_model_loop_any.
Qed.

Lemma emits_extract_job_info_any (content source_type source : string) :
  emits P (extract_job_info_from_content W content source_type source).
Proof.
  unfold extract_job_info_from_content, extract_with_ollama, fallback_extraction.
  emits_steps; auto; apply emits_try_ollama_any.
Qed.

Lemma emits_save_job_info_any (job_info : option pyval) :
  emits P (save_job_info W job_info).
Proof. unfold save_job_info. emits_steps; auto. Qed.

End AfterAcquisition.

(** X23.  Only an input that begins with "http" makes the tracker fetch a
    page: for any other input, a path of a PDF or of a text file or a
    literal text, a submission requests no URL, whatever the input contains
    and whatever the world does. *)
Theorem no_fetch_without_http (W : world) (user_input : string) (st : tracker) :
  startswith "http" (strip user_input) = false ->
  exists evs,
    events (snd (add_job_from_input W user_input st)) = (events st ++ evs)%list /\
    forall url, ~ In (HttpGet url) evs.
Proof.
  intros Hhttp.
  assert (H : emits no_fetch (add_job_from_input W user_input)).
  { unfold add_job_from_input. rewrite Hhttp.
    unfold add_job_from_pdf, add_job_from_text_file, add_job_from_text, extract_from_pdf.
    repeat first
      [ apply emits_extract_job_info_any; intros; exact I
      | apply emits_save_job_info_any; intros; exact I
      | emits_step ];
      exact I. }
  destruct (H st) as (evs & Hev & HP). exists evs. split; [exact Hev|].
  intros url Hin. rewrite Forall_forall in HP. exact (HP _ Hin).
Qed.

Lemma no_fetch_without_http_witness :
  startswith "http" (strip "see https://example.com/jobs/42") = false /\
  exists evs,
    events (snd (add_job_from_input offline "see https://example.com/jobs/42"
                                    (init None)))
    = (events (init None) ++ evs)%list /\
    forall url, ~ In (HttpGet url) evs.
Proof.
  split; [reflexivity|].
  apply (no_fetch_without_http offline "see https://example.com/jobs/42" (init None)).
  reflexivity.
Defined.
